(** * Ad lifecycle and monetization engine of the classifieds backend

    A shallow embedding of the request handlers of [server.py] that own the
    ad state machine, the listing order, the manual TopUp cooldown, the
    payment-order / webhook reconciliation and the seller reputation
    aggregate, followed by the properties of these handlers.

    Conventions of the embedding.
    - Instants ([datetime.now(timezone.utc)]) are integers: microseconds
      since the epoch, the resolution of a Python [datetime].  An ISO string
      written by [isoformat()] and the float written by [timestamp()] both
      denote such an instant and are kept as the instant itself; their
      orders agree with the order of the instants.
    - Every call of [datetime.now] in a handler is an argument of the
      embedded handler, in the order of the calls.
    - A collection of the document store is the list of its documents in
      insertion order; [find_one] and [update_one] act on the first match.
    - A handler is a state-and-exception computation over the collections
      and the list of notification tasks handed to [asyncio.create_task]. *)

From Stdlib Require Import ZArith List String Bool Lia DecimalString.
From Stdlib Require Import Sorting.Sorted Sorting.Permutation.
Import ListNotations.

Local Open Scope string_scope.
Local Open Scope Z_scope.

(** ** JSON values *)

#[warnings="-register-all"] Inductive json : Type :=
| JNull
| JBool (b : bool)
| JNum (n : Z)
| JStr (s : string)
| JArr (items : list json)
| JObj (fields : list (string * json)).

(** [d.get(key)] on a decoded object: the first binding of [key], or
    [None] (Python's [None]) when there is none. *)
Fixpoint assoc_get (key : string) (fields : list (string * json)) : option json :=
  match fields with
  | [] => None
  | (k, v) :: rest => if String.eqb k key then Some v else assoc_get key rest
  end.

(** [v == s] for a value read from a decoded object and a string literal. *)
Definition json_is_str (v : option json) (s : string) : bool :=
  match v with
  | Some (JStr s') => String.eqb s' s
  | _ => false
  end.

(** Python truthiness of a value read with [.get]. *)
Definition json_truthy (v : option json) : bool :=
  match v with
  | None | Some JNull => false
  | Some (JBool b) => b
  | Some (JNum n) => negb (n =? 0)
  | Some (JStr s) => negb (String.eqb s "")
  | Some (JArr items) => match items with [] => false | _ => true end
  | Some (JObj fields) => match fields with [] => false | _ => true end
  end.

Definition opt_str_is (v : option string) (s : string) : bool :=
  match v with
  | Some s' => String.eqb s' s
  | None => false
  end.

(** A stored string field that may hold null, and a value read with
    [.get], as they are put into the data of a notification. *)
Definition json_of_opt_string (v : option string) : json :=
  match v with
  | Some s => JStr s
  | None => JNull
  end.

Definition json_of_opt (v : option json) : json :=
  match v with
  | Some x => x
  | None => JNull
  end.

(** A whole number as an f-string prints it. *)
Definition decimal (z : Z) : string := NilZero.string_of_int (Z.to_int z).

(** [f"{price} €" if price else "Preț la cerere"], for a price that is a
    whole number or null. *)
Definition price_str (price : option Z) : string :=
  match price with
  | Some p => if p =? 0 then "Preț la cerere" else decimal p ++ " €"
  | None => "Preț la cerere"
  end.

(** ** Time *)

Definition instant := Z.

Definition MICROS_PER_MINUTE : Z := 60 * 1000000.
Definition MICROS_PER_DAY : Z := 24 * 60 * MICROS_PER_MINUTE.

(** [now + timedelta(days=d)] *)
Definition plus_days (now : instant) (d : Z) : instant := now + d * MICROS_PER_DAY.

(** ** Documents *)

Module User.
Record t := mk {
  user_id : string;
  email : string;
  name : string;
  role : option string;
  referral_count : option Z;
  (** [avg_rating] in tenths: [45] is the stored [4.5]. *)
  avg_rating : option Z;
  total_reviews : option Z
}.
End User.

Module Ad.
Record t := mk {
  ad_id : string;
  user_id : string;
  title : option string;
  description : option string;
  category_id : option string;
  subcategory_id : option string;
  city_id : option string;
  price : option Z;
  price_type : string;
  contact_phone : option string;
  contact_email : string;
  images : list string;
  status : string;
  is_boosted : bool;
  boost_expires_at : option instant;
  is_promoted : bool;
  promote_expires_at : option instant;
  views : Z;
  is_paid : bool;
  auto_topup : bool;
  topup_rank : Z;
  last_topup : option instant;
  created_at : instant;
  updated_at : instant
}.

Definition set_topup (now : instant) (a : t) : t :=
  mk (ad_id a) (user_id a) (title a) (description a) (category_id a)
     (subcategory_id a) (city_id a) (price a) (price_type a)
     (contact_phone a) (contact_email a) (images a) (status a)
     (is_boosted a) (boost_expires_at a) (is_promoted a)
     (promote_expires_at a) (views a) (is_paid a) (auto_topup a)
     now (Some now) (created_at a) (updated_at a).

Definition set_paid_pending (a : t) : t :=
  mk (ad_id a) (user_id a) (title a) (description a) (category_id a)
     (subcategory_id a) (city_id a) (price a) (price_type a)
     (contact_phone a) (contact_email a) (images a) "pending"
     (is_boosted a) (boost_expires_at a) (is_promoted a)
     (promote_expires_at a) (views a) true (auto_topup a)
     (topup_rank a) (last_topup a) (created_at a) (updated_at a).

Definition set_boost (expires : instant) (a : t) : t :=
  mk (ad_id a) (user_id a) (title a) (description a) (category_id a)
     (subcategory_id a) (city_id a) (price a) (price_type a)
     (contact_phone a) (contact_email a) (images a) (status a)
     true (Some expires) (is_promoted a)
     (promote_expires_at a) (views a) (is_paid a) (auto_topup a)
     (topup_rank a) (last_topup a) (created_at a) (updated_at a).

Definition set_promote (expires : instant) (a : t) : t :=
  mk (ad_id a) (user_id a) (title a) (description a) (category_id a)
     (subcategory_id a) (city_id a) (price a) (price_type a)
     (contact_phone a) (contact_email a) (images a) (status a)
     (is_boosted a) (boost_expires_at a) true
     (Some expires) (views a) (is_paid a) (auto_topup a)
     (topup_rank a) (last_topup a) (created_at a) (updated_at a).

Definition set_status (new_status : string) (now : instant) (a : t) : t :=
  mk (ad_id a) (user_id a) (title a) (description a) (category_id a)
     (subcategory_id a) (city_id a) (price a) (price_type a)
     (contact_phone a) (contact_email a) (images a) new_status
     (is_boosted a) (boost_expires_at a) (is_promoted a)
     (promote_expires_at a) (views a) (is_paid a) (auto_topup a)
     (topup_rank a) (last_topup a) (created_at a) now.
End Ad.

Module Payment.
Record t := mk {
  payment_id : string;
  (** the gateway's [orderCode]; [None] when the gateway's answer had none *)
  order_code : option Z;
  ad_id : option string;
  user_id : string;
  payment_type : string;
  amount : Z;
  status : string;
  transaction_id : option string;
  created_at : instant;
  completed_at : option instant
}.

Definition set_completed (trans : option string) (now : instant) (p : t) : t :=
  mk (payment_id p) (order_code p) (ad_id p) (user_id p) (payment_type p)
     (amount p) "completed" trans (created_at p) (Some now).
End Payment.

Module Review.
Record t := mk {
  review_id : string;
  reviewer_id : string;
  seller_id : string;
  ad_id : option string;
  rating : Z;
  comment : option string;
  created_at : instant
}.
End Review.

(** A notification handed to [asyncio.create_task(send_email_notification(...))]. *)
Record email_task := mk_email {
  to_email : string;
  template_type : string;
  data : list (string * json)
}.

(** ** The document store and the task list *)

Record world := mk_world {
  db_ads : list Ad.t;
  db_payments : list Payment.t;
  db_users : list User.t;
  db_reviews : list Review.t;
  tasks : list email_task
}.

Section Collection.
Context {A : Type}.

Definition find_one (q : A -> bool) (coll : list A) : option A := find q coll.

Fixpoint update_one (q : A -> bool) (upd : A -> A) (coll : list A) : list A :=
  match coll with
  | [] => []
  | d :: rest => if q d then upd d :: rest else d :: update_one q upd rest
  end.

Fixpoint delete_one (q : A -> bool) (coll : list A) : list A :=
  match coll with
  | [] => []
  | d :: rest => if q d then rest else d :: delete_one q rest
  end.

Definition insert_one (d : A) (coll : list A) : list A := coll ++ [d].

Definition count_documents (q : A -> bool) (coll : list A) : Z :=
  Z.of_nat (List.length (filter q coll)).
End Collection.

Definition with_ads (f : list Ad.t -> list Ad.t) (w : world) : world :=
  mk_world (f (db_ads w)) (db_payments w) (db_users w) (db_reviews w) (tasks w).
Definition with_payments (f : list Payment.t -> list Payment.t) (w : world) : world :=
  mk_world (db_ads w) (f (db_payments w)) (db_users w) (db_reviews w) (tasks w).
Definition with_users (f : list User.t -> list User.t) (w : world) : world :=
  mk_world (db_ads w) (db_payments w) (f (db_users w)) (db_reviews w) (tasks w).
Definition with_reviews (f : list Review.t -> list Review.t) (w : world) : world :=
  mk_world (db_ads w) (db_payments w) (db_users w) (f (db_reviews w)) (tasks w).
Definition with_task (e : email_task) (w : world) : world :=
  mk_world (db_ads w) (db_payments w) (db_users w) (db_reviews w) (tasks w ++ [e]).

(** ** Exceptions and the handler monad *)

(** The [detail] of the [HTTPException]s raised by the embedded handlers. *)
Inductive detail : Type :=
| NotAuthenticated            (* "Not authenticated" *)
| AdminAccessRequired         (* "Admin access required" *)
| AdNotFound                  (* "Ad not found" *)
| NotYourAd                   (* "Not your ad" *)
| NotAuthorized               (* "Not authorized" *)
| AdMustBeActive              (* "Ad must be active to topup" *)
| TopUpAgainIn (remaining : Z) (* f"Poti face TopUp din nou in {remaining} minute" *)
| InvalidStatus               (* "Invalid status" *)
| InvalidPaymentType          (* "Invalid payment type" *)
| PaymentServiceUnavailable   (* "Payment service unavailable" *)
| FailedToCreatePaymentOrder  (* "Failed to create payment order" *)
| PaymentNotFound             (* "Payment not found" *)
| RatingOutOfRange            (* rating must be between 1 and 5 *)
| CannotReviewYourself
| SellerNotFound
| AlreadyReviewed
| ReviewNotFound
| ReviewDeleteForbidden.

(** Exceptions other than [HTTPException] that the embedded code can raise
    and no handler catches. *)
Inductive python_error : Type :=
| TransportError      (* httpx: connection failure or timeout *)
| KeyError
| TypeError
| AttributeError
| ValueError
| ZeroDivisionError
| StoreError          (* pymongo, bson: a filter the driver or the server refuses *).

Inductive exn : Type :=
| HTTPException (status_code : Z) (d : detail)
| Uncaught (e : python_error).

Inductive outcome (A : Type) : Type :=
| Return (a : A)
| Raised (e : exn).
Arguments Return {A} a.
Arguments Raised {A} e.

Definition handler (A : Type) : Type := world -> outcome A * world.

Definition ret {A} (a : A) : handler A := fun w => (Return a, w).
Definition raise {A} (e : exn) : handler A := fun w => (Raised e, w).
Definition bind {A B} (m : handler A) (k : A -> handler B) : handler B :=
  fun w => match m w with
           | (Return a, w') => k a w'
           | (Raised e, w') => (Raised e, w')
           end.
Definition get_world : handler world := fun w => (Return w, w).
Definition modify (f : world -> world) : handler unit := fun w => (Return tt, f w).
Definition create_task (e : email_task) : handler unit := modify (with_task e).

Declare Scope handler_scope.
Delimit Scope handler_scope with handler.
Notation "x <- m ;; k" := (bind m (fun x => k))
  (at level 100, m at next level, right associativity) : handler_scope.
Notation "m ;; k" := (bind m (fun _ => k))
  (at level 100, right associativity) : handler_scope.
Local Open Scope handler_scope.

(** ** Requests and authentication *)

(** The session lookup of [get_current_user] is outside the engine; a
    request carries its result. *)
Record request (B : Type) := mk_request {
  current_user : option User.t;
  body : B
}.
Arguments mk_request {B} _ _.
Arguments current_user {B} _.
Arguments body {B} _.

Definition require_auth {B} (req : request B) : handler User.t :=
  match current_user req with
  | None => raise (HTTPException 401 NotAuthenticated)
  | Some user => ret user
  end.

Definition require_admin {B} (req : request B) : handler User.t :=
  user <- require_auth req ;;
  if negb (opt_str_is (User.role user) "admin")
  then raise (HTTPException 403 AdminAccessRequired)
  else ret user.


(** ** Ad lifecycle manager: [create_ad] *)

(** The JSON body of [POST /ads]; [None] is a key the client left out. *)
Record ad_body := mk_ad_body {
  b_title : option string;
  b_description : option string;
  b_category_id : option string;
  b_subcategory_id : option string;
  b_city_id : option string;
  b_price : option Z;
  b_price_type : option string;
  b_contact_phone : option string;
  b_contact_email : option string;
  b_images : option (list string)
}.

Record create_ad_response := mk_create_ad_response {
  resp_ad_id : string;
  resp_status : string
}.

Definition get_default {A} (v : option A) (d : A) : A :=
  match v with Some x => x | None => d end.

Definition by_ad_id (id : string) (a : Ad.t) : bool := String.eqb (Ad.ad_id a) id.

(** [category_id == "escorts"]: the one category whose ads wait for an
    administrator. *)
Definition is_escort_category (category_id : option string) : bool :=
  opt_str_is category_id "escorts".

(** [uuid12] is [uuid.uuid4().hex[:12]] and [now] the handler's one clock
    reading.  The notification's category, city and price display strings,
    looked up in the reference tables, are left out of its data. *)
Definition create_ad (uuid12 : string) (now : instant) (req : request ad_body)
  : handler create_ad_response :=
  user <- require_auth req ;;
  let category_id := b_category_id (body req) in
  let initial_status := if is_escort_category category_id then "pending" else "active" in
  let ad_id := "ad_" ++ uuid12 in
  let ad_doc :=
    Ad.mk ad_id (User.user_id user)
      (b_title (body req)) (b_description (body req)) category_id
      (b_subcategory_id (body req)) (b_city_id (body req)) (b_price (body req))
      (get_default (b_price_type (body req)) "fixed")
      (b_contact_phone (body req))
      (get_default (b_contact_email (body req)) (User.email user))
      (get_default (b_images (body req)) [])
      initial_status
      false None false None
      0 true true
      (if String.eqb initial_status "active" then now else 0)
      (if String.eqb initial_status "active" then Some now else None)
      now now in
  modify (with_ads (insert_one ad_doc)) ;;
  create_task (mk_email "contact@x67digital.com" "admin_new_ad"
                 [("ad_title", json_of_opt_string (b_title (body req)));
                  ("user_name", JStr (User.name user));
                  ("user_email", JStr (User.email user));
                  ("status", JStr initial_status);
                  ("site_url", JStr "https://x67digital.com")]) ;;
  if is_escort_category category_id
  then ret (mk_create_ad_response ad_id "pending")
  else ret (mk_create_ad_response ad_id "active").

(** ** TopUp subsystem: [topup_ad] *)

(** [cooldown_minutes = 40 if referral_count > 0 else 60], with
    [referral_count = user.get("referral_count", 0)]. *)
Definition cooldown_minutes (user : User.t) : Z :=
  let referral_count := get_default (User.referral_count user) 0 in
  if 0 <? referral_count then 40 else 60.

(** [int(cooldown_minutes - time_since_topup)] where [time_since_topup] is
    the elapsed time in minutes: the quotient truncated toward zero.  The
    source computes it in double precision from a whole number of
    microseconds; the exact quotient is the same number whenever the two
    instants lie within the range of [datetime]. *)
Definition remaining_minutes (cooldown : Z) (elapsed_micros : Z) : Z :=
  Z.quot (cooldown * MICROS_PER_MINUTE - elapsed_micros) MICROS_PER_MINUTE.

Record topup_response := mk_topup_response {
  next_topup_available_in : Z
}.

(** [now_check] is the clock reading of the cooldown check and [now] the
    one of the write. *)
Definition topup_ad (ad_id : string) (now_check now : instant) (req : request unit)
  : handler topup_response :=
  user <- require_auth req ;;
  w <- get_world ;;
  match find_one (by_ad_id ad_id) (db_ads w) with
  | None => raise (HTTPException 404 AdNotFound)
  | Some ad =>
    if negb (String.eqb (Ad.user_id ad) (User.user_id user))
    then raise (HTTPException 403 NotYourAd)
    else if negb (String.eqb (Ad.status ad) "active")
    then raise (HTTPException 400 AdMustBeActive)
    else
      (match Ad.last_topup ad with
       | Some last_topup_time =>
         let time_since_topup := now_check - last_topup_time in
         if time_since_topup <? cooldown_minutes user * MICROS_PER_MINUTE
         then raise (HTTPException 400
                       (TopUpAgainIn (remaining_minutes (cooldown_minutes user)
                                        time_since_topup)))
         else ret tt
       | None => ret tt
       end) ;;
      modify (with_ads (update_one (by_ad_id ad_id) (Ad.set_topup now))) ;;
      ret (mk_topup_response (cooldown_minutes user))
  end.

(** ** Moderation: [admin_update_ad_status] *)

Definition by_user_id (id : string) (u : User.t) : bool := String.eqb (User.user_id u) id.

Definition VALID_STATUSES : list string := ["pending"; "active"; "rejected"; "expired"].

Definition mem_string (s : string) (l : list string) : bool := existsb (String.eqb s) l.

Record message_response := mk_message_response {
  message_status : string
}.

(** The body is [{"status": new_status}].  [ad.get("title", "Anunț")] reads
    the stored title, null included: every ad document carries the key. *)
Definition admin_update_ad_status (ad_id : string) (now : instant)
  (req : request (option string)) : handler message_response :=
  require_admin req ;;
  match body req with
  | None => raise (HTTPException 400 InvalidStatus)
  | Some new_status =>
    if negb (mem_string new_status VALID_STATUSES)
    then raise (HTTPException 400 InvalidStatus)
    else
      w <- get_world ;;
      (match find_one (by_ad_id ad_id) (db_ads w) with
       | Some ad =>
         match find_one (by_user_id (Ad.user_id ad)) (db_users w) with
         | Some user =>
           if negb (String.eqb (User.email user) "")
           then
             let email_data :=
               [("user_name", JStr (User.name user));
                ("ad_title", json_of_opt_string (Ad.title ad));
                ("ad_price", JStr (price_str (Ad.price ad)));
                ("ad_id", JStr ad_id);
                ("site_url", JStr "https://x67digital.com")] in
             if String.eqb new_status "active"
             then create_task (mk_email (User.email user) "ad_approved" email_data)
             else if String.eqb new_status "rejected"
             then create_task (mk_email (User.email user) "ad_rejected" email_data)
             else ret tt
           else ret tt
         | None => ret tt
         end
       | None => ret tt
       end) ;;
      modify (with_ads (update_one (by_ad_id ad_id) (Ad.set_status new_status now))) ;;
      ret (mk_message_response new_status)
  end.

(** ** Ranking policy: [get_ads] *)

Definition sort_spec := list (string * Z).

Definition sort_options : list (string * sort_spec) :=
  [("newest", [("topup_rank", -1); ("created_at", -1)]);
   ("oldest", [("created_at", 1)]);
   ("price_low", [("topup_rank", -1); ("price", 1)]);
   ("price_high", [("topup_rank", -1); ("price", -1)]);
   ("boosted", [("topup_rank", -1); ("is_boosted", -1);
                ("boost_expires_at", -1); ("created_at", -1)])].

Fixpoint lookup_default {V} (table : list (string * V)) (key : string) (d : V) : V :=
  match table with
  | [] => d
  | (k, v) :: rest => if String.eqb k key then v else lookup_default rest key d
  end.

Definition newest_spec : sort_spec := [("topup_rank", -1); ("created_at", -1)].

(** The sort list of [get_ads]: [sort_options.get(sort, sort_options["newest"])],
    rebuilt for the category ["escorts"]. *)
Definition sort_by_of (category_id : option string) (sort : string) : sort_spec :=
  let sort_by := lookup_default sort_options sort newest_spec in
  if opt_str_is category_id "escorts"
  then ([("topup_rank", -1); ("is_boosted", -1)]
        ++ filter (fun s => negb (mem_string (fst s) ["topup_rank"; "is_boosted"])) sort_by)%list
  else sort_by.

(** The value the store compares for a sort field: a number, or [None] for
    a null or absent field, which sorts before every number.  Booleans are
    0 and 1 ([false] sorts before [true]); ISO dates are their instants. *)
Definition sort_key (field : string) (a : Ad.t) : option Z :=
  if String.eqb field "topup_rank" then Some (Ad.topup_rank a)
  else if String.eqb field "created_at" then Some (Ad.created_at a)
  else if String.eqb field "price" then Ad.price a
  else if String.eqb field "is_boosted" then Some (if Ad.is_boosted a then 1 else 0)
  else if String.eqb field "boost_expires_at" then Ad.boost_expires_at a
  else None.

Definition compare_key (x y : option Z) : comparison :=
  match x, y with
  | None, None => Eq
  | None, Some _ => Lt
  | Some _, None => Gt
  | Some m, Some n => Z.compare m n
  end.

Fixpoint compare_by (spec : sort_spec) (a b : Ad.t) : comparison :=
  match spec with
  | [] => Eq
  | (field, dir) :: rest =>
    match compare_key (sort_key field a) (sort_key field b) with
    | Eq => compare_by rest a b
    | c => if dir <? 0 then CompOpp c else c
    end
  end.

Definition precedes (spec : sort_spec) (a b : Ad.t) : bool :=
  match compare_by spec a b with Gt => false | _ => true end.

(** The store's [sort]: documents that compare equal keep their order. *)
Fixpoint insert_sorted (spec : sort_spec) (a : Ad.t) (l : list Ad.t) : list Ad.t :=
  match l with
  | [] => [a]
  | b :: rest => if precedes spec a b then a :: l else b :: insert_sorted spec a rest
  end.

Definition sort_docs (spec : sort_spec) (l : list Ad.t) : list Ad.t :=
  fold_right (insert_sorted spec) [] l.

Definition truthy_str (s : option string) : bool :=
  match s with
  | Some s' => negb (String.eqb s' "")
  | None => false
  end.

Record ads_page := mk_ads_page {
  page_ads : list Ad.t;
  page_total : Z;
  page_page : Z;
  page_pages : Z
}.

Section Listing.

(** [regex_search pattern text]: the store's case-insensitive [$regex]
    match, a primitive of the document store. *)
Variable regex_search : string -> string -> bool.

Definition regex_field (pattern : string) (v : option string) : bool :=
  match v with
  | Some text => regex_search pattern text
  | None => false
  end.

Definition field_is (wanted : option string) (v : option string) : bool :=
  if truthy_str wanted then opt_str_is v (get_default wanted "") else true.

Definition ads_query (category_id subcategory_id city_id search : option string)
  (min_price max_price : option Z) (a : Ad.t) : bool :=
  String.eqb (Ad.status a) "active"
  && field_is category_id (Ad.category_id a)
  && field_is subcategory_id (Ad.subcategory_id a)
  && field_is city_id (Ad.city_id a)
  && (if truthy_str search
      then regex_field (get_default search "") (Ad.title a)
           || regex_field (get_default search "") (Ad.description a)
      else true)
  && match min_price with
     | Some lo => match Ad.price a with Some p => lo <=? p | None => false end
     | None => true
     end
  && match max_price with
     | Some hi => match Ad.price a with Some p => p <=? hi | None => false end
     | None => true
     end.

(** The display fields added to each returned ad (category, city and
    seller names and rating) are not part of [Ad.t] and are left out. *)
Definition get_ads (category_id subcategory_id city_id search : option string)
  (min_price max_price : option Z) (sort : string) (page limit : Z)
  : handler ads_page :=
  let query := ads_query category_id subcategory_id city_id search min_price max_price in
  let sort_by := sort_by_of category_id sort in
  let skip := (page - 1) * limit in
  w <- get_world ;;
  if (skip <? 0) || (limit <? 0)
  then raise (Uncaught ValueError)
  else
    let ads := firstn (Z.to_nat limit)
                 (skipn (Z.to_nat skip) (sort_docs sort_by (filter query (db_ads w)))) in
    let total := count_documents query (db_ads w) in
    if limit =? 0
    then raise (Uncaught ZeroDivisionError)
    else ret (mk_ads_page ads total page ((total + limit - 1) / limit)).

End Listing.

(** ** Payment reconciliation: [create_payment_order] *)

Definition PAYMENT_AMOUNTS : list (string * Z) :=
  [("post_ad", 1140); ("boost", 700); ("promote", 2999)].

Fixpoint amount_of (table : list (string * Z)) (payment_type : string) : option Z :=
  match table with
  | [] => None
  | (k, v) :: rest => if String.eqb k payment_type then Some v else amount_of rest payment_type
  end.

(** What an [httpx] call to the gateway comes back with: an exception of
    the transport (no connection, timeout), or a response with its status
    code and its body decoded as JSON ([None]: the body is not JSON). *)
Inductive http_reply : Type :=
| TransportFailure
| Response (status_code : Z) (json_body : option json).

Definition try_except {A} (m : handler A) (on_exception : exn -> handler A) : handler A :=
  fun w => match m w with
           | (Return a, w') => (Return a, w')
           | (Raised e, w') => on_exception e w'
           end.

(** [response.json()["access_token"]] of the token endpoint's reply. *)
Definition get_viva_access_token (token_reply : http_reply) : handler json :=
  match token_reply with
  | TransportFailure => raise (Uncaught TransportError)
  | Response status_code json_body =>
    if negb (status_code =? 200)
    then raise (HTTPException 502 PaymentServiceUnavailable)
    else match json_body with
         | None => raise (Uncaught ValueError)
         | Some (JObj fields) =>
           match assoc_get "access_token" fields with
           | Some token => ret token
           | None => raise (Uncaught KeyError)
           end
         | Some _ => raise (Uncaught TypeError)
         end
  end.

Record order_body := mk_order_body {
  ob_ad_id : option string;
  ob_payment_type : option string
}.

Record order_response := mk_order_response {
  resp_order_code : option Z;
  resp_amount : Z
}.

(** The gateway issues integer order codes; [data.get("orderCode")] of
    another JSON type is read as absent. *)
Definition order_code_of (data : list (string * json)) : option Z :=
  match assoc_get "orderCode" data with
  | Some (JNum n) => Some n
  | _ => None
  end.

(** [token_reply] and [order_reply] are what the gateway answers to the two
    calls, [uuid12] is [uuid.uuid4().hex[:12]], [now] the clock reading of
    [created_at].  The response's amount is kept in minor units. *)
Definition create_payment_order (token_reply order_reply : http_reply)
  (uuid12 : string) (now : instant) (req : request order_body)
  : handler order_response :=
  user <- require_auth req ;;
  let ad_id := ob_ad_id (body req) in
  match ob_payment_type (body req) with
  | None => raise (HTTPException 400 InvalidPaymentType)
  | Some payment_type =>
    match amount_of PAYMENT_AMOUNTS payment_type with
    | None => raise (HTTPException 400 InvalidPaymentType)
    | Some amount =>
      access_token <- try_except (get_viva_access_token token_reply)
                        (fun _ => raise (HTTPException 502 PaymentServiceUnavailable)) ;;
      match order_reply with
      | TransportFailure => raise (Uncaught TransportError)
      | Response status_code json_body =>
        if negb (status_code =? 200)
        then raise (HTTPException 502 FailedToCreatePaymentOrder)
        else match json_body with
             | None => raise (Uncaught ValueError)
             | Some (JObj data) =>
               let order_code := order_code_of data in
               let payment_doc :=
                 Payment.mk ("pay_" ++ uuid12) order_code ad_id (User.user_id user)
                   payment_type amount "pending" None now None in
               modify (with_payments (insert_one payment_doc)) ;;
               ret (mk_order_response order_code amount)
             | Some _ => raise (Uncaught AttributeError)
             end
      end
    end
  end.

Definition by_order_code (code : option Z) (p : Payment.t) : bool :=
  match Payment.order_code p, code with
  | Some m, Some n => m =? n
  | None, None => true
  | _, _ => false
  end.

Record verify_response := mk_verify_response {
  verify_status : string;
  verify_payment_type : string;
  verify_ad_id : option string
}.

Definition verify_payment (order_code : Z) : handler verify_response :=
  w <- get_world ;;
  match find_one (by_order_code (Some order_code)) (db_payments w) with
  | None => raise (HTTPException 404 PaymentNotFound)
  | Some payment =>
    ret (mk_verify_response (Payment.status payment) (Payment.payment_type payment)
           (Payment.ad_id payment))
  end.

(** ** Payment reconciliation: [payment_webhook] *)

(** [body.get("EventData", {})] as far as the handler reads it; [None] is
    an absent key.  [MerchantTrns] is kept as the JSON value the gateway
    sent: [json.loads] is applied to it whatever it is. *)
Record event_data := mk_event_data {
  TransactionId : option string;
  OrderCode : option Z;
  StatusId : option string;
  MerchantTrns : option json
}.

(** The filter [{"ad_id": ad_id}] for a value that is null, absent or a
    string: every ad document has a string [ad_id], so only an equal string
    matches. *)
Definition ad_id_matches (ad_id : option json) (a : Ad.t) : bool :=
  json_is_str ad_id (Ad.ad_id a).

Inductive webhook_response : Type := StatusReceived.

Section Webhook.

(** [json.loads] on a string: the decoded value, or [None] for
    [json.JSONDecodeError]. *)
Variable json_loads : string -> option json.

(** The store's reading of a filter value that is neither null nor a
    string, as a condition on a string field: an object whose keys are
    query operators ([{"$ne": null}] holds of every string), any other
    value compared with the field.  [None] is a value the driver or the
    server refuses (an unknown operator, a number out of range). *)
Variable field_condition : json -> option (string -> bool).

(** The documents the filter [{"ad_id": ad_id}] selects, the value being
    passed as it was decoded. *)
Definition ad_id_query (ad_id : option json) : option (Ad.t -> bool) :=
  match ad_id with
  | None | Some JNull | Some (JStr _) => Some (ad_id_matches ad_id)
  | Some v => option_map (fun holds a => holds (Ad.ad_id a)) (field_condition v)
  end.

(** [db.ads.update_one({"ad_id": ad_id}, {"$set": ...})]. *)
Definition ads_update_one (ad_id : option json) (upd : Ad.t -> Ad.t) : handler unit :=
  match ad_id_query ad_id with
  | Some query => modify (with_ads (update_one query upd))
  | None => raise (Uncaught StoreError)
  end.

(** [db.ads.find_one({"ad_id": ad_id})]. *)
Definition ads_find_one (ad_id : option json) : handler (option Ad.t) :=
  match ad_id_query ad_id with
  | Some query => w <- get_world ;; ret (find_one query (db_ads w))
  | None => raise (Uncaught StoreError)
  end.

(** [now_completed] is the clock reading written to [completed_at],
    [now_effect] the one of the boost or promote branch.  The formatted
    amount is left out of the notification's data. *)
Definition payment_webhook (now_completed now_effect : instant) (ev : event_data)
  : handler webhook_response :=
  let transaction_id := TransactionId ev in
  let order_code := OrderCode ev in
  let status_id := StatusId ev in
  let merchant_trns := get_default (MerchantTrns ev) (JStr "{}") in
  match merchant_trns with
  | JStr text =>
    let trns_data :=
      match json_loads text with
      | Some v => v
      | None => JObj []
      end in
    match trns_data with
    | JObj fields =>
      let ad_id := assoc_get "ad_id" fields in
      let payment_type := assoc_get "payment_type" fields in
      (if opt_str_is status_id "F"
       then
         w <- get_world ;;
         let payment := find_one (by_order_code order_code) (db_payments w) in
         modify (with_payments
                   (update_one (by_order_code order_code)
                      (Payment.set_completed transaction_id now_completed))) ;;
         (if json_is_str payment_type "post_ad"
          then ads_update_one ad_id Ad.set_paid_pending
          else if json_is_str payment_type "boost"
          then ads_update_one ad_id (Ad.set_boost (plus_days now_effect 1))
          else if json_is_str payment_type "promote"
          then ads_update_one ad_id (Ad.set_promote (plus_days now_effect 7))
          else ret tt) ;;
         match payment with
         | Some payment_doc =>
           if json_truthy ad_id
           then
             ad <- ads_find_one ad_id ;;
             w' <- get_world ;;
             match find_one (by_user_id (Payment.user_id payment_doc)) (db_users w') with
             | Some user =>
               if negb (String.eqb (User.email user) "")
               then create_task
                      (mk_email (User.email user) "payment_success"
                         [("user_name", JStr (User.name user));
                          ("payment_type", json_of_opt payment_type);
                          ("ad_title",
                           match ad with
                           | Some a => json_of_opt_string (Ad.title a)
                           | None => JStr "Anunț"
                           end);
                          ("ad_id", json_of_opt ad_id);
                          ("site_url", JStr "https://x67digital.com")])
               else ret tt
             | None => ret tt
             end
           else ret tt
         | None => ret tt
         end
       else ret tt) ;;
      ret StatusReceived
    | _ => raise (Uncaught AttributeError)
    end
  | _ => raise (Uncaught TypeError)
  end.

End Webhook.

(** ** Reputation aggregator *)

Definition by_seller_id (id : string) (r : Review.t) : bool :=
  String.eqb (Review.seller_id r) id.

Definition sum_ratings (l : list Review.t) : Z :=
  fold_right (fun r acc => Review.rating r + acc) 0 l.

(** The aggregation pipeline [$match seller_id] then [$group]: no group
    when no review matches, else one group with the sum and the count of
    the ratings (their quotient is [$avg]). *)
Definition aggregate_ratings (seller_id : string) (reviews : list Review.t)
  : list (Z * Z) :=
  match filter (by_seller_id seller_id) reviews with
  | [] => []
  | matching => [(sum_ratings matching, Z.of_nat (List.length matching))]
  end.

(** [round(total / count, 1)] in tenths, for [count > 0]: the nearest
    tenth, an exact tie going to the even tenth.  The source rounds the
    double nearest to the mean; the two agree except at means of the form
    x.x5 that no double represents. *)
Definition round_tenths (total count : Z) : Z :=
  let q := (10 * total) / count in
  let r := (10 * total) mod count in
  if 2 * r <? count then q
  else if count <? 2 * r then q + 1
  else if Z.even q then q else q + 1.

Definition set_rating (avg count : Z) (u : User.t) : User.t :=
  User.mk (User.user_id u) (User.email u) (User.name u) (User.role u)
    (User.referral_count u) (Some avg) (Some count).

Definition update_seller_rating (seller_id : string) : handler unit :=
  w <- get_world ;;
  match aggregate_ratings seller_id (db_reviews w) with
  | (total, count) :: _ =>
    modify (with_users (update_one (by_user_id seller_id)
                          (set_rating (round_tenths total count) count)))
  | [] => ret tt
  end.

Record review_create := mk_review_create {
  rc_seller_id : string;
  rc_ad_id : option string;
  rc_rating : Z;
  rc_comment : option string
}.

Definition opt_string_eqb (x y : option string) : bool :=
  match x, y with
  | Some a, Some b => String.eqb a b
  | None, None => true
  | _, _ => false
  end.

Definition create_review (uuid12 : string) (now : instant) (req : request review_create)
  : handler string :=
  user <- require_auth req ;;
  let data := body req in
  if (rc_rating data <? 1) || (5 <? rc_rating data)
  then raise (HTTPException 400 RatingOutOfRange)
  else if String.eqb (rc_seller_id data) (User.user_id user)
  then raise (HTTPException 400 CannotReviewYourself)
  else
    w <- get_world ;;
    match find_one (by_user_id (rc_seller_id data)) (db_users w) with
    | None => raise (HTTPException 404 SellerNotFound)
    | Some _ =>
      match find_one (fun r => String.eqb (Review.reviewer_id r) (User.user_id user)
                               && String.eqb (Review.seller_id r) (rc_seller_id data)
                               && opt_string_eqb (Review.ad_id r) (rc_ad_id data))
                     (db_reviews w) with
      | Some _ => raise (HTTPException 400 AlreadyReviewed)
      | None =>
        let review_id := "rev_" ++ uuid12 in
        let review_doc :=
          Review.mk review_id (User.user_id user) (rc_seller_id data) (rc_ad_id data)
            (rc_rating data) (rc_comment data) now in
        modify (with_reviews (insert_one review_doc)) ;;
        update_seller_rating (rc_seller_id data) ;;
        ret review_id
      end
    end.

Definition by_review_id (id : string) (r : Review.t) : bool :=
  String.eqb (Review.review_id r) id.

Definition delete_review (review_id : string) (req : request unit) : handler unit :=
  user <- require_auth req ;;
  w <- get_world ;;
  match find_one (by_review_id review_id) (db_reviews w) with
  | None => raise (HTTPException 404 ReviewNotFound)
  | Some review =>
    if negb (String.eqb (Review.reviewer_id review) (User.user_id user))
       && negb (opt_str_is (User.role user) "admin")
    then raise (HTTPException 403 ReviewDeleteForbidden)
    else
      let seller_id := Review.seller_id review in
      modify (with_reviews (delete_one (by_review_id review_id))) ;;
      update_seller_rating seller_id
  end.

(** ** Ad lifecycle manager: [get_ad], [update_ad], [delete_ad] *)

Definition VIEW_MILESTONES : list Z := [100; 500; 1000; 5000; 10000].

(** [{"$inc": {"views": 1}}] *)
Definition inc_views (a : Ad.t) : Ad.t :=
  Ad.mk (Ad.ad_id a) (Ad.user_id a) (Ad.title a) (Ad.description a) (Ad.category_id a)
    (Ad.subcategory_id a) (Ad.city_id a) (Ad.price a) (Ad.price_type a)
    (Ad.contact_phone a) (Ad.contact_email a) (Ad.images a) (Ad.status a)
    (Ad.is_boosted a) (Ad.boost_expires_at a) (Ad.is_promoted a)
    (Ad.promote_expires_at a) (Ad.views a + 1) (Ad.is_paid a) (Ad.auto_topup a)
    (Ad.topup_rank a) (Ad.last_topup a) (Ad.created_at a) (Ad.updated_at a).

(** The loop over the milestones: the first milestone lying in
    [(old_views, new_views]] ends the loop, whether or not the owner can be
    notified. *)
Fixpoint notify_milestone (milestones : list Z) (old_views new_views : Z)
  (ad : Ad.t) (ad_id : string) : handler unit :=
  match milestones with
  | [] => ret tt
  | milestone :: rest =>
    if (old_views <? milestone) && (milestone <=? new_views)
    then
      w <- get_world ;;
      match find_one (by_user_id (Ad.user_id ad)) (db_users w) with
      | Some owner =>
        if negb (String.eqb (User.email owner) "")
        then create_task
               (mk_email (User.email owner) "views_milestone"
                  [("user_name", JStr (User.name owner));
                   ("ad_title", json_of_opt_string (Ad.title ad));
                   ("ad_id", JStr ad_id);
                   ("milestone", JNum milestone);
                   ("site_url", JStr "https://x67digital.com")])
        else ret tt
      | None => ret tt
      end
    else notify_milestone rest old_views new_views ad ad_id
  end.

(** The answer is the document as it was read, before the increment; the
    display fields added to it are left out. *)
Definition get_ad (ad_id : string) : handler Ad.t :=
  w <- get_world ;;
  match find_one (by_ad_id ad_id) (db_ads w) with
  | None => raise (HTTPException 404 AdNotFound)
  | Some ad =>
    let old_views := Ad.views ad in
    let new_views := old_views + 1 in
    modify (with_ads (update_one (by_ad_id ad_id) inc_views)) ;;
    notify_milestone VIEW_MILESTONES old_views new_views ad ad_id ;;
    ret ad
  end.

(** The body of [PUT /ads/{ad_id}]: [None] is a key the client left out, an
    inner [None] the JSON null.  The key [details] has no field in [Ad.t]
    and is left out. *)
Record update_body := mk_update_body {
  u_title : option (option string);
  u_description : option (option string);
  u_price : option (option Z);
  u_price_type : option string;
  u_contact_phone : option (option string);
  u_contact_email : option string;
  u_images : option (list string)
}.

(** [{"$set": update_fields}] with the keys of the body among the eight
    content fields, and [updated_at]. *)
Definition set_content (b : update_body) (now : instant) (a : Ad.t) : Ad.t :=
  Ad.mk (Ad.ad_id a) (Ad.user_id a)
    (get_default (u_title b) (Ad.title a))
    (get_default (u_description b) (Ad.description a))
    (Ad.category_id a) (Ad.subcategory_id a) (Ad.city_id a)
    (get_default (u_price b) (Ad.price a))
    (get_default (u_price_type b) (Ad.price_type a))
    (get_default (u_contact_phone b) (Ad.contact_phone a))
    (get_default (u_contact_email b) (Ad.contact_email a))
    (get_default (u_images b) (Ad.images a))
    (Ad.status a) (Ad.is_boosted a) (Ad.boost_expires_at a) (Ad.is_promoted a)
    (Ad.promote_expires_at a) (Ad.views a) (Ad.is_paid a) (Ad.auto_topup a)
    (Ad.topup_rank a) (Ad.last_topup a) (Ad.created_at a) now.

Definition update_ad (ad_id : string) (now : instant) (req : request update_body)
  : handler unit :=
  user <- require_auth req ;;
  w <- get_world ;;
  match find_one (by_ad_id ad_id) (db_ads w) with
  | None => raise (HTTPException 404 AdNotFound)
  | Some ad =>
    if negb (String.eqb (Ad.user_id ad) (User.user_id user))
       && negb (opt_str_is (User.role user) "admin")
    then raise (HTTPException 403 NotAuthorized)
    else modify (with_ads (update_one (by_ad_id ad_id) (set_content (body req) now)))
  end.

Definition delete_ad (ad_id : string) (req : request unit) : handler unit :=
  user <- require_auth req ;;
  w <- get_world ;;
  match find_one (by_ad_id ad_id) (db_ads w) with
  | None => raise (HTTPException 404 AdNotFound)
  | Some ad =>
    if negb (String.eqb (Ad.user_id ad) (User.user_id user))
       && negb (opt_str_is (User.role user) "admin")
    then raise (HTTPException 403 NotAuthorized)
    else modify (with_ads (delete_one (by_ad_id ad_id)))
  end.

(** ** TopUp subsystem: [toggle_auto_topup] *)

Definition set_auto_topup (enabled : bool) (a : Ad.t) : Ad.t :=
  Ad.mk (Ad.ad_id a) (Ad.user_id a) (Ad.title a) (Ad.description a) (Ad.category_id a)
    (Ad.subcategory_id a) (Ad.city_id a) (Ad.price a) (Ad.price_type a)
    (Ad.contact_phone a) (Ad.contact_email a) (Ad.images a) (Ad.status a)
    (Ad.is_boosted a) (Ad.boost_expires_at a) (Ad.is_promoted a)
    (Ad.promote_expires_at a) (Ad.views a) (Ad.is_paid a) enabled
    (Ad.topup_rank a) (Ad.last_topup a) (Ad.created_at a) (Ad.updated_at a).

(** The body is [{"enabled": bool}]; [None] is the key left out, read as
    [True].  The answer carries the flag as it was stored. *)
Definition toggle_auto_topup (ad_id : string) (req : request (option bool))
  : handler bool :=
  user <- require_auth req ;;
  w <- get_world ;;
  match find_one (by_ad_id ad_id) (db_ads w) with
  | None => raise (HTTPException 404 AdNotFound)
  | Some ad =>
    if negb (String.eqb (Ad.user_id ad) (User.user_id user))
    then raise (HTTPException 403 NotYourAd)
    else
      let enabled := get_default (body req) true in
      modify (with_ads (update_one (by_ad_id ad_id) (set_auto_topup enabled))) ;;
      ret enabled
  end.

(** ** Owner and moderator listings: [get_my_ads], [admin_get_ads] *)

Definition created_desc : sort_spec := [("created_at", -1)].

(** [find(query).sort(sort_by).skip(skip).limit(limit).to_list(limit)]
    followed by [count_documents(query)] and the page count, as in
    [get_ads]: a negative skip or limit is refused by the driver, a limit
    of 0 divides by zero. *)
Definition find_page (query : Ad.t -> bool) (sort_by : sort_spec) (page limit : Z)
  : handler ads_page :=
  let skip := (page - 1) * limit in
  w <- get_world ;;
  if (skip <? 0) || (limit <? 0)
  then raise (Uncaught ValueError)
  else
    let ads := firstn (Z.to_nat limit)
                 (skipn (Z.to_nat skip) (sort_docs sort_by (filter query (db_ads w)))) in
    let total := count_documents query (db_ads w) in
    if limit =? 0
    then raise (Uncaught ZeroDivisionError)
    else ret (mk_ads_page ads total page ((total + limit - 1) / limit)).

Definition get_my_ads (page limit : Z) (req : request unit) : handler ads_page :=
  user <- require_auth req ;;
  find_page (fun a => String.eqb (Ad.user_id a) (User.user_id user)) created_desc page limit.

Definition admin_get_ads (status : option string) (page limit : Z) (req : request unit)
  : handler ads_page :=
  require_admin req ;;
  find_page (fun a => if truthy_str status
                      then String.eqb (Ad.status a) (get_default status "")
                      else true)
    created_desc page limit.

(** ** Invariant of the ranking fields *)

(** [create_ad] and [topup_ad], the only writers of [topup_rank] and
    [last_topup], write both from one clock reading: the rank of an ad is
    the instant of its last topup, and 0 while it never had one. *)
Definition rank_consistent (a : Ad.t) : Prop :=
  Ad.topup_rank a = get_default (Ad.last_topup a) 0.

(** ** Sample documents *)

Definition seller_ana : User.t :=
  User.mk "user_ana" "ana@example.com" "Ana" None None None None.

Definition seller_bogdan : User.t :=
  User.mk "user_bogdan" "bogdan@example.com" "Bogdan" None (Some 2) None None.

Definition admin_carmen : User.t :=
  User.mk "user_carmen" "carmen@example.com" "Carmen" (Some "admin") None None None.

(** 2023-11-14T22:13:20Z *)
Definition t0 : instant := 1700000000000000.

Definition ad_body_of (title category : string) : ad_body :=
  mk_ad_body (Some title) (Some "descriere") (Some category) None (Some "bucuresti")
    (Some 100) None None None None.

Definition empty_world : world := mk_world [] [] [] [] [].

Definition as_user {B} (u : User.t) (b : B) : request B := mk_request (Some u) b.

(** An ad of Bogdan (two referrals) published at [t0] in a category
    without moderation, as [create_ad] writes it. *)
Definition ad_bogdan : Ad.t :=
  Ad.mk "ad_b0b0b0b0b0b0" "user_bogdan" (Some "Chitara") (Some "descriere")
    (Some "muzica") None (Some "cluj") (Some 900) "fixed" None
    "bogdan@example.com" [] "active" false None false None 0 true true
    t0 (Some t0) t0 t0.

Definition world_bogdan : world :=
  mk_world [ad_bogdan] [] [seller_ana; seller_bogdan; admin_carmen] [] [].

(** The ad [a] with its [topup_rank] replaced by [rank a], every other
    field kept: used to state that a listing order does not read the rank. *)
Definition rerank (rank : Ad.t -> Z) (a : Ad.t) : Ad.t :=
  Ad.mk (Ad.ad_id a) (Ad.user_id a) (Ad.title a) (Ad.description a) (Ad.category_id a)
    (Ad.subcategory_id a) (Ad.city_id a) (Ad.price a) (Ad.price_type a)
    (Ad.contact_phone a) (Ad.contact_email a) (Ad.images a) (Ad.status a)
    (Ad.is_boosted a) (Ad.boost_expires_at a) (Ad.is_promoted a)
    (Ad.promote_expires_at a) (Ad.views a) (Ad.is_paid a) (Ad.auto_topup a)
    (rank a) (Ad.last_topup a) (Ad.created_at a) (Ad.updated_at a).

Definition by_rank_desc (a b : Ad.t) : Prop := Ad.topup_rank b <= Ad.topup_rank a.
Definition by_created_asc (a b : Ad.t) : Prop := Ad.created_at a <= Ad.created_at b.

(** Two approved ads of the moderated category: the older one was never
    topped up, the newer one was topped up three hours after [t0]. *)
Definition escort_older : Ad.t :=
  Ad.mk "ad_older" "user_ana" (Some "Anunt vechi") (Some "descriere")
    (Some "escorts") None (Some "cluj") None "fixed" None
    "ana@example.com" [] "active" false None false None 0 true true
    0 None t0 (t0 + 30 * MICROS_PER_MINUTE).

Definition escort_newer : Ad.t :=
  Ad.mk "ad_newer" "user_bogdan" (Some "Anunt nou") (Some "descriere")
    (Some "escorts") None (Some "cluj") None "fixed" None
    "bogdan@example.com" [] "active" false None false None 0 true true
    (t0 + 180 * MICROS_PER_MINUTE) (Some (t0 + 180 * MICROS_PER_MINUTE))
    (t0 + 60 * MICROS_PER_MINUTE) (t0 + 90 * MICROS_PER_MINUTE).

Definition world_escorts : world :=
  mk_world [escort_older; escort_newer] [] [seller_ana; seller_bogdan] [] [].

(** A [$regex] matcher for queries without a search term. *)
Definition no_search (pattern text : string) : bool := false.

(** ** The writes of the webhook, in closed form *)

(** The text [json.loads] is given: the default ["{}"] for an absent
    [MerchantTrns], [None] for a value that is not a string (the call then
    raises [TypeError]). *)
Definition merchant_text (ev : event_data) : option string :=
  match MerchantTrns ev with
  | None => Some "{}"
  | Some (JStr text) => Some text
  | Some _ => None
  end.

(** The correlation object of an event: the decoded [MerchantTrns] when it
    is an object, the empty object when the text does not decode, and
    [None] when [MerchantTrns] is not a string or decodes to another JSON
    value (the handler then raises). *)
Definition correlation_fields (json_loads : string -> option json) (ev : event_data)
  : option (list (string * json)) :=
  match merchant_text ev with
  | Some text =>
    match json_loads text with
    | Some (JObj fields) => Some fields
    | Some _ => None
    | None => Some []
    end
  | None => None
  end.

(** The exception of an event without a correlation object. *)
Definition correlation_error (ev : event_data) : python_error :=
  match merchant_text ev with
  | Some _ => AttributeError
  | None => TypeError
  end.

(** [payment_type] selects one of the three writes. *)
Definition writes_an_ad (payment_type : option json) : bool :=
  json_is_str payment_type "post_ad" || json_is_str payment_type "boost"
  || json_is_str payment_type "promote".

(** What the branch on [payment_type] writes into the ad it selects. *)
Definition webhook_ad_effect (payment_type : option json) (now_effect : instant)
  (a : Ad.t) : Ad.t :=
  if json_is_str payment_type "post_ad" then Ad.set_paid_pending a
  else if json_is_str payment_type "boost" then Ad.set_boost (plus_days now_effect 1) a
  else if json_is_str payment_type "promote" then Ad.set_promote (plus_days now_effect 7) a
  else a.

(** The ad collection after the branch on [payment_type]; [query] is the
    filter as the store reads it, [None] when it refuses it. *)
Definition webhook_ad_write (query : option (Ad.t -> bool)) (payment_type : option json)
  (now_effect : instant) (ads : list Ad.t) : list Ad.t :=
  match query with
  | Some q =>
    if json_is_str payment_type "post_ad"
    then update_one q Ad.set_paid_pending ads
    else if json_is_str payment_type "boost"
    then update_one q (Ad.set_boost (plus_days now_effect 1)) ads
    else if json_is_str payment_type "promote"
    then update_one q (Ad.set_promote (plus_days now_effect 7)) ads
    else ads
  | None => ads
  end.

(** ** Sample gateway traffic *)

Definition quote : string := String (Ascii.ascii_of_nat 34) EmptyString.

(** The text [json.dumps] gives for the correlation object
    [{ad_id, payment_type, user_id}] that [create_payment_order] sends. *)
Definition merchant_trns_text (ad_id payment_type user_id : string) : string :=
  "{" ++ quote ++ "ad_id" ++ quote ++ ": " ++ quote ++ ad_id ++ quote ++ ", "
      ++ quote ++ "payment_type" ++ quote ++ ": " ++ quote ++ payment_type ++ quote ++ ", "
      ++ quote ++ "user_id" ++ quote ++ ": " ++ quote ++ user_id ++ quote ++ "}".

(** [json.loads] on the texts listed in [known], each with its decoded
    value; a text outside the table is not JSON. *)
Definition loads_from (known : list (string * json)) (text : string) : option json :=
  assoc_get text known.

Definition boost_trns : string :=
  merchant_trns_text "ad_b0b0b0b0b0b0" "boost" "user_bogdan".

Definition promote_trns : string :=
  merchant_trns_text "ad_b0b0b0b0b0b0" "promote" "user_bogdan".

Definition paid_post_trns : string :=
  merchant_trns_text "ad_b0b0b0b0b0b0" "post_ad" "user_bogdan".

(** Correlation data whose [ad_id] is the query condition [{"$ne": null}]
    instead of an id. *)
Definition operator_trns : string :=
  "{" ++ quote ++ "ad_id" ++ quote ++ ": {" ++ quote ++ "$ne" ++ quote ++ ": null}, "
      ++ quote ++ "payment_type" ++ quote ++ ": " ++ quote ++ "boost" ++ quote ++ "}".

Definition correlation_of (ad_id payment_type user_id : string) : json :=
  JObj [("ad_id", JStr ad_id); ("payment_type", JStr payment_type);
        ("user_id", JStr user_id)].

Definition sample_loads : string -> option json :=
  loads_from
    [(boost_trns, correlation_of "ad_b0b0b0b0b0b0" "boost" "user_bogdan");
     (promote_trns, correlation_of "ad_b0b0b0b0b0b0" "promote" "user_bogdan");
     (paid_post_trns, correlation_of "ad_b0b0b0b0b0b0" "post_ad" "user_bogdan");
     (operator_trns, JObj [("ad_id", JObj [("$ne", JNull)]);
                           ("payment_type", JStr "boost")]);
     ("[]", JArr []);
     ("{}", JObj [])].

(** The store on the filter values used below: the condition
    [{"$ne": null}] holds of every string, any other operator is refused,
    and a document without operators, a number, a boolean or an array equals
    no string. *)
Definition sample_condition (v : json) : option (string -> bool) :=
  match v with
  | JObj ((key, arg) :: rest) =>
    if String.eqb key "$ne"
    then match arg, rest with
         | JNull, [] => Some (fun _ => true)
         | _, _ => None
         end
    else if String.prefix "$" key then None else Some (fun _ => false)
  | _ => Some (fun _ => false)
  end.

(** Bogdan's pending boost order for his ad, as [create_payment_order]
    writes it. *)
Definition boost_order : Payment.t :=
  Payment.mk "pay_c0c0c0c0c0c0" (Some 7461928374651234) (Some "ad_b0b0b0b0b0b0")
    "user_bogdan" "boost" 700 "pending" None (t0 + MICROS_PER_MINUTE) None.

Definition world_boost_pending : world :=
  mk_world [ad_bogdan] [boost_order] [seller_ana; seller_bogdan; admin_carmen] [] [].

Definition boost_event : event_data :=
  mk_event_data (Some "tx-0001") (Some 7461928374651234) (Some "F")
    (Some (JStr boost_trns)).




(** The same settlement with correlation data that is not JSON. *)
Definition garbled_event : event_data :=
  mk_event_data (Some "tx-0001") (Some 7461928374651234) (Some "F")
    (Some (JStr "ad_id=?")).

(** The same settlement with the text of a JSON array as correlation
    data. *)
Definition array_trns_event : event_data :=
  mk_event_data (Some "tx-0001") (Some 7461928374651234) (Some "F") (Some (JStr "[]")).

(** The same settlement with [MerchantTrns] present and null. *)
Definition null_trns_event : event_data :=
  mk_event_data (Some "tx-0001") (Some 7461928374651234) (Some "F") (Some JNull).

(** A token reply and an order reply of the gateway. *)
Definition token_granted : http_reply :=
  Response 200 (Some (JObj [("access_token", JStr "eyJhbGciOi");
                            ("expires_in", JNum 3600)])).

Definition order_issued : http_reply :=
  Response 200 (Some (JObj [("orderCode", JNum 7461928374651234)])).

Definition boost_request : request order_body :=
  as_user seller_bogdan (mk_order_body (Some "ad_b0b0b0b0b0b0") (Some "boost")).

(** ** Sample reviews *)

(** Ana reviews Bogdan; afterwards the review is deleted again. *)
Definition review_of_bogdan (rating : Z) : request review_create :=
  as_user seller_ana (mk_review_create "user_bogdan" None rating None).

Definition world_users : world :=
  mk_world [] [] [seller_ana; seller_bogdan; admin_carmen] [] [].

Definition rating_of (seller_id : string) (w : world) : option (option Z * option Z) :=
  match find_one (by_user_id seller_id) (db_users w) with
  | Some u => Some (User.avg_rating u, User.total_reviews u)
  | None => None
  end.

Definition review_for_ad (ad_id : string) (rating : Z) : request review_create :=
  as_user seller_ana (mk_review_create "user_bogdan" (Some ad_id) rating None).

(** Bogdan after Ana's reviews with the ratings 5, 4 and 3. *)
Definition world_three_reviews : world :=
  snd (create_review "000000000003" (t0 + 3) (review_for_ad "ad_3" 3)
    (snd (create_review "000000000002" (t0 + 2) (review_for_ad "ad_2" 4)
      (snd (create_review "000000000001" (t0 + 1) (review_for_ad "ad_1" 5)
         world_users))))).

(** Bogdan after a single review with the rating 5. *)
Definition world_one_review : world :=
  snd (create_review "000000000001" (t0 + 1) (review_of_bogdan 5) world_users).

(** ** Sample runs *)

Definition ten_minutes_later : instant := t0 + 10 * MICROS_PER_MINUTE.

(** The boost settlement delivered at [t0], and delivered once more ten
    minutes later. *)
Definition world_boost_delivered : world :=
  snd (payment_webhook sample_loads sample_condition t0 t0 boost_event world_boost_pending).

Definition world_boost_replayed : world :=
  snd (payment_webhook sample_loads sample_condition ten_minutes_later ten_minutes_later
         boost_event world_boost_delivered).

(** The settlement with garbled correlation data delivered at [t0]. *)
Definition world_garbled_delivered : world :=
  snd (payment_webhook sample_loads sample_condition t0 t0 garbled_event
         world_boost_pending).

(** Ana publishes an ad at [t0] in a category without moderation. *)
Definition world_published : world :=
  snd (create_ad "0123456789ab" t0 (as_user seller_ana (ad_body_of "Bicicleta" "sport"))
         empty_world).

(** Ana deletes her review, the only one Bogdan has. *)
Definition world_review_deleted : world :=
  snd (delete_review "rev_000000000001" (as_user seller_ana tt) world_one_review).

(** ** Fields outside the content of an ad *)

(** The identity, moderation, visibility and counter fields of an ad:
    everything [update_ad] has no key for. *)
Definition protected_fields (a : Ad.t) :=
  (Ad.ad_id a, Ad.user_id a, Ad.category_id a, Ad.subcategory_id a, Ad.city_id a,
   (Ad.status a, Ad.is_paid a, Ad.views a, Ad.created_at a),
   (Ad.is_boosted a, Ad.boost_expires_at a, Ad.is_promoted a, Ad.promote_expires_at a),
   (Ad.auto_topup a, Ad.topup_rank a, Ad.last_topup a)).

Definition owner_email (a : Ad.t) (w : world) : string :=
  match find_one (by_user_id (Ad.user_id a)) (db_users w) with
  | Some owner => User.email owner
  | None => ""
  end.

Definition owner_name (a : Ad.t) (w : world) : string :=
  match find_one (by_user_id (Ad.user_id a)) (db_users w) with
  | Some owner => User.name owner
  | None => ""
  end.

(** Bogdan's ad one view short of the first milestone. *)
Definition ad_bogdan_99 : Ad.t :=
  Ad.mk "ad_b0b0b0b0b0b0" "user_bogdan" (Some "Chitara") (Some "descriere")
    (Some "muzica") None (Some "cluj") (Some 900) "fixed" None
    "bogdan@example.com" [] "active" false None false None 99 true true
    t0 (Some t0) t0 t0.

Definition world_bogdan_99 : world :=
  mk_world [ad_bogdan_99] [] [seller_ana; seller_bogdan; admin_carmen] [] [].

(** An ad of Bogdan's that was published without a title, one view short
    of the first milestone. *)
Definition ad_untitled_99 : Ad.t :=
  Ad.mk "ad_0e0e0e0e0e0e" "user_bogdan" None (Some "descriere")
    (Some "muzica") None (Some "cluj") None "fixed" None
    "bogdan@example.com" [] "active" false None false None 99 true true
    t0 (Some t0) t0 t0.

Definition world_untitled_99 : world :=
  mk_world [ad_untitled_99] [] [seller_ana; seller_bogdan; admin_carmen] [] [].

Definition retitle (title : string) : update_body :=
  mk_update_body (Some (Some title)) None None None None None None.

Definition by_created_desc (a b : Ad.t) : Prop := Ad.created_at b <= Ad.created_at a.

Definition SORT_MODES : list string :=
  ["newest"; "oldest"; "price_low"; "price_high"; "boosted"].

(** Ana's ad in the moderated category, waiting for approval. *)
Definition ad_ana_pending : Ad.t :=
  Ad.mk "ad_a1a1a1a1a1a1" "user_ana" (Some "Anunt") (Some "descriere")
    (Some "escorts") None (Some "cluj") None "fixed" None
    "ana@example.com" [] "pending" false None false None 0 true true
    0 None (t0 + MICROS_PER_MINUTE) (t0 + MICROS_PER_MINUTE).

Definition world_two_sellers : world :=
  mk_world [ad_bogdan; ad_ana_pending] [] [seller_ana; seller_bogdan; admin_carmen] [] [].

(** The settlement of a paid post for Bogdan's ad. *)
Definition post_trns : string :=
  merchant_trns_text "ad_b0b0b0b0b0b0" "post_ad" "user_bogdan".

Definition post_fields : list (string * json) :=
  [("ad_id", JStr "ad_b0b0b0b0b0b0"); ("payment_type", JStr "post_ad");
   ("user_id", JStr "user_bogdan")].

Definition post_loads : string -> option json :=
  loads_from [(post_trns, JObj post_fields); ("{}", JObj [])].

Definition post_event : event_data :=
  mk_event_data (Some "tx-0002") (Some 7461928374651235) (Some "F")
    (Some (JStr post_trns)).

(** A rating as [create_review] accepts it. *)
Definition rating_in_range (r : Review.t) : Prop := 1 <= Review.rating r <= 5.

Definition same_review (reviewer_id seller_id : string) (ad_id : option string)
  (r : Review.t) : bool :=
  String.eqb (Review.reviewer_id r) reviewer_id
  && String.eqb (Review.seller_id r) seller_id
  && opt_string_eqb (Review.ad_id r) ad_id.

(** * Properties *)

(** ** The document store *)

Ltac run_handler :=
  cbv beta iota delta [bind ret raise modify get_world create_task try_except
                       require_admin require_auth].

Lemma update_one_no_match {A} (q : A -> bool) (upd : A -> A) (coll : list A) :
  find_one q coll = None -> update_one q upd coll = coll.
Proof.
  unfold find_one.
  induction coll as [|d rest IH]; simpl; [reflexivity|].
  destruct (q d); [discriminate|].
  intros H. now rewrite IH.
Qed.

Lemma find_one_update_one {A} (q : A -> bool) (upd : A -> A) (coll : list A) (d : A) :
  (forall x, q (upd x) = q x) ->
  find_one q coll = Some d ->
  find_one q (update_one q upd coll) = Some (upd d).
Proof.
  unfold find_one. intros Hkey.
  induction coll as [|x rest IH]; simpl; [discriminate|].
  destruct (q x) eqn:Hq; simpl.
  - intros [= ->]. now rewrite Hkey, Hq.
  - now rewrite Hq.
Qed.

Lemma update_one_absorb {A} (q : A -> bool) (f g : A -> A) (coll : list A) :
  (forall x, q (g x) = q x) ->
  (forall x, f (g x) = f x) ->
  update_one q f (update_one q g coll) = update_one q f coll.
Proof.
  intros Hkey Hfg.
  induction coll as [|x rest IH]; simpl; [reflexivity|].
  destruct (q x) eqn:Hq; simpl.
  - now rewrite Hkey, Hq, Hfg.
  - now rewrite Hq, IH.
Qed.

Lemma update_one_Forall {A} (P : A -> Prop) (q : A -> bool) (upd : A -> A) (coll : list A) :
  (forall x, P x -> P (upd x)) ->
  Forall P coll -> Forall P (update_one q upd coll).
Proof.
  intros Hupd. induction 1 as [|x rest Hx Hrest IH]; simpl; [constructor|].
  destruct (q x); constructor; auto.
Qed.

Lemma find_one_insert_fresh {A} (q : A -> bool) (coll : list A) (d : A) :
  find_one q coll = None -> q d = true ->
  find_one q (insert_one d coll) = Some d.
Proof.
  unfold find_one, insert_one.
  induction coll as [|x rest IH]; simpl; intros Hnone Hd.
  - now rewrite Hd.
  - destruct (q x); [discriminate|]. auto.
Qed.

Lemma find_one_some {A} (q : A -> bool) (coll : list A) (d : A) :
  find_one q coll = Some d -> In d coll /\ q d = true.
Proof. unfold find_one. apply find_some. Qed.

(** ** Publication *)

Lemma is_escort_category_spec (category_id : option string) :
  is_escort_category category_id = true <-> category_id = Some "escorts".
Proof.
  unfold is_escort_category, opt_str_is. destruct category_id as [c|].
  - rewrite String.eqb_eq. split; [now intros ->|now intros [= ->]].
  - split; discriminate.
Qed.

(** C2.  A publish request of an authenticated user creates exactly one ad;
    it is [pending] with [topup_rank = 0] when its category is the one that
    requires moderation, and [active] with [topup_rank] equal to the
    creation instant (so at least the publish time) in every other case. *)
Theorem create_ad_initial_state
  (uuid12 : string) (now : instant) (req : request ad_body) (w : world) (user : User.t) :
  current_user req = Some user ->
  exists (doc : Ad.t) (resp : create_ad_response) (w' : world),
    create_ad uuid12 now req w = (Return resp, w')
    /\ db_ads w' = (db_ads w ++ [doc])%list
    /\ Ad.created_at doc = now
    /\ resp_status resp = Ad.status doc
    /\ (is_escort_category (b_category_id (body req)) = true ->
        Ad.status doc = "pending" /\ Ad.topup_rank doc = 0)
    /\ (is_escort_category (b_category_id (body req)) = false ->
        Ad.status doc = "active" /\ Ad.topup_rank doc = now
        /\ Ad.created_at doc <= Ad.topup_rank doc).
Proof.
  intros Hauth. unfold create_ad. run_handler. rewrite Hauth.
  destruct (is_escort_category (b_category_id (body req))) eqn:Hcat;
    simpl; eexists; eexists; eexists;
    (split; [reflexivity|]); simpl; unfold insert_one;
    (split; [reflexivity|]); simpl;
    repeat split; try discriminate; try reflexivity; lia.
Qed.

Lemma create_ad_initial_state_witness :
  exists (doc : Ad.t) (resp : create_ad_response) (w' : world),
    create_ad "0123456789ab" t0 (as_user seller_ana (ad_body_of "Bicicleta" "sport")) empty_world
      = (Return resp, w')
    /\ db_ads w' = ([] ++ [doc])%list
    /\ Ad.created_at doc = t0
    /\ resp_status resp = Ad.status doc
    /\ (is_escort_category (Some "sport") = true ->
        Ad.status doc = "pending" /\ Ad.topup_rank doc = 0)
    /\ (is_escort_category (Some "sport") = false ->
        Ad.status doc = "active" /\ Ad.topup_rank doc = t0
        /\ Ad.created_at doc <= Ad.topup_rank doc).
Proof.
  apply (create_ad_initial_state "0123456789ab" t0
           (as_user seller_ana (ad_body_of "Bicicleta" "sport")) empty_world seller_ana).
  reflexivity.
Defined.

Lemma create_ad_rank_consistent
  (uuid12 : string) (now : instant) (req : request ad_body) (w : world) :
  Forall rank_consistent (db_ads w) ->
  Forall rank_consistent (db_ads (snd (create_ad uuid12 now req w))).
Proof.
  intros Hinv. unfold create_ad. run_handler.
  destruct (current_user req) as [user|]; [|exact Hinv].
  destruct (is_escort_category (b_category_id (body req))); simpl;
    unfold insert_one; apply Forall_app; (split; [exact Hinv|]);
    constructor; try constructor; reflexivity.
Qed.

(** ** Manual TopUp *)

Lemma by_ad_id_set_topup (id : string) (now : instant) (a : Ad.t) :
  by_ad_id id (Ad.set_topup now a) = by_ad_id id a.
Proof. reflexivity. Qed.

Lemma cooldown_minutes_cases (user : User.t) :
  (1 <= get_default (User.referral_count user) 0 -> cooldown_minutes user = 40)
  /\ (get_default (User.referral_count user) 0 < 1 -> cooldown_minutes user = 60).
Proof.
  unfold cooldown_minutes.
  destruct (0 <? get_default (User.referral_count user) 0) eqn:H;
    [apply Z.ltb_lt in H | apply Z.ltb_ge in H]; split; intros; (reflexivity || lia).
Qed.

Lemma remaining_minutes_floor (cooldown elapsed : Z) :
  elapsed < cooldown * MICROS_PER_MINUTE ->
  let r := remaining_minutes cooldown elapsed in
  0 <= r /\
  r * MICROS_PER_MINUTE <= cooldown * MICROS_PER_MINUTE - elapsed
    < (r + 1) * MICROS_PER_MINUTE.
Proof.
  intros Hlt r. subst r. unfold remaining_minutes.
  assert (HM : 0 < MICROS_PER_MINUTE) by reflexivity.
  set (d := cooldown * MICROS_PER_MINUTE - elapsed) in *.
  assert (Hd : 0 <= d) by (subst d; lia).
  rewrite Z.quot_div_nonneg by lia.
  pose proof (Z.div_mod d MICROS_PER_MINUTE ltac:(lia)) as Hdm.
  pose proof (Z.mod_pos_bound d MICROS_PER_MINUTE HM) as Hmod.
  pose proof (Z.div_pos d MICROS_PER_MINUTE Hd HM) as Hq.
  split; [exact Hq|]. nia.
Qed.

Lemma topup_ad_run
  (ad_id : string) (now_check now : instant) (req : request unit)
  (w : world) (user : User.t) (ad : Ad.t) :
  current_user req = Some user ->
  find_one (by_ad_id ad_id) (db_ads w) = Some ad ->
  Ad.user_id ad = User.user_id user ->
  Ad.status ad = "active" ->
  topup_ad ad_id now_check now req w =
  match Ad.last_topup ad with
  | Some last =>
    if now_check - last <? cooldown_minutes user * MICROS_PER_MINUTE
    then (Raised (HTTPException 400
                    (TopUpAgainIn (remaining_minutes (cooldown_minutes user)
                                     (now_check - last)))), w)
    else (Return (mk_topup_response (cooldown_minutes user)),
          with_ads (update_one (by_ad_id ad_id) (Ad.set_topup now)) w)
  | None => (Return (mk_topup_response (cooldown_minutes user)),
             with_ads (update_one (by_ad_id ad_id) (Ad.set_topup now)) w)
  end.
Proof.
  intros Hauth Hfind Howner Hactive.
  unfold topup_ad, require_auth. rewrite Hauth. run_handler. cbv beta iota.
  rewrite Hfind, Howner, Hactive, String.eqb_refl. simpl.
  destruct (Ad.last_topup ad) as [last|]; [|reflexivity].
  destruct (now_check - last <? cooldown_minutes user * MICROS_PER_MINUTE); reflexivity.
Qed.

(** C3.  For the owner of an active ad: with a prior [last_topup], the
    call fails with the rate-limit error exactly when the time elapsed
    since [last_topup] is below the threshold (40 minutes with at least one
    referral, 60 otherwise), the error carries the remaining whole minutes,
    and nothing is written; otherwise the call succeeds and the ad's
    [last_topup] and [topup_rank] become the instant of the write, which is
    strictly above the previous rank.  Without a prior [last_topup] the
    call succeeds. *)
Theorem topup_ad_cooldown
  (ad_id : string) (now_check now : instant) (req : request unit)
  (w : world) (user : User.t) (ad : Ad.t) :
  current_user req = Some user ->
  find_one (by_ad_id ad_id) (db_ads w) = Some ad ->
  Ad.user_id ad = User.user_id user ->
  Ad.status ad = "active" ->
  let threshold :=
    if 1 <=? get_default (User.referral_count user) 0 then 40 else 60 in
  let succeeds :=
    exists (resp : topup_response) (w' : world) (ad' : Ad.t),
      topup_ad ad_id now_check now req w = (Return resp, w')
      /\ find_one (by_ad_id ad_id) (db_ads w') = Some ad'
      /\ Ad.last_topup ad' = Some now
      /\ Ad.topup_rank ad' = now
      /\ (rank_consistent ad -> now_check <= now ->
          (Ad.last_topup ad = None -> 0 < now) ->
          Ad.topup_rank ad < Ad.topup_rank ad') in
  match Ad.last_topup ad with
  | Some last =>
    ((exists remaining,
        fst (topup_ad ad_id now_check now req w)
          = Raised (HTTPException 400 (TopUpAgainIn remaining)))
     <-> now_check - last < threshold * MICROS_PER_MINUTE)
    /\ (now_check - last < threshold * MICROS_PER_MINUTE ->
        exists remaining,
          topup_ad ad_id now_check now req w
            = (Raised (HTTPException 400 (TopUpAgainIn remaining)), w)
          /\ 0 <= remaining
          /\ remaining * MICROS_PER_MINUTE
               <= threshold * MICROS_PER_MINUTE - (now_check - last)
               < (remaining + 1) * MICROS_PER_MINUTE)
    /\ (threshold * MICROS_PER_MINUTE <= now_check - last -> succeeds)
  | None => succeeds
  end.
Proof.
  intros Hauth Hfind Howner Hactive threshold succeeds.
  assert (Hth : threshold = cooldown_minutes user).
  { subst threshold. unfold cooldown_minutes.
    destruct (1 <=? get_default (User.referral_count user) 0) eqn:H1;
      destruct (0 <? get_default (User.referral_count user) 0) eqn:H2;
      try reflexivity;
      [apply Z.leb_le in H1; apply Z.ltb_ge in H2
      |apply Z.leb_gt in H1; apply Z.ltb_lt in H2]; lia. }
  pose proof (topup_ad_run ad_id now_check now req w user ad
                Hauth Hfind Howner Hactive) as Hrun.
  assert (Hok : forall (Hgap : match Ad.last_topup ad with
                               | Some last => last < now_check
                               | None => True
                               end),
             topup_ad ad_id now_check now req w
               = (Return (mk_topup_response (cooldown_minutes user)),
                  with_ads (update_one (by_ad_id ad_id) (Ad.set_topup now)) w)
             -> succeeds).
  { intros Hgap Heq. subst succeeds.
    exists (mk_topup_response (cooldown_minutes user)),
      (with_ads (update_one (by_ad_id ad_id) (Ad.set_topup now)) w),
      (Ad.set_topup now ad).
    split; [exact Heq|]. split.
    - simpl. apply find_one_update_one; [intros x; reflexivity | exact Hfind].
    - repeat split. unfold rank_consistent. simpl. intros Hrank Hmono Hpos.
      rewrite Hrank. destruct (Ad.last_topup ad); simpl; [lia|].
      specialize (Hpos eq_refl). lia. }
  destruct (Ad.last_topup ad) as [last|] eqn:Hlast.
  - rewrite Hth.
    destruct (now_check - last <? cooldown_minutes user * MICROS_PER_MINUTE) eqn:Hcmp.
    + apply Z.ltb_lt in Hcmp. split; [|split].
      * split; [intros _; exact Hcmp|]. intros _. rewrite Hrun. eexists. reflexivity.
      * intros _. eexists. split; [exact Hrun|].
        apply (remaining_minutes_floor _ _ Hcmp).
      * lia.
    + apply Z.ltb_ge in Hcmp. split; [|split].
      * rewrite Hrun. simpl. split; [intros [r Hr]; discriminate | lia].
      * lia.
      * intros _. apply Hok; [|exact Hrun].
        assert (0 < cooldown_minutes user * MICROS_PER_MINUTE).
        { unfold cooldown_minutes.
          destruct (0 <? get_default (User.referral_count user) 0); reflexivity. }
        lia.
  - apply Hok; [exact I | exact Hrun].
Qed.

Lemma topup_ad_cooldown_witness :
  exists remaining,
    topup_ad "ad_b0b0b0b0b0b0" (t0 + 10 * MICROS_PER_MINUTE) (t0 + 10 * MICROS_PER_MINUTE)
      (as_user seller_bogdan tt) world_bogdan
      = (Raised (HTTPException 400 (TopUpAgainIn remaining)), world_bogdan)
    /\ 0 <= remaining
    /\ remaining * MICROS_PER_MINUTE
         <= 40 * MICROS_PER_MINUTE - (t0 + 10 * MICROS_PER_MINUTE - t0)
         < (remaining + 1) * MICROS_PER_MINUTE.
Proof.
  refine (proj1 (proj2 (topup_ad_cooldown "ad_b0b0b0b0b0b0"
                          (t0 + 10 * MICROS_PER_MINUTE) (t0 + 10 * MICROS_PER_MINUTE)
                          (as_user seller_bogdan tt) world_bogdan seller_bogdan ad_bogdan
                          eq_refl eq_refl eq_refl eq_refl)) _).
  vm_compute. reflexivity.
Defined.

Lemma topup_ad_rank_consistent
  (ad_id : string) (now_check now : instant) (req : request unit) (w : world) :
  Forall rank_consistent (db_ads w) ->
  Forall rank_consistent (db_ads (snd (topup_ad ad_id now_check now req w))).
Proof.
  intros Hinv. unfold topup_ad, require_auth.
  destruct (current_user req) as [user|]; run_handler; [|exact Hinv].
  destruct (find_one (by_ad_id ad_id) (db_ads w)) as [ad|]; [|exact Hinv].
  destruct (negb (Ad.user_id ad =? User.user_id user)%string); [exact Hinv|].
  destruct (negb (Ad.status ad =? "active")%string); [exact Hinv|].
  assert (Hupd : Forall rank_consistent
                   (update_one (by_ad_id ad_id) (Ad.set_topup now) (db_ads w))).
  { apply update_one_Forall; [|exact Hinv]. intros x _. reflexivity. }
  destruct (Ad.last_topup ad) as [last|]; [|exact Hupd].
  destruct (now_check - last <? cooldown_minutes user * MICROS_PER_MINUTE);
    [exact Hinv | exact Hupd].
Qed.

(** C9.  An ad published in a category without moderation carries
    [last_topup] equal to its creation instant, so a manual TopUp by its
    owner whose cooldown check runs less than the cooldown (60 minutes, 40
    with at least one referral) after the publication fails with the
    rate-limit error, although no manual TopUp was ever made on the ad. *)
Theorem topup_after_publish_rate_limited
  (uuid12 : string) (published now_check now : instant)
  (req_publish : request ad_body) (req_topup : request unit)
  (w w1 : world) (publisher owner : User.t) (resp : create_ad_response) :
  current_user req_publish = Some publisher ->
  current_user req_topup = Some owner ->
  User.user_id owner = User.user_id publisher ->
  is_escort_category (b_category_id (body req_publish)) = false ->
  find_one (by_ad_id ("ad_" ++ uuid12)) (db_ads w) = None ->
  create_ad uuid12 published req_publish w = (Return resp, w1) ->
  now_check - published < cooldown_minutes owner * MICROS_PER_MINUTE ->
  (exists ad, find_one (by_ad_id (resp_ad_id resp)) (db_ads w1) = Some ad
              /\ Ad.status ad = "active"
              /\ Ad.last_topup ad = Some published)
  /\ topup_ad (resp_ad_id resp) now_check now req_topup w1
     = (Raised (HTTPException 400
                  (TopUpAgainIn (remaining_minutes (cooldown_minutes owner)
                                   (now_check - published)))), w1)
  /\ (cooldown_minutes owner = 40 \/ cooldown_minutes owner = 60).
Proof.
  intros Hpub Htop Hsame Hcat Hfresh Hcreate Hwindow.
  unfold create_ad, require_auth in Hcreate. rewrite Hpub, Hcat in Hcreate.
  revert Hcreate. run_handler. intros [= <- <-]. cbn [resp_ad_id].
  match goal with
  | |- context [insert_one ?d] => set (doc := d)
  end.
  match goal with
  | |- context [topup_ad _ _ _ _ ?W] => set (w1 := W)
  end.
  assert (Hfind : find_one (by_ad_id ("ad_" ++ uuid12)) (db_ads w1) = Some doc).
  { subst w1. cbn [db_ads with_task with_ads].
    apply find_one_insert_fresh; [exact Hfresh|].
    unfold by_ad_id, doc. cbn [Ad.ad_id]. apply String.eqb_refl. }
  split; [|split].
  - exists doc. split; [exact Hfind|]. split; reflexivity.
  - assert (Howner : Ad.user_id doc = User.user_id owner)
      by (symmetry; exact Hsame).
    pose proof (topup_ad_run ("ad_" ++ uuid12) now_check now req_topup w1 owner doc
                  Htop Hfind Howner eq_refl) as Hrun.
    etransitivity; [exact Hrun|].
    apply Z.ltb_lt in Hwindow.
    change (Ad.last_topup doc) with (Some published).
    cbv beta iota. rewrite Hwindow. reflexivity.
  - unfold cooldown_minutes.
    destruct (0 <? get_default (User.referral_count owner) 0); auto.
Qed.

Lemma topup_after_publish_rate_limited_witness :
  topup_ad "ad_0123456789ab" (t0 + 5 * MICROS_PER_MINUTE) (t0 + 5 * MICROS_PER_MINUTE)
    (as_user seller_ana tt) world_published
  = (Raised (HTTPException 400 (TopUpAgainIn 55)), world_published).
Proof.
  exact (proj1 (proj2
           (topup_after_publish_rate_limited "0123456789ab" t0
              (t0 + 5 * MICROS_PER_MINUTE) (t0 + 5 * MICROS_PER_MINUTE)
              (as_user seller_ana (ad_body_of "Bicicleta" "sport"))
              (as_user seller_ana tt) empty_world
              world_published seller_ana seller_ana
              (mk_create_ad_response "ad_0123456789ab" "active")
              eq_refl eq_refl eq_refl eq_refl eq_refl eq_refl eq_refl))).
Defined.

(** ** Listing order *)

Section SortedBy.

Variable spec : sort_spec.
Variable R : Ad.t -> Ad.t -> Prop.
Hypothesis R_trans : forall a b c, R a b -> R b c -> R a c.
Hypothesis R_before : forall a b, precedes spec a b = true -> R a b.
Hypothesis R_after : forall a b, precedes spec a b = false -> R b a.

Lemma insert_sorted_In (a x : Ad.t) (l : list Ad.t) :
  In x (insert_sorted spec a l) <-> x = a \/ In x l.
Proof.
  induction l as [|b rest IH]; simpl.
  - intuition.
  - destruct (precedes spec a b); simpl; [intuition|].
    rewrite IH. intuition.
Qed.

Lemma insert_sorted_sorted (a : Ad.t) (l : list Ad.t) :
  StronglySorted R l -> StronglySorted R (insert_sorted spec a l).
Proof.
  induction 1 as [|b rest Hrest IH Hb]; simpl.
  - constructor; constructor.
  - destruct (precedes spec a b) eqn:Hab.
    + constructor; [constructor; assumption|].
      constructor; [apply R_before, Hab|].
      rewrite Forall_forall in *. intros x Hx.
      apply R_trans with b; [apply R_before, Hab | apply Hb, Hx].
    + constructor; [exact IH|].
      rewrite Forall_forall in *. intros x Hx.
      apply insert_sorted_In in Hx. destruct Hx as [->|Hx];
        [apply R_after, Hab | apply Hb, Hx].
Qed.

Lemma sort_docs_sorted (l : list Ad.t) : StronglySorted R (sort_docs spec l).
Proof.
  induction l as [|a rest IH]; simpl; [constructor|].
  apply insert_sorted_sorted, IH.
Qed.

End SortedBy.

Lemma sort_docs_In (spec : sort_spec) (x : Ad.t) (l : list Ad.t) :
  In x (sort_docs spec l) <-> In x l.
Proof.
  induction l as [|a rest IH]; simpl; [reflexivity|].
  rewrite insert_sorted_In, IH. intuition.
Qed.

Lemma StronglySorted_skipn {A} (R : A -> A -> Prop) (n : nat) (l : list A) :
  StronglySorted R l -> StronglySorted R (skipn n l).
Proof.
  revert l. induction n as [|n IH]; intros l Hl; simpl; [exact Hl|].
  destruct Hl; [constructor|]. now apply IH.
Qed.

Lemma In_firstn {A} (n : nat) (l : list A) (x : A) : In x (firstn n l) -> In x l.
Proof.
  revert l. induction n as [|n IH]; intros l; simpl; [contradiction|].
  destruct l; simpl; [auto|]. intros [->|H]; [now left | right; now apply IH].
Qed.

Lemma StronglySorted_firstn {A} (R : A -> A -> Prop) (n : nat) (l : list A) :
  StronglySorted R l -> StronglySorted R (firstn n l).
Proof.
  revert l. induction n as [|n IH]; intros l Hl; simpl; [constructor|].
  destruct Hl as [|a rest Hrest Ha]; [constructor|].
  constructor; [now apply IH|].
  rewrite Forall_forall in *. intros x Hx. apply Ha.
  apply (In_firstn n rest), Hx.
Qed.

Lemma In_skipn {A} (n : nat) (l : list A) (x : A) : In x (skipn n l) -> In x l.
Proof.
  revert l. induction n as [|n IH]; intros l; simpl; [auto|].
  destruct l; [auto|]. intros H. right. now apply IH.
Qed.

(** A sort list whose first key is [topup_rank] descending orders by rank. *)
Lemma rank_first_before (rest : sort_spec) (a b : Ad.t) :
  precedes (("topup_rank", -1) :: rest) a b = true -> by_rank_desc a b.
Proof.
  unfold precedes, by_rank_desc. simpl.
  destruct (Ad.topup_rank a ?= Ad.topup_rank b) eqn:Hc; simpl; try discriminate.
  - apply Z.compare_eq in Hc. lia.
  - rewrite Z.compare_gt_iff in Hc. lia.
Qed.

Lemma rank_first_after (rest : sort_spec) (a b : Ad.t) :
  precedes (("topup_rank", -1) :: rest) a b = false -> by_rank_desc b a.
Proof.
  unfold precedes, by_rank_desc. simpl.
  destruct (Ad.topup_rank a ?= Ad.topup_rank b) eqn:Hc; simpl; try discriminate.
  - apply Z.compare_eq in Hc. lia.
  - rewrite Z.compare_lt_iff in Hc. lia.
Qed.

Lemma created_only_before (a b : Ad.t) :
  precedes [("created_at", 1)] a b = true -> by_created_asc a b.
Proof.
  unfold precedes, by_created_asc. simpl.
  destruct (Ad.created_at a ?= Ad.created_at b) eqn:Hc; simpl; try discriminate.
  - apply Z.compare_eq in Hc. lia.
  - rewrite Z.compare_lt_iff in Hc. lia.
Qed.

Lemma created_only_after (a b : Ad.t) :
  precedes [("created_at", 1)] a b = false -> by_created_asc b a.
Proof.
  unfold precedes, by_created_asc. simpl.
  destruct (Ad.created_at a ?= Ad.created_at b) eqn:Hc; simpl; try discriminate.
  rewrite Z.compare_gt_iff in Hc. lia.
Qed.

Lemma sort_by_of_rank_first (category_id : option string) (sort : string) :
  sort <> "oldest" \/ category_id = Some "escorts" ->
  exists rest, sort_by_of category_id sort = ("topup_rank", -1) :: rest.
Proof.
  intros Hcase. unfold sort_by_of.
  destruct (opt_str_is category_id "escorts") eqn:Hesc.
  - eexists. reflexivity.
  - destruct Hcase as [Hsort | ->]; [|discriminate].
    unfold sort_options, lookup_default, newest_spec.
    destruct (String.eqb "newest" sort); [eexists; reflexivity|].
    destruct (String.eqb "oldest" sort) eqn:Hold.
    { apply String.eqb_eq in Hold. congruence. }
    destruct (String.eqb "price_low" sort); [eexists; reflexivity|].
    destruct (String.eqb "price_high" sort); [eexists; reflexivity|].
    destruct (String.eqb "boosted" sort); eexists; reflexivity.
Qed.

Lemma sort_by_of_oldest (category_id : option string) :
  category_id <> Some "escorts" ->
  sort_by_of category_id "oldest" = [("created_at", 1)].
Proof.
  intros Hcat. unfold sort_by_of.
  destruct (opt_str_is category_id "escorts") eqn:Hesc; [|reflexivity].
  apply is_escort_category_spec in Hesc. contradiction.
Qed.

Lemma insert_sorted_map (spec : sort_spec) (h : Ad.t -> Ad.t) (a : Ad.t) (l : list Ad.t) :
  (forall x y, precedes spec (h x) (h y) = precedes spec x y) ->
  insert_sorted spec (h a) (map h l) = map h (insert_sorted spec a l).
Proof.
  intros Hinv. induction l as [|b rest IH]; simpl; [reflexivity|].
  rewrite Hinv. destruct (precedes spec a b); simpl; [reflexivity|].
  now rewrite IH.
Qed.

Lemma sort_docs_map (spec : sort_spec) (h : Ad.t -> Ad.t) (l : list Ad.t) :
  (forall x y, precedes spec (h x) (h y) = precedes spec x y) ->
  sort_docs spec (map h l) = map h (sort_docs spec l).
Proof.
  intros Hinv. induction l as [|a rest IH]; [reflexivity|].
  change (insert_sorted spec (h a) (sort_docs spec (map h rest))
          = map h (insert_sorted spec a (sort_docs spec rest))).
  rewrite IH. now apply insert_sorted_map.
Qed.

Lemma get_ads_returns
  (regex_search : string -> string -> bool)
  (category_id subcategory_id city_id search : option string)
  (min_price max_price : option Z) (sort : string) (page limit : Z) (w : world) :
  1 <= page -> 1 <= limit ->
  let query := ads_query regex_search category_id subcategory_id city_id search
                 min_price max_price in
  get_ads regex_search category_id subcategory_id city_id search
    min_price max_price sort page limit w
  = (Return (mk_ads_page
               (firstn (Z.to_nat limit)
                  (skipn (Z.to_nat ((page - 1) * limit))
                     (sort_docs (sort_by_of category_id sort) (filter query (db_ads w)))))
               (count_documents query (db_ads w)) page
               ((count_documents query (db_ads w) + limit - 1) / limit)), w).
Proof.
  intros Hpage Hlimit query. unfold get_ads. run_handler.
  assert (H1 : ((page - 1) * limit <? 0) = false) by (apply Z.ltb_ge; nia).
  assert (H2 : (limit <? 0) = false) by (apply Z.ltb_ge; lia).
  assert (H3 : (limit =? 0) = false) by (apply Z.eqb_neq; lia).
  rewrite H1, H2, H3. reflexivity.
Qed.

(** C4, as the code has it.  A listing query with a page and a limit of at
    least 1 returns only ads of the collection whose status is [active];
    the returned ads are in descending order of [topup_rank] for every sort
    mode other than [oldest], and for every mode, [oldest] included, when
    the category filter is the moderated category; for [oldest] with any
    other category filter they are in ascending order of [created_at] and
    the result does not depend on the ranks stored in the collection. *)
Theorem get_ads_listing_order
  (regex_search : string -> string -> bool)
  (category_id subcategory_id city_id search : option string)
  (min_price max_price : option Z) (sort : string) (page limit : Z) (w : world) :
  1 <= page -> 1 <= limit ->
  exists resp : ads_page,
    get_ads regex_search category_id subcategory_id city_id search
      min_price max_price sort page limit w = (Return resp, w)
    /\ Forall (fun a => In a (db_ads w) /\ Ad.status a = "active") (page_ads resp)
    /\ (sort <> "oldest" \/ category_id = Some "escorts" ->
        StronglySorted by_rank_desc (page_ads resp))
    /\ (sort = "oldest" -> category_id <> Some "escorts" ->
        StronglySorted by_created_asc (page_ads resp)
        /\ forall rank : Ad.t -> Z,
            get_ads regex_search category_id subcategory_id city_id search
              min_price max_price sort page limit (with_ads (map (rerank rank)) w)
            = (Return (mk_ads_page (map (rerank rank) (page_ads resp))
                         (page_total resp) (page_page resp) (page_pages resp)),
               with_ads (map (rerank rank)) w)).
Proof.
  intros Hpage Hlimit. eexists. split; [apply get_ads_returns; assumption|].
  cbn [page_ads page_total page_page page_pages].
  set (query := ads_query regex_search category_id subcategory_id city_id search
                  min_price max_price).
  split; [|split].
  - rewrite Forall_forall. intros a Ha.
    apply In_firstn, In_skipn in Ha. apply sort_docs_In, filter_In in Ha.
    destruct Ha as [Hin Hq]. split; [exact Hin|].
    unfold query, ads_query in Hq.
    repeat (apply andb_prop in Hq; destruct Hq as [Hq _]).
    now apply String.eqb_eq.
  - intros Hcase. destruct (sort_by_of_rank_first category_id sort Hcase) as [rest ->].
    apply StronglySorted_firstn, StronglySorted_skipn.
    apply sort_docs_sorted.
    + unfold by_rank_desc. intros; lia.
    + apply rank_first_before.
    + apply rank_first_after.
  - intros -> Hcat. rewrite (sort_by_of_oldest category_id Hcat). split.
    + apply StronglySorted_firstn, StronglySorted_skipn.
      apply sort_docs_sorted.
      * unfold by_created_asc. intros; lia.
      * apply created_only_before.
      * apply created_only_after.
    + intros rank. rewrite get_ads_returns by assumption.
      rewrite (sort_by_of_oldest category_id Hcat).
      cbn [db_ads with_ads]. fold query.
      assert (Hfilter : filter query (map (rerank rank) (db_ads w))
                        = map (rerank rank) (filter query (db_ads w))).
      { rewrite filter_map_swap. reflexivity. }
      assert (Hcount : count_documents query (map (rerank rank) (db_ads w))
                       = count_documents query (db_ads w)).
      { unfold count_documents. now rewrite Hfilter, length_map. }
      rewrite Hcount, Hfilter, sort_docs_map, skipn_map, firstn_map
        by (intros x y; reflexivity).
      reflexivity.
Qed.

Lemma get_ads_listing_order_witness :
  exists resp : ads_page,
    get_ads no_search (Some "escorts") None None None None None "oldest" 1 20 world_escorts
      = (Return resp, world_escorts)
    /\ StronglySorted by_rank_desc (page_ads resp).
Proof.
  destruct (get_ads_listing_order no_search (Some "escorts") None None None None None
              "oldest" 1 20 world_escorts ltac:(lia) ltac:(lia))
    as [resp [Hrun [_ [Hrank _]]]].
  exists resp. split; [exact Hrun|]. apply Hrank. right. reflexivity.
Defined.

(** C4 as stated fails: with the moderated category as filter, mode
    [oldest] returns the newer ad first, because its rank is higher. *)
Lemma get_ads_oldest_escorts_by_rank :
  exists resp : ads_page,
    get_ads no_search (Some "escorts") None None None None None "oldest" 1 20 world_escorts
      = (Return resp, world_escorts)
    /\ map Ad.ad_id (page_ads resp) = ["ad_newer"; "ad_older"]
    /\ ~ StronglySorted by_created_asc (page_ads resp).
Proof.
  eexists. split; [reflexivity|]. split; [reflexivity|].
  cbn [page_ads]. intros Hsorted.
  apply StronglySorted_inv in Hsorted. destruct Hsorted as [_ Hall].
  apply Forall_inv in Hall. unfold by_created_asc in Hall.
  vm_compute in Hall. apply Hall. reflexivity.
Qed.

(** ** Webhook reconciliation *)

Lemma ad_id_query_key (field_condition : json -> option (string -> bool))
  (ad_id : option json) (q : Ad.t -> bool) :
  ad_id_query field_condition ad_id = Some q ->
  forall a b, Ad.ad_id a = Ad.ad_id b -> q a = q b.
Proof.
  unfold ad_id_query, ad_id_matches. intros Hq a b Hab.
  destruct ad_id as [[| | | | |]|]; cbn in Hq;
    try match type of Hq with
        | context [field_condition ?v] =>
          destruct (field_condition v) as [holds|]; cbn in Hq; [|discriminate Hq]
        end;
    injection Hq as <-; cbn; rewrite ?Hab; reflexivity.
Qed.

Lemma merchant_text_default (ev : event_data) (text : string) :
  merchant_text ev = Some text ->
  get_default (MerchantTrns ev) (JStr "{}") = JStr text.
Proof.
  unfold merchant_text.
  destruct (MerchantTrns ev) as [[| | | | |]|]; simpl; congruence.
Qed.

Lemma payment_webhook_run
  (json_loads : string -> option json)
  (field_condition : json -> option (string -> bool))
  (now_completed now_effect : instant) (ev : event_data) (w : world) :
  match correlation_fields json_loads ev with
  | None =>
    payment_webhook json_loads field_condition now_completed now_effect ev w
    = (Raised (Uncaught (correlation_error ev)), w)
  | Some fields =>
    if opt_str_is (StatusId ev) "F"
    then exists result tasks',
        payment_webhook json_loads field_condition now_completed now_effect ev w
        = (result,
           mk_world
             (webhook_ad_write (ad_id_query field_condition (assoc_get "ad_id" fields))
                (assoc_get "payment_type" fields) now_effect (db_ads w))
             (update_one (by_order_code (OrderCode ev))
                (Payment.set_completed (TransactionId ev) now_completed)
                (db_payments w))
             (db_users w) (db_reviews w) tasks')
        /\ (ad_id_query field_condition (assoc_get "ad_id" fields) <> None ->
            result = Return StatusReceived)
        /\ (ad_id_query field_condition (assoc_get "ad_id" fields) = None ->
            writes_an_ad (assoc_get "payment_type" fields) = true ->
            result = Raised (Uncaught StoreError) /\ tasks' = tasks w)
        /\ (find_one (by_order_code (OrderCode ev)) (db_payments w) = None
            \/ json_truthy (assoc_get "ad_id" fields) = false ->
            tasks' = tasks w)
    else payment_webhook json_loads field_condition now_completed now_effect ev w
         = (Return StatusReceived, w)
  end.
Proof.
  assert (Hobj : forall text fields,
    merchant_text ev = Some text ->
    json_loads text = Some (JObj fields) \/ (json_loads text = None /\ fields = []) ->
    if opt_str_is (StatusId ev) "F"
    then exists result tasks',
        payment_webhook json_loads field_condition now_completed now_effect ev w
        = (result,
           mk_world
             (webhook_ad_write (ad_id_query field_condition (assoc_get "ad_id" fields))
                (assoc_get "payment_type" fields) now_effect (db_ads w))
             (update_one (by_order_code (OrderCode ev))
                (Payment.set_completed (TransactionId ev) now_completed)
                (db_payments w))
             (db_users w) (db_reviews w) tasks')
        /\ (ad_id_query field_condition (assoc_get "ad_id" fields) <> None ->
            result = Return StatusReceived)
        /\ (ad_id_query field_condition (assoc_get "ad_id" fields) = None ->
            writes_an_ad (assoc_get "payment_type" fields) = true ->
            result = Raised (Uncaught StoreError) /\ tasks' = tasks w)
        /\ (find_one (by_order_code (OrderCode ev)) (db_payments w) = None
            \/ json_truthy (assoc_get "ad_id" fields) = false ->
            tasks' = tasks w)
    else payment_webhook json_loads field_condition now_completed now_effect ev w
         = (Return StatusReceived, w)).
  { intros text fields Htext Hdec.
    unfold payment_webhook, webhook_ad_write, writes_an_ad, ads_update_one, ads_find_one.
    rewrite (merchant_text_default ev text Htext).
    destruct Hdec as [-> | [-> ->]];
      (destruct (opt_str_is (StatusId ev) "F"); [|reflexivity]);
      cbv beta iota zeta;
      (destruct (ad_id_query field_condition _) as [q|]);
      run_handler;
      repeat first
        [ progress cbn [with_ads with_payments with_task
                        db_ads db_payments db_users db_reviews tasks]
        | match goal with
          | |- context [if ?b then _ else _] => destruct b
          | |- context [match find_one ?q ?l with _ => _ end] => destruct (find_one q l)
          end ];
      (eexists; eexists; split; [reflexivity|];
       split; [intros Hq; congruence|];
       split;
       [ intros Hq Hw;
         first [discriminate Hq | discriminate Hw | split; reflexivity]
       | first [intros _; reflexivity | intros [H|H]; discriminate H] ]). }
  unfold correlation_fields, correlation_error.
  destruct (merchant_text ev) as [text|] eqn:Htext.
  - destruct (json_loads text) as [[| | | | |fields]|] eqn:Hdec;
      try (unfold payment_webhook; rewrite (merchant_text_default ev text Htext), Hdec;
           reflexivity).
    + apply (Hobj text); [reflexivity | left; exact Hdec].
    + apply (Hobj text); [reflexivity | right; split; [exact Hdec | reflexivity]].
  - unfold payment_webhook. unfold merchant_text in Htext.
    destruct (MerchantTrns ev) as [[| | | | |]|]; try discriminate Htext; reflexivity.
Qed.

Lemma payment_webhook_db
  (json_loads : string -> option json)
  (field_condition : json -> option (string -> bool))
  (now_completed now_effect : instant) (ev : event_data) (w : world) :
  let w' := snd (payment_webhook json_loads field_condition now_completed now_effect ev w) in
  db_users w' = db_users w /\ db_reviews w' = db_reviews w
  /\ match correlation_fields json_loads ev with
     | Some fields =>
       if opt_str_is (StatusId ev) "F"
       then db_ads w'
            = webhook_ad_write (ad_id_query field_condition (assoc_get "ad_id" fields))
                (assoc_get "payment_type" fields) now_effect (db_ads w)
            /\ db_payments w' = update_one (by_order_code (OrderCode ev))
                                  (Payment.set_completed (TransactionId ev) now_completed)
                                  (db_payments w)
       else w' = w
     | None => w' = w
     end.
Proof.
  pose proof (payment_webhook_run json_loads field_condition now_completed now_effect ev w)
    as Hrun.
  destruct (correlation_fields json_loads ev) as [fields|].
  - destruct (opt_str_is (StatusId ev) "F").
    + destruct Hrun as [result [tasks' [-> _]]]. cbn. auto.
    + rewrite Hrun. cbn. auto.
  - rewrite Hrun. cbn. auto.
Qed.

Lemma webhook_ad_write_absorb
  (query : option (Ad.t -> bool)) (payment_type : option json)
  (first second : instant) (ads : list Ad.t) :
  (forall q, query = Some q -> forall a b, Ad.ad_id a = Ad.ad_id b -> q a = q b) ->
  webhook_ad_write query payment_type second
    (webhook_ad_write query payment_type first ads)
  = webhook_ad_write query payment_type second ads.
Proof.
  intros Hkey. unfold webhook_ad_write.
  destruct query as [q|]; [|reflexivity].
  specialize (Hkey q eq_refl).
  destruct (json_is_str payment_type "post_ad");
    [|destruct (json_is_str payment_type "boost");
      [|destruct (json_is_str payment_type "promote")]];
    try reflexivity;
    (apply update_one_absorb; intros x; [apply Hkey|]; reflexivity).
Qed.

Lemma update_one_twice_map {A B} (proj : A -> B) (q : A -> bool) (f g : A -> A)
  (coll : list A) :
  (forall x, q (g x) = q x) ->
  (forall x, proj (f (g x)) = proj (g x)) ->
  map proj (update_one q f (update_one q g coll)) = map proj (update_one q g coll).
Proof.
  intros Hkey Hproj.
  induction coll as [|x rest IH]; simpl; [reflexivity|].
  destruct (q x) eqn:Hq; simpl.
  - now rewrite Hkey, Hq; simpl; rewrite Hproj.
  - now rewrite Hq; simpl; rewrite IH.
Qed.

Lemma webhook_ad_write_flags {B} (proj : Ad.t -> B)
  (query : option (Ad.t -> bool)) (payment_type : option json)
  (first second : instant) (ads : list Ad.t) :
  (forall q, query = Some q -> forall a b, Ad.ad_id a = Ad.ad_id b -> q a = q b) ->
  (forall x, proj (Ad.set_paid_pending (Ad.set_paid_pending x))
             = proj (Ad.set_paid_pending x)) ->
  (forall x, proj (Ad.set_boost (plus_days second 1) (Ad.set_boost (plus_days first 1) x))
             = proj (Ad.set_boost (plus_days first 1) x)) ->
  (forall x, proj (Ad.set_promote (plus_days second 7) (Ad.set_promote (plus_days first 7) x))
             = proj (Ad.set_promote (plus_days first 7) x)) ->
  map proj (webhook_ad_write query payment_type second
              (webhook_ad_write query payment_type first ads))
  = map proj (webhook_ad_write query payment_type first ads).
Proof.
  intros Hkey Hpost Hboost Hpromote. unfold webhook_ad_write.
  destruct query as [q|]; [|reflexivity].
  specialize (Hkey q eq_refl).
  destruct (json_is_str payment_type "post_ad");
    [|destruct (json_is_str payment_type "boost");
      [|destruct (json_is_str payment_type "promote")]];
    try reflexivity;
    (apply update_one_twice_map; [intros x; apply Hkey; reflexivity | assumption]).
Qed.

Lemma webhook_ad_write_find
  (q : Ad.t -> bool) (payment_type : option json) (now_effect : instant)
  (ads : list Ad.t) (ad : Ad.t) :
  (forall a b, Ad.ad_id a = Ad.ad_id b -> q a = q b) ->
  find_one q ads = Some ad ->
  find_one q (webhook_ad_write (Some q) payment_type now_effect ads)
  = Some (webhook_ad_effect payment_type now_effect ad).
Proof.
  intros Hkey Hfind. unfold webhook_ad_write, webhook_ad_effect.
  destruct (json_is_str payment_type "post_ad");
    [|destruct (json_is_str payment_type "boost");
      [|destruct (json_is_str payment_type "promote")]];
    try exact Hfind;
    (apply find_one_update_one; [intros x; apply Hkey; reflexivity | exact Hfind]).
Qed.


(** C1, as the code has it.  The handler keeps no record of the events it
    has processed and does not look at the order's status: every delivery
    of a successful event writes again.  After a second delivery of the
    same event the payment and ad collections are those a single delivery
    with the second delivery's clock readings gives; the order's status and
    the ad's [status], [is_paid], [is_boosted] and [is_promoted] are as the
    first delivery left them, and the collections are unchanged by the
    second delivery when both deliveries read the same clock values.  The
    writes themselves: for a successful event with a correlation object,
    the order with the event's order code is [completed] after each
    delivery, with [completed_at] the clock reading of that delivery; the
    ad the filter selects is, for [boost], boosted until 24 hours after the
    clock reading of the latest delivery, for [promote], promoted until 7
    days after it, and for [post_ad] paid and [pending], the replay leaving
    that ad as the first delivery wrote it. *)
Theorem payment_webhook_replay
  (json_loads : string -> option json)
  (field_condition : json -> option (string -> bool))
  (t1 t1' t2 t2' : instant) (ev : event_data) (w : world) :
  let w1 := snd (payment_webhook json_loads field_condition t1 t1' ev w) in
  let w2 := snd (payment_webhook json_loads field_condition t2 t2' ev w1) in
  let once := snd (payment_webhook json_loads field_condition t2 t2' ev w) in
  (db_payments w2 = db_payments once /\ db_ads w2 = db_ads once)
  /\ map Payment.status (db_payments w2) = map Payment.status (db_payments w1)
  /\ map Ad.status (db_ads w2) = map Ad.status (db_ads w1)
  /\ map Ad.is_paid (db_ads w2) = map Ad.is_paid (db_ads w1)
  /\ map Ad.is_boosted (db_ads w2) = map Ad.is_boosted (db_ads w1)
  /\ map Ad.is_promoted (db_ads w2) = map Ad.is_promoted (db_ads w1)
  /\ (t1 = t2 -> t1' = t2' ->
      db_payments w2 = db_payments w1 /\ db_ads w2 = db_ads w1)
  /\ (forall fields : list (string * json),
        StatusId ev = Some "F" ->
        correlation_fields json_loads ev = Some fields ->
        (forall order : Payment.t,
            find_one (by_order_code (OrderCode ev)) (db_payments w) = Some order ->
            exists p1 p2 : Payment.t,
              find_one (by_order_code (OrderCode ev)) (db_payments w1) = Some p1
              /\ find_one (by_order_code (OrderCode ev)) (db_payments w2) = Some p2
              /\ Payment.status p1 = "completed"
              /\ Payment.completed_at p1 = Some t1
              /\ Payment.status p2 = "completed"
              /\ Payment.completed_at p2 = Some t2
              /\ Payment.transaction_id p2 = TransactionId ev)
        /\ (forall (q : Ad.t -> bool) (ad : Ad.t),
              ad_id_query field_condition (assoc_get "ad_id" fields) = Some q ->
              find_one q (db_ads w) = Some ad ->
              exists a1 a2 : Ad.t,
                find_one q (db_ads w1) = Some a1
                /\ find_one q (db_ads w2) = Some a2
                /\ (assoc_get "payment_type" fields = Some (JStr "post_ad") ->
                    Ad.is_paid a1 = true /\ Ad.status a1 = "pending" /\ a2 = a1)
                /\ (assoc_get "payment_type" fields = Some (JStr "boost") ->
                    Ad.is_boosted a1 = true
                    /\ Ad.boost_expires_at a1 = Some (t1' + MICROS_PER_DAY)
                    /\ Ad.is_boosted a2 = true
                    /\ Ad.boost_expires_at a2 = Some (t2' + MICROS_PER_DAY))
                /\ (assoc_get "payment_type" fields = Some (JStr "promote") ->
                    Ad.is_promoted a1 = true
                    /\ Ad.promote_expires_at a1 = Some (t1' + 7 * MICROS_PER_DAY)
                    /\ Ad.is_promoted a2 = true
                    /\ Ad.promote_expires_at a2 = Some (t2' + 7 * MICROS_PER_DAY)))).
Proof.
  intros w1 w2 once.
  destruct (payment_webhook_db json_loads field_condition t1 t1' ev w) as [_ [_ H1]].
  destruct (payment_webhook_db json_loads field_condition t2 t2' ev w1) as [_ [_ H2]].
  destruct (payment_webhook_db json_loads field_condition t2 t2' ev w) as [_ [_ H3]].
  fold w1 in H1. fold w1 w2 in H2. fold once in H3.
  destruct (correlation_fields json_loads ev) as [fields|].
  - destruct (opt_str_is (StatusId ev) "F") eqn:HF.
    + destruct H1 as [Ha1 Hp1], H2 as [Ha2 Hp2], H3 as [Ha3 Hp3].
      pose proof (ad_id_query_key field_condition (assoc_get "ad_id" fields)) as Hkey.
      assert (Hpay : forall s s',
                 update_one (by_order_code (OrderCode ev))
                   (Payment.set_completed (TransactionId ev) s')
                   (update_one (by_order_code (OrderCode ev))
                      (Payment.set_completed (TransactionId ev) s) (db_payments w))
                 = update_one (by_order_code (OrderCode ev))
                     (Payment.set_completed (TransactionId ev) s') (db_payments w)).
      { intros s s'. apply update_one_absorb; intros x; reflexivity. }
      split; [split|].
      { rewrite Hp2, Hp3, Hp1. apply Hpay. }
      { rewrite Ha2, Ha3, Ha1. now apply webhook_ad_write_absorb. }
      split.
      { rewrite Hp2, Hp1. apply update_one_twice_map; intros x; reflexivity. }
      split.
      { rewrite Ha2, Ha1. apply webhook_ad_write_flags; try exact Hkey;
          intros x; reflexivity. }
      split.
      { rewrite Ha2, Ha1. apply webhook_ad_write_flags; try exact Hkey;
          intros x; reflexivity. }
      split.
      { rewrite Ha2, Ha1. apply webhook_ad_write_flags; try exact Hkey;
          intros x; reflexivity. }
      split.
      { rewrite Ha2, Ha1. apply webhook_ad_write_flags; try exact Hkey;
          intros x; reflexivity. }
      split.
      { intros <- <-. split.
        - rewrite Hp2, Hp1. apply Hpay.
        - rewrite Ha2, Ha1. now apply webhook_ad_write_absorb. }
      intros fields' _ [= <-]. split.
      { intros order Horder.
        exists (Payment.set_completed (TransactionId ev) t1 order),
               (Payment.set_completed (TransactionId ev) t2
                  (Payment.set_completed (TransactionId ev) t1 order)).
        assert (Hfirst : find_one (by_order_code (OrderCode ev)) (db_payments w1)
                         = Some (Payment.set_completed (TransactionId ev) t1 order)).
        { rewrite Hp1. apply find_one_update_one; [intros x; reflexivity | exact Horder]. }
        split; [exact Hfirst|]. split.
        { rewrite Hp2. apply find_one_update_one; [intros x; reflexivity | exact Hfirst]. }
        repeat split; reflexivity. }
      intros q ad Hq Hfind. specialize (Hkey q Hq).
      rewrite Hq in Ha1, Ha2.
      assert (Hfirst : find_one q (db_ads w1)
                       = Some (webhook_ad_effect (assoc_get "payment_type" fields) t1' ad)).
      { rewrite Ha1. now apply webhook_ad_write_find. }
      exists (webhook_ad_effect (assoc_get "payment_type" fields) t1' ad),
             (webhook_ad_effect (assoc_get "payment_type" fields) t2'
                (webhook_ad_effect (assoc_get "payment_type" fields) t1' ad)).
      split; [exact Hfirst|]. split.
      { rewrite Ha2. now apply webhook_ad_write_find. }
      split; [|split]; intros ->; repeat split; reflexivity.
    + rewrite H2, H3, H1.
      do 7 (split; [repeat split; reflexivity|]).
      intros fields' Hstatus. rewrite Hstatus in HF. discriminate HF.
  - rewrite H2, H3, H1.
    do 7 (split; [repeat split; reflexivity|]).
    intros fields' _ Hnone. discriminate Hnone.
Qed.

Lemma payment_webhook_replay_witness :
  exists a1 a2 : Ad.t,
    find_one (ad_id_matches (Some (JStr "ad_b0b0b0b0b0b0"))) (db_ads world_boost_delivered)
      = Some a1
    /\ find_one (ad_id_matches (Some (JStr "ad_b0b0b0b0b0b0"))) (db_ads world_boost_replayed)
       = Some a2
    /\ Ad.boost_expires_at a1 = Some (t0 + MICROS_PER_DAY)
    /\ Ad.boost_expires_at a2 = Some (ten_minutes_later + MICROS_PER_DAY).
Proof.
  destruct (payment_webhook_replay sample_loads sample_condition
              t0 t0 ten_minutes_later ten_minutes_later boost_event world_boost_pending)
    as [_ [_ [_ [_ [_ [_ [_ Hwrites]]]]]]].
  destruct (Hwrites [("ad_id", JStr "ad_b0b0b0b0b0b0"); ("payment_type", JStr "boost");
                     ("user_id", JStr "user_bogdan")] eq_refl eq_refl)
    as [_ Hads].
  destruct (Hads (ad_id_matches (Some (JStr "ad_b0b0b0b0b0b0"))) ad_bogdan eq_refl eq_refl)
    as [a1 [a2 [H1 [H2 [_ [Hboost _]]]]]].
  destruct (Hboost eq_refl) as [_ [Hfirst [_ Hsecond]]].
  exists a1, a2. repeat split; assumption.
Defined.

(** C1 as stated fails: the second delivery of the same successful boost
    event, ten minutes after the first, moves [boost_expires_at] and
    [completed_at] by ten minutes and queues a second confirmation. *)
Lemma payment_webhook_replay_moves_expiry :
  map Payment.status (db_payments world_boost_delivered) = ["completed"]
  /\ map Ad.boost_expires_at (db_ads world_boost_delivered) = [Some (t0 + MICROS_PER_DAY)]
  /\ map Ad.boost_expires_at (db_ads world_boost_replayed)
     = [Some (ten_minutes_later + MICROS_PER_DAY)]
  /\ map Ad.boost_expires_at (db_ads world_boost_replayed)
     <> map Ad.boost_expires_at (db_ads world_boost_delivered)
  /\ map Payment.completed_at (db_payments world_boost_replayed)
     <> map Payment.completed_at (db_payments world_boost_delivered)
  /\ List.length (tasks world_boost_delivered) = 1%nat
  /\ List.length (tasks world_boost_replayed) = 2%nat.
Proof.
  vm_compute. repeat split; try reflexivity; discriminate.
Qed.

(** C6, as the code has it.  When the correlation data is absent, or is a
    string that does not decode as JSON, the handler accepts the event and
    changes no ad, no user, no review and queues no notification; an event
    without the success status changes nothing at all, but a successful one
    still marks the payment order carrying the event's order code as
    completed.  Correlation data that is present and not a string, or a
    string that decodes to a JSON value other than an object, is not
    accepted: the handler ends in an uncaught [TypeError], respectively
    [AttributeError], and nothing is changed. *)
Theorem payment_webhook_undecodable
  (json_loads : string -> option json)
  (field_condition : json -> option (string -> bool))
  (now_completed now_effect : instant) (ev : event_data) (w : world) :
  (match MerchantTrns ev with
   | None => json_loads "{}" = Some (JObj [])
   | Some (JStr text) => json_loads text = None
   | Some _ => False
   end ->
   exists w' : world,
     payment_webhook json_loads field_condition now_completed now_effect ev w
     = (Return StatusReceived, w')
     /\ db_ads w' = db_ads w
     /\ db_users w' = db_users w
     /\ db_reviews w' = db_reviews w
     /\ tasks w' = tasks w
     /\ (StatusId ev <> Some "F" -> w' = w)
     /\ (StatusId ev = Some "F" ->
         db_payments w'
         = update_one (by_order_code (OrderCode ev))
             (Payment.set_completed (TransactionId ev) now_completed) (db_payments w)))
  /\ (forall v : json,
        MerchantTrns ev = Some v -> (forall text, v <> JStr text) ->
        payment_webhook json_loads field_condition now_completed now_effect ev w
        = (Raised (Uncaught TypeError), w))
  /\ (forall (text : string) (v : json),
        MerchantTrns ev = Some (JStr text) -> json_loads text = Some v ->
        (forall fields, v <> JObj fields) ->
        payment_webhook json_loads field_condition now_completed now_effect ev w
        = (Raised (Uncaught AttributeError), w)).
Proof.
  pose proof (payment_webhook_run json_loads field_condition now_completed now_effect ev w)
    as Hrun.
  split; [|split].
  - intros Hdec.
    assert (Hfields : correlation_fields json_loads ev = Some []).
    { unfold correlation_fields, merchant_text.
      destruct (MerchantTrns ev) as [[| | | | |]|]; try contradiction; now rewrite Hdec. }
    rewrite Hfields in Hrun.
    destruct (opt_str_is (StatusId ev) "F") eqn:Hstatus.
    + destruct Hrun as [result [tasks' [Hrun [Hresult [_ Htasks]]]]].
      specialize (Htasks (or_intror eq_refl)). subst tasks'.
      rewrite Hresult in Hrun by discriminate.
      eexists. split; [exact Hrun|]. cbn.
      repeat split; try reflexivity.
      intros Hnot. exfalso. apply Hnot.
      unfold opt_str_is in Hstatus. destruct (StatusId ev) as [s|]; [|discriminate].
      apply String.eqb_eq in Hstatus. now subst.
    + exists w. split; [exact Hrun|]. repeat split; try reflexivity.
      intros Hf. rewrite Hf in Hstatus. discriminate.
  - intros v Hv Hnot.
    unfold correlation_fields, correlation_error, merchant_text in Hrun.
    rewrite Hv in Hrun.
    destruct v as [| | |text| |]; try exact Hrun.
    exfalso. now apply (Hnot text).
  - intros text v Hv Hdec Hnot.
    unfold correlation_fields, correlation_error, merchant_text in Hrun.
    rewrite Hv, Hdec in Hrun.
    destruct v as [| | | | |fields]; try exact Hrun.
    exfalso. now apply (Hnot fields).
Qed.

Lemma payment_webhook_undecodable_witness :
  (exists w' : world,
      payment_webhook sample_loads sample_condition t0 t0 garbled_event world_boost_pending
      = (Return StatusReceived, w')
      /\ db_ads w' = db_ads world_boost_pending
      /\ map Payment.status (db_payments w') = ["completed"])
  /\ payment_webhook sample_loads sample_condition t0 t0 null_trns_event world_boost_pending
     = (Raised (Uncaught TypeError), world_boost_pending).
Proof.
  split.
  - destruct (proj1 (payment_webhook_undecodable sample_loads sample_condition t0 t0
                       garbled_event world_boost_pending) eq_refl)
      as [w' [Hrun [Hads [_ [_ [_ [_ Hpay]]]]]]].
    exists w'. split; [exact Hrun|]. split; [exact Hads|].
    rewrite (Hpay eq_refl). reflexivity.
  - apply (proj1 (proj2 (payment_webhook_undecodable sample_loads sample_condition t0 t0
                           null_trns_event world_boost_pending)) JNull eq_refl).
    intros text Heq. discriminate Heq.
Defined.

(** C6 as stated fails, in both of its parts.  A successful event whose
    correlation data is not JSON is accepted, and the pending order with
    its order code becomes completed.  The same event with correlation data
    that is null, or that is the text of a JSON array, is not accepted: the
    handler raises, and the order stays pending. *)
Lemma payment_webhook_garbled_completes_order :
  (sample_loads "ad_id=?" = None
   /\ payment_webhook sample_loads sample_condition t0 t0 garbled_event world_boost_pending
      = (Return StatusReceived, world_garbled_delivered)
   /\ map Payment.status (db_payments world_boost_pending) = ["pending"]
   /\ map Payment.status (db_payments world_garbled_delivered) = ["completed"]
   /\ db_payments world_garbled_delivered <> db_payments world_boost_pending)
  /\ payment_webhook sample_loads sample_condition t0 t0 null_trns_event world_boost_pending
     = (Raised (Uncaught TypeError), world_boost_pending)
  /\ (sample_loads "[]" = Some (JArr [])
      /\ payment_webhook sample_loads sample_condition t0 t0 array_trns_event
           world_boost_pending
         = (Raised (Uncaught AttributeError), world_boost_pending)).
Proof.
  vm_compute. repeat split; try reflexivity; discriminate.
Qed.



(** ** Order creation *)

Lemma create_payment_order_failure_writes_nothing
  (token_reply order_reply : http_reply) (uuid12 : string) (now : instant)
  (req : request order_body) (w : world) (e : exn) :
  fst (create_payment_order token_reply order_reply uuid12 now req w) = Raised e ->
  snd (create_payment_order token_reply order_reply uuid12 now req w) = w.
Proof.
  unfold create_payment_order, require_auth, get_viva_access_token.
  destruct (current_user req) as [user|]; [|reflexivity].
  run_handler.
  destruct (ob_payment_type (body req)) as [payment_type|]; [|reflexivity].
  destruct (amount_of PAYMENT_AMOUNTS payment_type) as [amount|]; [|reflexivity].
  destruct token_reply as [|code [[| | | | |flds]|]]; try reflexivity;
    (destruct (negb (code =? 200)); [reflexivity|]);
    try reflexivity.
  destruct (assoc_get "access_token" flds); [|reflexivity].
  destruct order_reply as [|code' [[| | | | |data]|]]; try reflexivity;
    (destruct (negb (code' =? 200)); [reflexivity|]);
    try reflexivity.
  discriminate.
Qed.

Lemma create_payment_order_token_failure
  (token_reply order_reply : http_reply) (uuid12 : string) (now : instant)
  (req : request order_body) (w : world) (user : User.t)
  (payment_type : string) (amount : Z) (e : exn) :
  current_user req = Some user ->
  ob_payment_type (body req) = Some payment_type ->
  amount_of PAYMENT_AMOUNTS payment_type = Some amount ->
  fst (get_viva_access_token token_reply w) = Raised e ->
  create_payment_order token_reply order_reply uuid12 now req w
  = (Raised (HTTPException 502 PaymentServiceUnavailable), w).
Proof.
  intros Hauth Htype Hamount Htoken.
  unfold create_payment_order, require_auth. rewrite Hauth. run_handler.
  rewrite Htype, Hamount. revert Htoken. unfold get_viva_access_token. run_handler.
  destruct token_reply as [|code [[| | | | |flds]|]]; try reflexivity;
    (destruct (negb (code =? 200)); [reflexivity|]);
    try reflexivity.
  destruct (assoc_get "access_token" flds); [discriminate|reflexivity].
Qed.

Lemma create_payment_order_rejected_by_gateway
  (token_reply : http_reply) (status_code : Z) (json_body : option json)
  (uuid12 : string) (now : instant)
  (req : request order_body) (w : world) (user : User.t)
  (payment_type : string) (amount : Z) (token : json) :
  current_user req = Some user ->
  ob_payment_type (body req) = Some payment_type ->
  amount_of PAYMENT_AMOUNTS payment_type = Some amount ->
  get_viva_access_token token_reply w = (Return token, w) ->
  status_code <> 200 ->
  create_payment_order token_reply (Response status_code json_body) uuid12 now req w
  = (Raised (HTTPException 502 FailedToCreatePaymentOrder), w).
Proof.
  intros Hauth Htype Hamount Htoken Hcode.
  unfold create_payment_order, require_auth. rewrite Hauth. run_handler.
  rewrite Htype, Hamount, Htoken.
  apply Z.eqb_neq in Hcode. rewrite Hcode. reflexivity.
Qed.

Lemma create_payment_order_success
  (token_reply : http_reply) (data : list (string * json))
  (uuid12 : string) (now : instant)
  (req : request order_body) (w : world) (user : User.t)
  (payment_type : string) (amount : Z) (token : json) :
  current_user req = Some user ->
  ob_payment_type (body req) = Some payment_type ->
  amount_of PAYMENT_AMOUNTS payment_type = Some amount ->
  get_viva_access_token token_reply w = (Return token, w) ->
  create_payment_order token_reply (Response 200 (Some (JObj data))) uuid12 now req w
  = (Return (mk_order_response (order_code_of data) amount),
     with_payments
       (insert_one (Payment.mk ("pay_" ++ uuid12) (order_code_of data)
                      (ob_ad_id (body req)) (User.user_id user) payment_type amount
                      "pending" None now None)) w).
Proof.
  intros Hauth Htype Hamount Htoken.
  unfold create_payment_order, require_auth. rewrite Hauth. run_handler.
  rewrite Htype, Hamount, Htoken. reflexivity.
Qed.

(** C7 at the failing input: the token is granted and the order-creation
    call fails in the transport.  No payment record is written, but the
    exception leaves the handler uncaught, where a failure of the token
    call in the same way is answered with the 502 error. *)
Theorem create_payment_order_transport_failure :
  create_payment_order token_granted TransportFailure "c0c0c0c0c0c0" t0
    boost_request world_bogdan
  = (Raised (Uncaught TransportError), world_bogdan)
  /\ create_payment_order TransportFailure order_issued "c0c0c0c0c0c0" t0
       boost_request world_bogdan
     = (Raised (HTTPException 502 PaymentServiceUnavailable), world_bogdan)
  /\ create_payment_order token_granted (Response 503 None) "c0c0c0c0c0c0" t0
       boost_request world_bogdan
     = (Raised (HTTPException 502 FailedToCreatePaymentOrder), world_bogdan)
  /\ map Payment.status
       (db_payments (snd (create_payment_order token_granted order_issued
                            "c0c0c0c0c0c0" t0 boost_request world_bogdan)))
     = ["pending"].
Proof. repeat split; reflexivity. Qed.

(** ** Unknown identifiers *)

Lemma topup_ad_unknown_ad
  (ad_id : string) (now_check now : instant) (req : request unit) (w : world)
  (user : User.t) :
  current_user req = Some user ->
  find_one (by_ad_id ad_id) (db_ads w) = None ->
  topup_ad ad_id now_check now req w = (Raised (HTTPException 404 AdNotFound), w).
Proof.
  intros Hauth Hfind. unfold topup_ad, require_auth. rewrite Hauth. run_handler.
  now rewrite Hfind.
Qed.

Lemma verify_payment_unknown_order (order_code : Z) (w : world) :
  find_one (by_order_code (Some order_code)) (db_payments w) = None ->
  verify_payment order_code w = (Raised (HTTPException 404 PaymentNotFound), w).
Proof.
  intros Hfind. unfold verify_payment. run_handler. now rewrite Hfind.
Qed.

Lemma delete_review_unknown_review
  (review_id : string) (req : request unit) (w : world) (user : User.t) :
  current_user req = Some user ->
  find_one (by_review_id review_id) (db_reviews w) = None ->
  delete_review review_id req w = (Raised (HTTPException 404 ReviewNotFound), w).
Proof.
  intros Hauth Hfind. unfold delete_review, require_auth. rewrite Hauth. run_handler.
  now rewrite Hfind.
Qed.

Lemma admin_update_ad_status_unknown_ad
  (ad_id new_status : string) (now : instant) (req : request (option string))
  (w : world) (user : User.t) :
  current_user req = Some user ->
  User.role user = Some "admin" ->
  body req = Some new_status ->
  mem_string new_status VALID_STATUSES = true ->
  find_one (by_ad_id ad_id) (db_ads w) = None ->
  admin_update_ad_status ad_id now req w
  = (Return (mk_message_response new_status), w).
Proof.
  intros Hauth Hrole Hbody Hvalid Hfind.
  unfold admin_update_ad_status, require_admin, require_auth.
  rewrite Hauth. run_handler. rewrite Hrole.
  change (negb (opt_str_is (Some "admin") "admin")) with false. cbv beta iota.
  rewrite Hbody, Hvalid. cbn [negb]. cbv beta iota.
  rewrite Hfind. unfold with_ads. rewrite (update_one_no_match _ _ _ Hfind).
  destruct w; reflexivity.
Qed.

(** C8 at the failing input: an administrator sets the status of an ad id
    that no ad carries.  The call answers with its success message and
    writes nothing, where the owner's operations on the same id answer
    404. *)
Theorem admin_update_ad_status_unknown_ad_succeeds :
  find_one (by_ad_id "ad_ffffffffffff") (db_ads world_bogdan) = None
  /\ admin_update_ad_status "ad_ffffffffffff" t0 (as_user admin_carmen (Some "active"))
       world_bogdan
     = (Return (mk_message_response "active"), world_bogdan)
  /\ topup_ad "ad_ffffffffffff" t0 t0 (as_user seller_bogdan tt) world_bogdan
     = (Raised (HTTPException 404 AdNotFound), world_bogdan).
Proof. repeat split; reflexivity. Qed.

(** ** Seller reputation *)

(** While the seller has at least one review, the recomputation stores
    the rounded mean and the count of the seller's current reviews. *)
Lemma update_seller_rating_some_reviews
  (seller_id : string) (w : world) (seller : User.t) :
  find_one (by_user_id seller_id) (db_users w) = Some seller ->
  filter (by_seller_id seller_id) (db_reviews w) <> [] ->
  let matching := filter (by_seller_id seller_id) (db_reviews w) in
  let count := Z.of_nat (List.length matching) in
  exists w',
    update_seller_rating seller_id w = (Return tt, w')
    /\ db_reviews w' = db_reviews w
    /\ rating_of seller_id w'
       = Some (Some (round_tenths (sum_ratings matching) count), Some count).
Proof.
  intros Hseller Hsome matching count.
  unfold update_seller_rating, aggregate_ratings. run_handler.
  fold matching. subst count.
  destruct matching as [|r rest] eqn:Hm; [contradiction|].
  eexists. split; [reflexivity|]. split; [reflexivity|].
  unfold rating_of. cbn [db_users with_users].
  rewrite (find_one_update_one _ _ _ seller); [reflexivity | | exact Hseller].
  intros x. reflexivity.
Qed.

(** Without a review of the seller the aggregation has no group and the
    seller's document is not written. *)
Lemma update_seller_rating_no_reviews (seller_id : string) (w : world) :
  filter (by_seller_id seller_id) (db_reviews w) = [] ->
  update_seller_rating seller_id w = (Return tt, w).
Proof.
  intros Hnone. unfold update_seller_rating, aggregate_ratings. run_handler.
  now rewrite Hnone.
Qed.

(** The ratings 5, 4, 3 give 4.0 over 3 reviews; deleting the review with
    the rating 3 gives 4.5 over 2. *)
Lemma reputation_example :
  rating_of "user_bogdan" world_three_reviews = Some (Some 40, Some 3)
  /\ rating_of "user_bogdan"
       (snd (delete_review "rev_000000000003" (as_user seller_ana tt) world_three_reviews))
     = Some (Some 45, Some 2).
Proof. split; reflexivity. Qed.

(** C5 at the failing input: the seller's only review is deleted.  No
    review of the seller remains, and the stored aggregate is still 5.0
    over 1 review. *)
Theorem delete_last_review_keeps_rating :
  rating_of "user_bogdan" world_one_review = Some (Some 50, Some 1)
  /\ delete_review "rev_000000000001" (as_user seller_ana tt) world_one_review
     = (Return tt, world_review_deleted)
  /\ db_reviews world_review_deleted = []
  /\ rating_of "user_bogdan" world_review_deleted = Some (Some 50, Some 1).
Proof. repeat split; reflexivity. Qed.

(** * Further properties of the handlers *)

(** ** Views *)

Lemma milestone_window (old_views milestone : Z) :
  (old_views <? milestone) && (milestone <=? old_views + 1) = (old_views + 1 =? milestone).
Proof.
  destruct (old_views + 1 =? milestone) eqn:He.
  - apply Z.eqb_eq in He. apply andb_true_iff. split;
      [apply Z.ltb_lt | apply Z.leb_le]; lia.
  - apply Z.eqb_neq in He. apply andb_false_iff.
    destruct (old_views <? milestone) eqn:Hl; [right | now left].
    apply Z.ltb_lt in Hl. apply Z.leb_gt. lia.
Qed.

Lemma notify_milestone_run
  (milestones : list Z) (old_views : Z) (ad : Ad.t) (ad_id : string) (w : world) :
  notify_milestone milestones old_views (old_views + 1) ad ad_id w
  = (Return tt,
     if existsb (Z.eqb (old_views + 1)) milestones
        && negb (String.eqb (owner_email ad w) "")
     then with_task
            (mk_email (owner_email ad w) "views_milestone"
               [("user_name", JStr (owner_name ad w));
                ("ad_title", json_of_opt_string (Ad.title ad));
                ("ad_id", JStr ad_id);
                ("milestone", JNum (old_views + 1));
                ("site_url", JStr "https://x67digital.com")]) w
     else w).
Proof.
  induction milestones as [|milestone rest IH]; [reflexivity|].
  cbn [notify_milestone existsb]. rewrite milestone_window.
  destruct (old_views + 1 =? milestone) eqn:He.
  - apply Z.eqb_eq in He. subst milestone. run_handler.
    unfold owner_email, owner_name.
    destruct (find_one (by_user_id (Ad.user_id ad)) (db_users w)) as [owner|];
      [|reflexivity].
    cbn [orb andb]. destruct (negb (User.email owner =? "")%string); reflexivity.
  - cbn [orb]. exact IH.
Qed.

(** X1.  Reading an ad that exists answers with the document as it was
    read and adds exactly one to the stored view count of the first ad
    with that id; every other field and document of the store is left as
    it was, and at most one notification is queued. *)
Theorem get_ad_counts_one_view (ad_id : string) (w : world) (ad : Ad.t) :
  find_one (by_ad_id ad_id) (db_ads w) = Some ad ->
  exists w' : world,
    get_ad ad_id w = (Return ad, w')
    /\ db_ads w' = update_one (by_ad_id ad_id) inc_views (db_ads w)
    /\ (exists ad', find_one (by_ad_id ad_id) (db_ads w') = Some ad'
                    /\ Ad.views ad' = Ad.views ad + 1
                    /\ Ad.status ad' = Ad.status ad
                    /\ Ad.user_id ad' = Ad.user_id ad
                    /\ Ad.topup_rank ad' = Ad.topup_rank ad
                    /\ Ad.last_topup ad' = Ad.last_topup ad
                    /\ Ad.updated_at ad' = Ad.updated_at ad)
    /\ db_payments w' = db_payments w
    /\ db_users w' = db_users w
    /\ db_reviews w' = db_reviews w
    /\ (tasks w' = tasks w \/ exists task, tasks w' = (tasks w ++ [task])%list).
Proof.
  intros Hfind. unfold get_ad. run_handler. rewrite Hfind.
  rewrite notify_milestone_run.
  set (w1 := with_ads (update_one (by_ad_id ad_id) inc_views) w).
  assert (Hw1 : find_one (by_ad_id ad_id) (db_ads w1) = Some (inc_views ad)).
  { apply find_one_update_one; [intros x; reflexivity | exact Hfind]. }
  destruct (existsb (Z.eqb (Ad.views ad + 1)) VIEW_MILESTONES
            && negb (owner_email ad w1 =? "")%string);
    eexists; (split; [reflexivity|]); cbn [db_ads db_payments db_users db_reviews tasks
                                             with_task];
    (split; [reflexivity|]);
    (split; [exists (inc_views ad); repeat split; exact Hw1|]);
    repeat split; auto.
  right. eexists. reflexivity.
Qed.

Lemma get_ad_counts_one_view_witness :
  exists w' : world,
    get_ad "ad_b0b0b0b0b0b0" world_bogdan = (Return ad_bogdan, w')
    /\ map Ad.views (db_ads w') = [1].
Proof.
  destruct (get_ad_counts_one_view "ad_b0b0b0b0b0b0" world_bogdan ad_bogdan eq_refl)
    as [w' [Hrun [Hads _]]].
  exists w'. split; [exact Hrun|]. rewrite Hads. reflexivity.
Defined.

(** X2.  Reading an ad queues the [views_milestone] notification exactly
    when the new view count is one of 100, 500, 1000, 5000, 10000 and the
    owner's account exists with a non-empty email; the notification goes
    to that email and carries the owner's name, the ad's stored title (null
    when the ad was stored without one), the ad id, the milestone reached as
    a number and the site's address.  In every other case no task is
    queued. *)
Theorem get_ad_milestone_notification (ad_id : string) (w : world) (ad : Ad.t) :
  find_one (by_ad_id ad_id) (db_ads w) = Some ad ->
  tasks (snd (get_ad ad_id w))
  = if existsb (Z.eqb (Ad.views ad + 1)) [100; 500; 1000; 5000; 10000]
       && negb (String.eqb (owner_email ad w) "")
    then (tasks w
          ++ [mk_email (owner_email ad w) "views_milestone"
                [("user_name", JStr (owner_name ad w));
                 ("ad_title", json_of_opt_string (Ad.title ad));
                 ("ad_id", JStr ad_id);
                 ("milestone", JNum (Ad.views ad + 1));
                 ("site_url", JStr "https://x67digital.com")]])%list
    else tasks w.
Proof.
  intros Hfind. unfold get_ad. run_handler. rewrite Hfind.
  rewrite notify_milestone_run.
  change (owner_email ad (with_ads (update_one (by_ad_id ad_id) inc_views) w))
    with (owner_email ad w).
  change (owner_name ad (with_ads (update_one (by_ad_id ad_id) inc_views) w))
    with (owner_name ad w).
  change VIEW_MILESTONES with [100; 500; 1000; 5000; 10000].
  destruct (existsb (Z.eqb (Ad.views ad + 1)) [100; 500; 1000; 5000; 10000]
            && negb (owner_email ad w =? "")%string); reflexivity.
Qed.

Lemma get_ad_milestone_notification_witness :
  tasks (snd (get_ad "ad_b0b0b0b0b0b0" world_bogdan_99))
  = [mk_email "bogdan@example.com" "views_milestone"
       [("user_name", JStr "Bogdan"); ("ad_title", JStr "Chitara");
        ("ad_id", JStr "ad_b0b0b0b0b0b0"); ("milestone", JNum 100);
        ("site_url", JStr "https://x67digital.com")]]
  /\ tasks (snd (get_ad "ad_0e0e0e0e0e0e" world_untitled_99))
     = [mk_email "bogdan@example.com" "views_milestone"
          [("user_name", JStr "Bogdan"); ("ad_title", JNull);
           ("ad_id", JStr "ad_0e0e0e0e0e0e"); ("milestone", JNum 100);
           ("site_url", JStr "https://x67digital.com")]].
Proof.
  split.
  - exact (get_ad_milestone_notification "ad_b0b0b0b0b0b0" world_bogdan_99 ad_bogdan_99
             eq_refl).
  - exact (get_ad_milestone_notification "ad_0e0e0e0e0e0e" world_untitled_99
             ad_untitled_99 eq_refl).
Defined.

(** ** Content updates, deletion and the auto-topup flag *)

(** X3.  [get_ad], [update_ad], [delete_ad] and [toggle_auto_topup] answer
    404 "Ad not found" for an id that no ad carries, and write nothing. *)
Theorem unknown_ad_is_not_found
  (ad_id : string) (now : instant) (w : world) (user : User.t)
  (content : update_body) (enabled : option bool) :
  find_one (by_ad_id ad_id) (db_ads w) = None ->
  get_ad ad_id w = (Raised (HTTPException 404 AdNotFound), w)
  /\ update_ad ad_id now (as_user user content) w
     = (Raised (HTTPException 404 AdNotFound), w)
  /\ delete_ad ad_id (as_user user tt) w = (Raised (HTTPException 404 AdNotFound), w)
  /\ toggle_auto_topup ad_id (as_user user enabled) w
     = (Raised (HTTPException 404 AdNotFound), w).
Proof.
  intros Hfind.
  unfold get_ad, update_ad, delete_ad, toggle_auto_topup, require_auth, as_user.
  cbn [current_user]. run_handler. rewrite Hfind. repeat split; reflexivity.
Qed.

Lemma unknown_ad_is_not_found_witness :
  get_ad "ad_ffffffffffff" world_bogdan = (Raised (HTTPException 404 AdNotFound), world_bogdan)
  /\ delete_ad "ad_ffffffffffff" (as_user admin_carmen tt) world_bogdan
     = (Raised (HTTPException 404 AdNotFound), world_bogdan).
Proof.
  destruct (unknown_ad_is_not_found "ad_ffffffffffff" t0 world_bogdan admin_carmen
              (retitle "Pian") None eq_refl) as [Hget [_ [Hdel _]]].
  split; [exact Hget | exact Hdel].
Defined.

Lemma update_one_map_fixed {A B} (proj : A -> B) (q : A -> bool) (upd : A -> A)
  (coll : list A) :
  (forall x, proj (upd x) = proj x) ->
  map proj (update_one q upd coll) = map proj coll.
Proof.
  intros Hproj. induction coll as [|x rest IH]; simpl; [reflexivity|].
  destruct (q x); simpl; [now rewrite Hproj | now rewrite IH].
Qed.

(** X4.  Whatever the request, [update_ad] leaves the identity,
    classification, moderation, visibility and counter fields of every ad
    as they are: the id, owner, category, subcategory, city, status, paid
    flag, views, creation time, boost and promotion fields, auto-topup flag,
    rank and last topup.  It writes no other collection and queues no
    notification. *)
Theorem update_ad_keeps_protected_fields
  (ad_id : string) (now : instant) (req : request update_body) (w : world) :
  let w' := snd (update_ad ad_id now req w) in
  map protected_fields (db_ads w') = map protected_fields (db_ads w)
  /\ db_payments w' = db_payments w
  /\ db_users w' = db_users w
  /\ db_reviews w' = db_reviews w
  /\ tasks w' = tasks w.
Proof.
  unfold update_ad, require_auth.
  destruct (current_user req) as [user|]; run_handler;
    [|repeat split; reflexivity].
  destruct (find_one (by_ad_id ad_id) (db_ads w)) as [ad|];
    [|repeat split; reflexivity].
  destruct (negb (Ad.user_id ad =? User.user_id user)%string
            && negb (opt_str_is (User.role user) "admin"));
    [repeat split; reflexivity|].
  cbn [snd db_ads db_payments db_users db_reviews tasks with_ads].
  repeat split. apply update_one_map_fixed. intros x. reflexivity.
Qed.

(** X5.  A user who neither owns the ad nor has the role [admin] gets 403
    "Not authorized" from [update_ad] and [delete_ad], and nothing is
    written. *)
Theorem content_change_needs_owner_or_admin
  (ad_id : string) (now : instant) (w : world) (user : User.t) (ad : Ad.t)
  (content : update_body) :
  find_one (by_ad_id ad_id) (db_ads w) = Some ad ->
  Ad.user_id ad <> User.user_id user ->
  User.role user <> Some "admin" ->
  update_ad ad_id now (as_user user content) w
  = (Raised (HTTPException 403 NotAuthorized), w)
  /\ delete_ad ad_id (as_user user tt) w
     = (Raised (HTTPException 403 NotAuthorized), w).
Proof.
  intros Hfind Howner Hrole.
  assert (Hguard : negb (Ad.user_id ad =? User.user_id user)%string
                   && negb (opt_str_is (User.role user) "admin") = true).
  { apply andb_true_iff. split; apply negb_true_iff.
    - now apply String.eqb_neq.
    - unfold opt_str_is. destruct (User.role user) as [r|]; [|reflexivity].
      apply String.eqb_neq. congruence. }
  unfold update_ad, delete_ad, require_auth, as_user. cbn [current_user].
  run_handler. rewrite Hfind, Hguard. split; reflexivity.
Qed.

Lemma content_change_needs_owner_or_admin_witness :
  update_ad "ad_b0b0b0b0b0b0" t0 (as_user seller_ana (retitle "Pian")) world_bogdan
  = (Raised (HTTPException 403 NotAuthorized), world_bogdan)
  /\ delete_ad "ad_b0b0b0b0b0b0" (as_user seller_ana tt) world_bogdan
     = (Raised (HTTPException 403 NotAuthorized), world_bogdan).
Proof.
  apply (content_change_needs_owner_or_admin "ad_b0b0b0b0b0b0" t0 world_bogdan
           seller_ana ad_bogdan (retitle "Pian") eq_refl);
    discriminate.
Defined.

Lemma filter_nil_find_none {A} (q : A -> bool) (coll : list A) :
  filter q coll = [] -> find_one q coll = None.
Proof.
  unfold find_one. induction coll as [|x rest IH]; simpl; [reflexivity|].
  destruct (q x); [discriminate | exact IH].
Qed.

Lemma delete_one_unique {A} (q : A -> bool) (coll : list A) :
  count_documents q coll = 1 ->
  find_one q (delete_one q coll) = None
  /\ S (List.length (delete_one q coll)) = List.length coll.
Proof.
  unfold count_documents.
  induction coll as [|x rest IH]; simpl; [discriminate|].
  destruct (q x) eqn:Hq; simpl.
  - intros Hone. split; [|reflexivity]. apply filter_nil_find_none.
    destruct (filter q rest); [reflexivity|]. simpl in Hone. lia.
  - intros Hone. destruct (IH Hone) as [Hnone Hlen].
    unfold find_one in *. simpl. rewrite Hq. split; [exact Hnone | now rewrite Hlen].
Qed.

(** X6.  When the owner or an administrator deletes an ad whose id is
    carried by exactly one ad, the id resolves to nothing afterwards (a
    later read answers 404), the ad collection has one document less, and
    payments, reviews and users are left as they are: nothing cascades. *)
Theorem delete_ad_removes_the_ad
  (ad_id : string) (w : world) (user : User.t) (ad : Ad.t) :
  find_one (by_ad_id ad_id) (db_ads w) = Some ad ->
  Ad.user_id ad = User.user_id user \/ User.role user = Some "admin" ->
  count_documents (by_ad_id ad_id) (db_ads w) = 1 ->
  exists w' : world,
    delete_ad ad_id (as_user user tt) w = (Return tt, w')
    /\ find_one (by_ad_id ad_id) (db_ads w') = None
    /\ S (List.length (db_ads w')) = List.length (db_ads w)
    /\ get_ad ad_id w' = (Raised (HTTPException 404 AdNotFound), w')
    /\ db_payments w' = db_payments w
    /\ db_reviews w' = db_reviews w
    /\ db_users w' = db_users w.
Proof.
  intros Hfind Hmay Hone.
  assert (Hguard : negb (Ad.user_id ad =? User.user_id user)%string
                   && negb (opt_str_is (User.role user) "admin") = false).
  { apply andb_false_iff. destruct Hmay as [Howner | Hrole].
    - left. apply negb_false_iff. now apply String.eqb_eq.
    - right. rewrite Hrole. reflexivity. }
  destruct (delete_one_unique _ _ Hone) as [Hnone Hlen].
  unfold delete_ad, require_auth, as_user. cbn [current_user].
  run_handler. rewrite Hfind, Hguard.
  eexists. split; [reflexivity|].
  cbn [db_ads db_payments db_users db_reviews with_ads].
  split; [exact Hnone|]. split; [exact Hlen|].
  split; [|repeat split].
  unfold get_ad. run_handler. cbn [db_ads with_ads]. now rewrite Hnone.
Qed.

Lemma delete_ad_removes_the_ad_witness :
  exists w' : world,
    delete_ad "ad_b0b0b0b0b0b0" (as_user admin_carmen tt) world_boost_pending
      = (Return tt, w')
    /\ db_ads w' = []
    /\ db_payments w' = [boost_order].
Proof.
  destruct (delete_ad_removes_the_ad "ad_b0b0b0b0b0b0" world_boost_pending admin_carmen
              ad_bogdan eq_refl (or_intror eq_refl) eq_refl)
    as [w' [Hrun [_ [Hlen [_ [Hpay _]]]]]].
  exists w'. split; [exact Hrun|]. split; [|exact Hpay].
  destruct (db_ads w'); [reflexivity | discriminate Hlen].
Defined.



(** ** Pages of ads *)

Lemma find_page_returns (query : Ad.t -> bool) (sort_by : sort_spec) (page limit : Z)
  (w : world) :
  1 <= page -> 1 <= limit ->
  find_page query sort_by page limit w
  = (Return (mk_ads_page
               (firstn (Z.to_nat limit)
                  (skipn (Z.to_nat ((page - 1) * limit))
                     (sort_docs sort_by (filter query (db_ads w)))))
               (count_documents query (db_ads w)) page
               ((count_documents query (db_ads w) + limit - 1) / limit)), w).
Proof.
  intros Hpage Hlimit. unfold find_page. run_handler.
  assert (H1 : ((page - 1) * limit <? 0) = false) by (apply Z.ltb_ge; nia).
  assert (H2 : (limit <? 0) = false) by (apply Z.ltb_ge; lia).
  assert (H3 : (limit =? 0) = false) by (apply Z.eqb_neq; lia).
  rewrite H1, H2, H3. reflexivity.
Qed.

Lemma created_desc_before (a b : Ad.t) :
  precedes created_desc a b = true -> by_created_desc a b.
Proof.
  unfold precedes, by_created_desc. simpl.
  destruct (Ad.created_at a ?= Ad.created_at b) eqn:Hc; simpl; try discriminate.
  - apply Z.compare_eq in Hc. lia.
  - rewrite Z.compare_gt_iff in Hc. lia.
Qed.

Lemma created_desc_after (a b : Ad.t) :
  precedes created_desc a b = false -> by_created_asc a b.
Proof.
  unfold precedes, by_created_asc. simpl.
  destruct (Ad.created_at a ?= Ad.created_at b) eqn:Hc; simpl; try discriminate.
  rewrite Z.compare_lt_iff in Hc. lia.
Qed.

Lemma insert_sorted_perm (spec : sort_spec) (a : Ad.t) (l : list Ad.t) :
  Permutation (insert_sorted spec a l) (a :: l).
Proof.
  induction l as [|b rest IH]; simpl; [reflexivity|].
  destruct (precedes spec a b); [reflexivity|].
  rewrite IH. apply perm_swap.
Qed.

Lemma sort_docs_perm (spec : sort_spec) (l : list Ad.t) :
  Permutation (sort_docs spec l) l.
Proof.
  induction l as [|a rest IH]; [reflexivity|].
  change (sort_docs spec (a :: rest)) with (insert_sorted spec a (sort_docs spec rest)).
  rewrite insert_sorted_perm. now constructor.
Qed.

Lemma sort_docs_length (spec : sort_spec) (l : list Ad.t) :
  List.length (sort_docs spec l) = List.length l.
Proof. apply Permutation_length, sort_docs_perm. Qed.

Lemma page_slice_sorted (R : Ad.t -> Ad.t -> Prop) (spec : sort_spec) (n m : nat)
  (l : list Ad.t) :
  (forall a b c, R a b -> R b c -> R a c) ->
  (forall a b, precedes spec a b = true -> R a b) ->
  (forall a b, precedes spec a b = false -> R b a) ->
  StronglySorted R (firstn n (skipn m (sort_docs spec l))).
Proof.
  intros Htrans Hbefore Hafter.
  apply StronglySorted_firstn, StronglySorted_skipn.
  now apply sort_docs_sorted.
Qed.

Lemma page_slice_In (spec : sort_spec) (query : Ad.t -> bool) (n m : nat)
  (l : list Ad.t) (a : Ad.t) :
  In a (firstn n (skipn m (sort_docs spec (filter query l)))) ->
  In a l /\ query a = true.
Proof.
  intros Ha. apply In_firstn, In_skipn in Ha.
  now apply sort_docs_In, filter_In in Ha.
Qed.

Lemma page_slice_full (spec : sort_spec) (query : Ad.t -> bool) (limit : Z)
  (l : list Ad.t) (a : Ad.t) :
  count_documents query l <= limit ->
  In a l -> query a = true ->
  In a (firstn (Z.to_nat limit) (skipn (Z.to_nat ((1 - 1) * limit))
                                   (sort_docs spec (filter query l)))).
Proof.
  unfold count_documents. intros Hfit Hin Hq.
  change (Z.to_nat ((1 - 1) * limit)) with 0%nat. cbn [skipn].
  rewrite firstn_all2 by (rewrite sort_docs_length; lia).
  apply sort_docs_In, filter_In. now split.
Qed.

(** X8.  The owner's listing returns, for a page and a limit of at least
    1, only ads of the caller, newest first by creation time, and writes
    nothing; it does not look at the status: when the caller's ads fit on
    the first page, every one of them is returned, pending, rejected and
    expired ones included. *)
Theorem get_my_ads_lists_own_ads (page limit : Z) (w : world) (user : User.t) :
  1 <= page -> 1 <= limit ->
  exists resp : ads_page,
    get_my_ads page limit (as_user user tt) w = (Return resp, w)
    /\ Forall (fun a => In a (db_ads w) /\ Ad.user_id a = User.user_id user)
         (page_ads resp)
    /\ StronglySorted by_created_desc (page_ads resp)
    /\ (page = 1 -> page_total resp <= limit ->
        forall a, In a (db_ads w) -> Ad.user_id a = User.user_id user ->
                  In a (page_ads resp)).
Proof.
  intros Hpage Hlimit.
  unfold get_my_ads, require_auth, as_user. cbn [current_user]. run_handler.
  fold (bind (A := ads_page) (B := ads_page)).
  rewrite find_page_returns by assumption.
  eexists. split; [reflexivity|]. cbn [page_ads page_total].
  split; [|split].
  - rewrite Forall_forall. intros a Ha. apply page_slice_In in Ha.
    destruct Ha as [Hin Hq]. split; [exact Hin | now apply String.eqb_eq].
  - apply page_slice_sorted.
    + unfold by_created_desc. intros; lia.
    + apply created_desc_before.
    + intros a b H. apply created_desc_after in H. exact H.
  - intros -> Hfit a Hin Hown. apply page_slice_full; [exact Hfit | exact Hin|].
    now apply String.eqb_eq.
Qed.

Lemma get_my_ads_lists_own_ads_witness :
  exists resp : ads_page,
    get_my_ads 1 20 (as_user seller_ana tt) world_two_sellers
      = (Return resp, world_two_sellers)
    /\ In ad_ana_pending (page_ads resp)
    /\ Ad.status ad_ana_pending = "pending".
Proof.
  destruct (get_my_ads_lists_own_ads 1 20 world_two_sellers seller_ana
              ltac:(lia) ltac:(lia)) as [resp [Hrun [_ [_ Hall]]]].
  exists resp. split; [exact Hrun|]. split; [|reflexivity].
  apply Hall; [reflexivity | | right; left; reflexivity | reflexivity].
  assert (Hresp := Hrun). vm_compute in Hresp. injection Hresp as <-.
  vm_compute. discriminate.
Defined.

(** X9.  The moderator's listing is refused with 403 to a caller without
    the role [admin]; for an administrator (page and limit at least 1) it
    returns ads newest first by creation time, all of the given status
    when a status is given, and counts every ad of the store when none is
    given. *)
Theorem admin_get_ads_by_status
  (status : option string) (page limit : Z) (w : world) (user : User.t) :
  1 <= page -> 1 <= limit ->
  (User.role user <> Some "admin" ->
   admin_get_ads status page limit (as_user user tt) w
   = (Raised (HTTPException 403 AdminAccessRequired), w))
  /\ (User.role user = Some "admin" ->
      exists resp : ads_page,
        admin_get_ads status page limit (as_user user tt) w = (Return resp, w)
        /\ Forall (fun a => In a (db_ads w)
                            /\ (truthy_str status = true ->
                                Some (Ad.status a) = status))
             (page_ads resp)
        /\ StronglySorted by_created_desc (page_ads resp)
        /\ (truthy_str status = false ->
            page_total resp = Z.of_nat (List.length (db_ads w)))).
Proof.
  intros Hpage Hlimit.
  unfold admin_get_ads, require_admin, require_auth, as_user. cbn [current_user].
  run_handler. split.
  - intros Hrole.
    assert (Hno : opt_str_is (User.role user) "admin" = false).
    { unfold opt_str_is. destruct (User.role user) as [r|]; [|reflexivity].
      apply String.eqb_neq. congruence. }
    rewrite Hno. reflexivity.
  - intros Hrole. rewrite Hrole.
    change (negb (opt_str_is (Some "admin") "admin")) with false. cbv beta iota.
    rewrite find_page_returns by assumption.
    eexists. split; [reflexivity|]. cbn [page_ads page_total].
    split; [|split].
    + rewrite Forall_forall. intros a Ha. apply page_slice_In in Ha.
      destruct Ha as [Hin Hq]. split; [exact Hin|].
      intros Htruthy. rewrite Htruthy in Hq.
      unfold truthy_str in Htruthy. destruct status as [s|]; [|discriminate].
      cbn [get_default] in Hq. apply String.eqb_eq in Hq. now rewrite Hq.
    + apply page_slice_sorted.
      * unfold by_created_desc. intros; lia.
      * apply created_desc_before.
      * intros a b H. apply created_desc_after in H. exact H.
    + intros Hnone. rewrite Hnone. unfold count_documents.
      assert (Hall : forall l : list Ad.t, filter (fun _ => true) l = l).
      { induction l as [|x rest IH]; simpl; [reflexivity | now rewrite IH]. }
      now rewrite Hall.
Qed.

Lemma admin_get_ads_by_status_witness :
  admin_get_ads (Some "pending") 1 20 (as_user seller_ana tt) world_two_sellers
  = (Raised (HTTPException 403 AdminAccessRequired), world_two_sellers)
  /\ exists resp : ads_page,
      admin_get_ads (Some "pending") 1 20 (as_user admin_carmen tt) world_two_sellers
      = (Return resp, world_two_sellers)
      /\ StronglySorted by_created_desc (page_ads resp).
Proof.
  split.
  - apply (proj1 (admin_get_ads_by_status (Some "pending") 1 20 world_two_sellers
                    seller_ana ltac:(lia) ltac:(lia))).
    discriminate.
  - destruct (proj2 (admin_get_ads_by_status (Some "pending") 1 20 world_two_sellers
                       admin_carmen ltac:(lia) ltac:(lia)) eq_refl)
      as [resp [Hrun [_ [Hsorted _]]]].
    exists resp. split; assumption.
Defined.

(** ** Pages of the public listing *)

Lemma ceil_div_bounds (total limit : Z) :
  0 <= total -> 1 <= limit ->
  ((total + limit - 1) / limit - 1) * limit < total
  /\ total <= (total + limit - 1) / limit * limit.
Proof.
  intros Htotal Hlimit.
  pose proof (Z.div_mod (total + limit - 1) limit ltac:(lia)) as Hdm.
  pose proof (Z.mod_pos_bound (total + limit - 1) limit ltac:(lia)) as Hmod.
  nia.
Qed.

(** X10.  A page of the public listing (page and limit at least 1) holds
    at most [limit] ads; [total] is the number of all ads matching the
    filters, whatever the page and the sort mode; [pages] is the least
    number of pages of [limit] ads that hold [total] ads; and a page after
    the last one is empty. *)
Theorem get_ads_page_counts
  (regex_search : string -> string -> bool)
  (category_id subcategory_id city_id search : option string)
  (min_price max_price : option Z) (sort : string) (page limit : Z) (w : world) :
  1 <= page -> 1 <= limit ->
  exists resp : ads_page,
    get_ads regex_search category_id subcategory_id city_id search
      min_price max_price sort page limit w = (Return resp, w)
    /\ Z.of_nat (List.length (page_ads resp)) <= limit
    /\ page_total resp
       = Z.of_nat (List.length
                     (filter (ads_query regex_search category_id subcategory_id city_id
                                search min_price max_price) (db_ads w)))
    /\ (page_pages resp - 1) * limit < page_total resp
    /\ page_total resp <= page_pages resp * limit
    /\ (page_pages resp < page -> page_ads resp = []).
Proof.
  intros Hpage Hlimit. eexists. split; [apply get_ads_returns; assumption|].
  cbn [page_ads page_total page_pages].
  set (query := ads_query regex_search category_id subcategory_id city_id search
                  min_price max_price).
  set (sorted := sort_docs (sort_by_of category_id sort) (filter query (db_ads w))).
  assert (Hlen : count_documents query (db_ads w) = Z.of_nat (List.length sorted)).
  { unfold count_documents, sorted. now rewrite sort_docs_length. }
  set (total := count_documents query (db_ads w)) in *.
  assert (Htotal : 0 <= total) by lia.
  destruct (ceil_div_bounds total limit Htotal Hlimit) as [Hlow Hhigh].
  split; [|split; [reflexivity|split; [exact Hlow|split; [exact Hhigh|]]]].
  - pose proof (firstn_le_length (Z.to_nat limit)
                  (skipn (Z.to_nat ((page - 1) * limit)) sorted)).
    lia.
  - intros Hbeyond.
    rewrite (skipn_all2 sorted); [now rewrite firstn_nil|].
    nia.
Qed.

Lemma get_ads_page_counts_witness :
  exists resp : ads_page,
    get_ads no_search None None None None None None "newest" 2 1 world_escorts
      = (Return resp, world_escorts)
    /\ page_total resp = 2 /\ page_pages resp = 2
    /\ map Ad.ad_id (page_ads resp) = ["ad_older"].
Proof.
  destruct (get_ads_page_counts no_search None None None None None None "newest" 2 1
              world_escorts ltac:(lia) ltac:(lia)) as [resp [Hrun _]].
  exists resp. split; [exact Hrun|].
  assert (Hresp := Hrun). vm_compute in Hresp. injection Hresp as <-.
  repeat split; reflexivity.
Defined.





Lemma sort_by_of_unknown_mode (category_id : option string) (sort : string) :
  ~ In sort SORT_MODES -> sort_by_of category_id sort = sort_by_of category_id "newest".
Proof.
  intros Hunknown.
  assert (Hlookup : lookup_default sort_options sort newest_spec = newest_spec).
  { unfold sort_options, lookup_default.
    repeat match goal with
    | |- context [String.eqb ?k sort] =>
      let H := fresh "H" in
      destruct (String.eqb k sort) eqn:H;
        [apply String.eqb_eq in H; exfalso; apply Hunknown; rewrite <- H;
         unfold SORT_MODES; simpl; tauto|]
    end.
    reflexivity. }
  unfold sort_by_of. rewrite Hlookup. reflexivity.
Qed.

(** X13.  A sort mode that is none of [newest], [oldest], [price_low],
    [price_high], [boosted] is not refused: the listing is the one of mode
    [newest]. *)
Theorem get_ads_unknown_sort_is_newest
  (regex_search : string -> string -> bool)
  (category_id subcategory_id city_id search : option string)
  (min_price max_price : option Z) (sort : string) (page limit : Z) (w : world) :
  ~ In sort SORT_MODES ->
  get_ads regex_search category_id subcategory_id city_id search
    min_price max_price sort page limit w
  = get_ads regex_search category_id subcategory_id city_id search
      min_price max_price "newest" page limit w.
Proof.
  intros Hunknown. unfold get_ads.
  now rewrite (sort_by_of_unknown_mode category_id sort Hunknown).
Qed.

Lemma get_ads_unknown_sort_is_newest_witness :
  get_ads no_search None None None None None None "cheapest" 1 20 world_escorts
  = get_ads no_search None None None None None None "newest" 1 20 world_escorts.
Proof.
  apply (get_ads_unknown_sort_is_newest no_search None None None None None None
           "cheapest" 1 20 world_escorts).
  unfold SORT_MODES. simpl. intros [H|[H|[H|[H|[H|H]]]]]; (discriminate H || exact H).
Defined.

(** X14.  Sorting loses and repeats nothing: when the matching ads fit on
    the first page, the page is a rearrangement of exactly the ads of the
    store that match the filters. *)
Theorem get_ads_first_page_is_complete
  (regex_search : string -> string -> bool)
  (category_id subcategory_id city_id search : option string)
  (min_price max_price : option Z) (sort : string) (limit : Z) (w : world) :
  1 <= limit ->
  count_documents (ads_query regex_search category_id subcategory_id city_id search
                     min_price max_price) (db_ads w) <= limit ->
  exists resp : ads_page,
    get_ads regex_search category_id subcategory_id city_id search
      min_price max_price sort 1 limit w = (Return resp, w)
    /\ Permutation (page_ads resp)
         (filter (ads_query regex_search category_id subcategory_id city_id search
                    min_price max_price) (db_ads w)).
Proof.
  intros Hlimit Hfit. eexists. split; [apply get_ads_returns; lia|].
  cbn [page_ads]. change (Z.to_nat ((1 - 1) * limit)) with 0%nat. cbn [skipn].
  unfold count_documents in Hfit.
  rewrite firstn_all2 by (rewrite sort_docs_length; lia).
  apply sort_docs_perm.
Qed.

Lemma get_ads_first_page_is_complete_witness :
  exists resp : ads_page,
    get_ads no_search None None None None None None "price_low" 1 20 world_escorts
      = (Return resp, world_escorts)
    /\ Permutation (page_ads resp) [escort_older; escort_newer].
Proof.
  exact (get_ads_first_page_is_complete no_search None None None None None None
           "price_low" 20 world_escorts ltac:(lia) ltac:(vm_compute; discriminate)).
Defined.

(** ** Orders *)

Lemma create_payment_order_inv
  (token_reply order_reply : http_reply) (uuid12 : string) (now : instant)
  (req : request order_body) (w w' : world) (resp : order_response) :
  create_payment_order token_reply order_reply uuid12 now req w = (Return resp, w') ->
  exists (user : User.t) (payment_type : string) (amount : Z) (data : list (string * json)),
    current_user req = Some user
    /\ ob_payment_type (body req) = Some payment_type
    /\ amount_of PAYMENT_AMOUNTS payment_type = Some amount
    /\ order_reply = Response 200 (Some (JObj data))
    /\ (exists token, get_viva_access_token token_reply w = (Return token, w))
    /\ resp = mk_order_response (order_code_of data) amount
    /\ w' = with_payments
              (insert_one (Payment.mk ("pay_" ++ uuid12) (order_code_of data)
                             (ob_ad_id (body req)) (User.user_id user) payment_type
                             amount "pending" None now None)) w.
Proof.
  unfold create_payment_order, require_auth, get_viva_access_token.
  destruct (current_user req) as [user|] eqn:Hauth; [|discriminate].
  run_handler.
  destruct (ob_payment_type (body req)) as [payment_type|] eqn:Htype; [|discriminate].
  destruct (amount_of PAYMENT_AMOUNTS payment_type) as [amount|] eqn:Hamount;
    [|discriminate].
  destruct token_reply as [|code [[| | | | |flds]|]]; try discriminate;
    (destruct (negb (code =? 200)); [discriminate|]);
    try discriminate.
  destruct (assoc_get "access_token" flds) as [token|]; [|discriminate].
  destruct order_reply as [|code' [[| | | | |data]|]]; try discriminate;
    (destruct (negb (code' =? 200)) eqn:Hcode; [discriminate|]);
    try discriminate.
  intros [= <- <-].
  apply negb_false_iff in Hcode. apply Z.eqb_eq in Hcode. subst code'.
  exists user, payment_type, amount, data.
  split; [reflexivity|]. split; [reflexivity|]. split; [exact Hamount|].
  split; [reflexivity|]. split; [exists token; reflexivity|].
  split; reflexivity.
Qed.


(** X15.  Order creation is all or nothing and touches payments only: a
    call that ends in an exception leaves the whole store as it was; a
    call that returns has appended exactly one payment document, in status
    [pending], without completion time, carrying the order code and amount
    it answers with, and has changed no ad, user or review and queued no
    notification. *)
Theorem create_payment_order_all_or_nothing
  (token_reply order_reply : http_reply) (uuid12 : string) (now : instant)
  (req : request order_body) (w : world) :
  match create_payment_order token_reply order_reply uuid12 now req w with
  | (Raised _, w') => w' = w
  | (Return resp, w') =>
    exists doc : Payment.t,
      db_payments w' = (db_payments w ++ [doc])%list
      /\ Payment.status doc = "pending"
      /\ Payment.completed_at doc = None
      /\ Payment.order_code doc = resp_order_code resp
      /\ Payment.amount doc = resp_amount resp
      /\ Payment.ad_id doc = ob_ad_id (body req)
      /\ Some (Payment.user_id doc) = option_map User.user_id (current_user req)
      /\ db_ads w' = db_ads w
      /\ db_users w' = db_users w
      /\ db_reviews w' = db_reviews w
      /\ tasks w' = tasks w
  end.
Proof.
  destruct (create_payment_order token_reply order_reply uuid12 now req w)
    as [[resp|e] w'] eqn:Hrun.
  - destruct (create_payment_order_inv _ _ _ _ _ _ _ _ Hrun)
      as [user [payment_type [amount [data [Hauth [_ [_ [_ [_ [-> ->]]]]]]]]]].
    eexists. cbn [db_payments db_ads db_users db_reviews tasks with_payments].
    unfold insert_one. split; [reflexivity|]. rewrite Hauth.
    repeat split; reflexivity.
  - pose proof (create_payment_order_failure_writes_nothing
                  token_reply order_reply uuid12 now req w e) as Hkeep.
    rewrite Hrun in Hkeep. apply Hkeep. reflexivity.
Qed.



(** X17.  An order can be followed by its order code.  Right after an
    order was created under an order code no stored payment carried,
    [verify_payment] reports it as [pending] with the payment type and ad
    id of the request; after the gateway's webhook for that order code with
    the success status (and correlation data that is an object or does not
    decode) it reports [completed], type and ad id unchanged. *)
Theorem order_can_be_followed_by_code
  (token_reply order_reply : http_reply) (uuid12 : string) (now : instant)
  (req : request order_body) (w w1 : world) (resp : order_response) (code : Z) :
  create_payment_order token_reply order_reply uuid12 now req w = (Return resp, w1) ->
  resp_order_code resp = Some code ->
  find_one (by_order_code (Some code)) (db_payments w) = None ->
  exists payment_type : string,
    ob_payment_type (body req) = Some payment_type
    /\ verify_payment code w1
       = (Return (mk_verify_response "pending" payment_type (ob_ad_id (body req))), w1)
    /\ forall (json_loads : string -> option json)
              (field_condition : json -> option (string -> bool))
              (now_completed now_effect : instant) (ev : event_data),
        OrderCode ev = Some code ->
        StatusId ev = Some "F" ->
        correlation_fields json_loads ev <> None ->
        fst (verify_payment code
               (snd (payment_webhook json_loads field_condition now_completed now_effect
                       ev w1)))
        = Return (mk_verify_response "completed" payment_type (ob_ad_id (body req))).
Proof.
  intros Hrun Hcode Hfresh.
  destruct (create_payment_order_inv _ _ _ _ _ _ _ _ Hrun)
    as [user [payment_type [amount [data [_ [Htype [_ [_ [_ [-> ->]]]]]]]]]].
  cbn [resp_order_code] in Hcode.
  set (doc := Payment.mk ("pay_" ++ uuid12) (order_code_of data) (ob_ad_id (body req))
                (User.user_id user) payment_type amount "pending" None now None).
  assert (Hdoc : find_one (by_order_code (Some code)) (insert_one doc (db_payments w))
                 = Some doc).
  { apply find_one_insert_fresh; [exact Hfresh|].
    unfold by_order_code, doc. cbn [Payment.order_code]. rewrite Hcode.
    apply Z.eqb_refl. }
  exists payment_type. split; [exact Htype|]. split.
  - unfold verify_payment. run_handler. cbn [db_payments with_payments].
    fold doc. rewrite Hdoc. reflexivity.
  - intros json_loads field_condition now_completed now_effect ev Hev Hstatus Hobj.
    destruct (payment_webhook_db json_loads field_condition now_completed now_effect ev
                (with_payments (insert_one doc) w)) as [_ [_ Hdb]].
    fold doc. destruct (correlation_fields json_loads ev) as [fields|]; [|congruence].
    rewrite Hstatus in Hdb. cbn [opt_str_is] in Hdb.
    change (String.eqb "F" "F") with true in Hdb. destruct Hdb as [_ Hpay].
    unfold verify_payment. run_handler. rewrite Hpay, Hev.
    cbn [db_payments with_payments].
    rewrite (find_one_update_one _ _ _ doc); [reflexivity | | exact Hdoc].
    intros x. reflexivity.
Qed.

Lemma order_can_be_followed_by_code_witness :
  exists payment_type : string,
    Some "boost" = Some payment_type
    /\ verify_payment 7461928374651234
         (snd (create_payment_order token_granted order_issued "c0c0c0c0c0c0" t0
                 boost_request world_bogdan))
       = (Return (mk_verify_response "pending" payment_type (Some "ad_b0b0b0b0b0b0")),
          snd (create_payment_order token_granted order_issued "c0c0c0c0c0c0" t0
                 boost_request world_bogdan)).
Proof.
  destruct (order_can_be_followed_by_code token_granted order_issued "c0c0c0c0c0c0" t0
              boost_request world_bogdan
              (snd (create_payment_order token_granted order_issued "c0c0c0c0c0c0" t0
                      boost_request world_bogdan))
              (mk_order_response (Some 7461928374651234) 700) 7461928374651234
              eq_refl eq_refl eq_refl)
    as [payment_type [Htype [Hverify _]]].
  exists payment_type. split; [exact Htype | exact Hverify].
Defined.

(** X18.  Events the webhook does not act on.  An event without the
    success status [F] is acknowledged and nothing is written, whatever
    else it carries, as long as its correlation data is absent or a string
    that is the text of an object or does not decode.  An event whose
    correlation data decodes to a JSON value that is not an object, or is
    not a string at all, ends in an uncaught exception before anything is
    written, the success status included: its order stays as it is. *)
Theorem payment_webhook_events_without_effect
  (json_loads : string -> option json)
  (field_condition : json -> option (string -> bool))
  (now_completed now_effect : instant) (ev : event_data) (w : world) :
  (StatusId ev <> Some "F" ->
   forall text : string,
     merchant_text ev = Some text ->
     (forall v, json_loads text = Some v -> exists fields, v = JObj fields) ->
     payment_webhook json_loads field_condition now_completed now_effect ev w
     = (Return StatusReceived, w))
  /\ (forall (text : string) (v : json),
        merchant_text ev = Some text ->
        json_loads text = Some v ->
        (forall fields, v <> JObj fields) ->
        payment_webhook json_loads field_condition now_completed now_effect ev w
        = (Raised (Uncaught AttributeError), w))
  /\ (merchant_text ev = None ->
      payment_webhook json_loads field_condition now_completed now_effect ev w
      = (Raised (Uncaught TypeError), w)).
Proof.
  pose proof (payment_webhook_run json_loads field_condition now_completed now_effect ev w)
    as Hrun.
  unfold correlation_fields, correlation_error in Hrun. split; [|split].
  - intros Hstatus text Htext Hobj.
    assert (Hno : opt_str_is (StatusId ev) "F" = false).
    { unfold opt_str_is. destruct (StatusId ev) as [s|]; [|reflexivity].
      apply String.eqb_neq. congruence. }
    rewrite Htext, Hno in Hrun.
    destruct (json_loads text) as [v|]; [|exact Hrun].
    destruct (Hobj v eq_refl) as [fields ->]. exact Hrun.
  - intros text v Htext Hv Hnot. rewrite Htext, Hv in Hrun.
    destruct v as [| | | | |fields]; try exact Hrun.
    exfalso. now apply (Hnot fields).
  - intros Htext. rewrite Htext in Hrun. exact Hrun.
Qed.

(** X19.  The webhook only rewrites fields of documents that exist.  For
    every event it leaves the number and order of ads and payments, each
    ad's id, owner, rank, last topup and view count, and each payment's
    order code, amount, payment type, payer and ad id as they were, and it
    never writes a user or a review. *)
Theorem payment_webhook_keeps_identities
  (json_loads : string -> option json)
  (field_condition : json -> option (string -> bool))
  (now_completed now_effect : instant) (ev : event_data) (w : world) :
  let w' := snd (payment_webhook json_loads field_condition now_completed now_effect
                   ev w) in
  map (fun a => (Ad.ad_id a, Ad.user_id a, Ad.topup_rank a, Ad.last_topup a, Ad.views a))
    (db_ads w')
  = map (fun a => (Ad.ad_id a, Ad.user_id a, Ad.topup_rank a, Ad.last_topup a, Ad.views a))
      (db_ads w)
  /\ map (fun p => (Payment.order_code p, Payment.amount p, Payment.payment_type p,
                    Payment.user_id p, Payment.ad_id p, Payment.created_at p))
       (db_payments w')
     = map (fun p => (Payment.order_code p, Payment.amount p, Payment.payment_type p,
                      Payment.user_id p, Payment.ad_id p, Payment.created_at p))
         (db_payments w)
  /\ db_users w' = db_users w
  /\ db_reviews w' = db_reviews w.
Proof.
  intros w'.
  destruct (payment_webhook_db json_loads field_condition now_completed now_effect ev w)
    as [Husers [Hreviews Hdb]].
  fold w' in Husers, Hreviews, Hdb.
  split; [|split; [|split; assumption]].
  - destruct (correlation_fields json_loads ev) as [fields|]; [|now rewrite Hdb].
    destruct (opt_str_is (StatusId ev) "F"); [|now rewrite Hdb].
    destruct Hdb as [-> _]. unfold webhook_ad_write.
    destruct (ad_id_query field_condition (assoc_get "ad_id" fields)) as [q|];
      [|reflexivity].
    destruct (json_is_str (assoc_get "payment_type" fields) "post_ad");
      [|destruct (json_is_str (assoc_get "payment_type" fields) "boost");
        [|destruct (json_is_str (assoc_get "payment_type" fields) "promote")]];
      try reflexivity;
      apply update_one_map_fixed; intros x; reflexivity.
  - destruct (correlation_fields json_loads ev) as [fields|]; [|now rewrite Hdb].
    destruct (opt_str_is (StatusId ev) "F"); [|now rewrite Hdb].
    destruct Hdb as [_ ->]. apply update_one_map_fixed. intros x. reflexivity.
Qed.

Lemma update_one_ext {A} (q q' : A -> bool) (upd : A -> A) (coll : list A) :
  (forall x, q x = q' x) -> update_one q upd coll = update_one q' upd coll.
Proof.
  intros Hext. induction coll as [|x rest IH]; simpl; [reflexivity|].
  now rewrite Hext, IH.
Qed.

Lemma get_ads_only_active
  (regex_search : string -> string -> bool)
  (category_id subcategory_id city_id search : option string)
  (min_price max_price : option Z) (sort : string) (page limit : Z)
  (w w' : world) (resp : ads_page) (a : Ad.t) :
  get_ads regex_search category_id subcategory_id city_id search
    min_price max_price sort page limit w = (Return resp, w') ->
  In a (page_ads resp) -> In a (db_ads w) /\ Ad.status a = "active".
Proof.
  unfold get_ads. run_handler.
  destruct (((page - 1) * limit <? 0) || (limit <? 0)); [discriminate|].
  destruct (limit =? 0); [discriminate|].
  intros [= <- _]. cbn [page_ads]. intros Ha. apply page_slice_In in Ha.
  destruct Ha as [Hin Hq]. split; [exact Hin|].
  unfold ads_query in Hq.
  repeat (apply andb_prop in Hq; destruct Hq as [Hq _]).
  now apply String.eqb_eq.
Qed.

(** X20.  A settled [post_ad] payment sends the ad back to moderation: the
    first ad with the id of the correlation data becomes paid and
    [pending], whatever its status was, its rank kept, and from then on no
    public listing returns that document. *)
Theorem post_ad_settlement_unlists_the_ad
  (json_loads : string -> option json)
  (field_condition : json -> option (string -> bool))
  (now_completed now_effect : instant)
  (ev : event_data) (w : world) (text : string) (fields : list (string * json))
  (ad_id : string) (ad : Ad.t) :
  StatusId ev = Some "F" ->
  merchant_text ev = Some text ->
  json_loads text = Some (JObj fields) ->
  assoc_get "payment_type" fields = Some (JStr "post_ad") ->
  assoc_get "ad_id" fields = Some (JStr ad_id) ->
  find_one (by_ad_id ad_id) (db_ads w) = Some ad ->
  let w' := snd (payment_webhook json_loads field_condition now_completed now_effect
                   ev w) in
  exists ad' : Ad.t,
    find_one (by_ad_id ad_id) (db_ads w') = Some ad'
    /\ Ad.status ad' = "pending"
    /\ Ad.is_paid ad' = true
    /\ Ad.topup_rank ad' = Ad.topup_rank ad
    /\ forall regex_search category_id subcategory_id city_id search
              min_price max_price sort page limit resp w'',
        get_ads regex_search category_id subcategory_id city_id search
          min_price max_price sort page limit w' = (Return resp, w'') ->
        ~ In ad' (page_ads resp).
Proof.
  intros Hstatus Htext Hdec Htype Hid Hfind w'.
  destruct (payment_webhook_db json_loads field_condition now_completed now_effect ev w)
    as [_ [_ Hdb]].
  fold w' in Hdb. unfold correlation_fields in Hdb.
  rewrite Htext, Hdec, Hstatus, Htype, Hid in Hdb. cbn [opt_str_is] in Hdb.
  change (String.eqb "F" "F") with true in Hdb. destruct Hdb as [Hads _].
  unfold webhook_ad_write in Hads. cbn [json_is_str ad_id_query] in Hads.
  change (String.eqb "post_ad" "post_ad") with true in Hads. cbv iota in Hads.
  rewrite (update_one_ext _ (by_ad_id ad_id)) in Hads
    by (intros x; unfold ad_id_matches, by_ad_id; cbn [json_is_str];
        apply String.eqb_sym).
  exists (Ad.set_paid_pending ad). rewrite Hads.
  split; [apply find_one_update_one; [intros x; reflexivity | exact Hfind]|].
  split; [reflexivity|]. split; [reflexivity|]. split; [reflexivity|].
  intros regex_search category_id subcategory_id city_id search
         min_price max_price sort page limit resp w'' Hrun Hin.
  destruct (get_ads_only_active _ _ _ _ _ _ _ _ _ _ _ _ _ _ Hrun Hin) as [_ Hactive].
  discriminate Hactive.
Qed.

Lemma post_ad_settlement_unlists_the_ad_witness :
  exists ad' : Ad.t,
    find_one (by_ad_id "ad_b0b0b0b0b0b0")
      (db_ads (snd (payment_webhook post_loads sample_condition t0 t0 post_event
                      world_bogdan)))
    = Some ad'
    /\ Ad.status ad_bogdan = "active"
    /\ Ad.status ad' = "pending".
Proof.
  destruct (post_ad_settlement_unlists_the_ad post_loads sample_condition t0 t0
              post_event world_bogdan post_trns post_fields "ad_b0b0b0b0b0b0" ad_bogdan
              eq_refl eq_refl eq_refl eq_refl eq_refl eq_refl)
    as [ad' [Hfind [Hstatus _]]].
  exists ad'. split; [exact Hfind|]. split; [reflexivity | exact Hstatus].
Defined.

(** ** Moderation *)

Lemma opt_str_is_not (v : option string) (s : string) :
  v <> Some s -> opt_str_is v s = false.
Proof.
  intros Hne. unfold opt_str_is. destruct v as [s'|]; [|reflexivity].
  apply String.eqb_neq. congruence.
Qed.

(** X21.  The status update is refused before anything is looked up or
    written: with 403 for a caller without the role [admin], and with 400
    "Invalid status" for an administrator whose body has no status or one
    that is not [pending], [active], [rejected] or [expired]. *)
Theorem admin_update_ad_status_refusals
  (ad_id : string) (now : instant) (new_status : option string) (w : world)
  (user : User.t) :
  (User.role user <> Some "admin" ->
   admin_update_ad_status ad_id now (as_user user new_status) w
   = (Raised (HTTPException 403 AdminAccessRequired), w))
  /\ (User.role user = Some "admin" ->
      match new_status with
      | Some s => ~ In s ["pending"; "active"; "rejected"; "expired"]
      | None => True
      end ->
      admin_update_ad_status ad_id now (as_user user new_status) w
      = (Raised (HTTPException 400 InvalidStatus), w)).
Proof.
  unfold admin_update_ad_status, require_admin, require_auth, as_user.
  cbn [current_user body]. run_handler. split.
  - intros Hrole. rewrite (opt_str_is_not _ _ Hrole). reflexivity.
  - intros Hrole Hbad. rewrite Hrole.
    change (negb (opt_str_is (Some "admin") "admin")) with false. cbv beta iota.
    destruct new_status as [s|]; [|reflexivity].
    destruct (mem_string s VALID_STATUSES) eqn:Hmem; [|reflexivity].
    exfalso. apply Hbad. unfold mem_string, VALID_STATUSES in Hmem.
    apply existsb_exists in Hmem. destruct Hmem as [x [Hin Heq]].
    apply String.eqb_eq in Heq. now subst x.
Qed.

Lemma admin_update_ad_status_run
  (ad_id new_status : string) (now : instant) (w : world) (user : User.t) (ad : Ad.t) :
  User.role user = Some "admin" ->
  In new_status ["pending"; "active"; "rejected"; "expired"] ->
  find_one (by_ad_id ad_id) (db_ads w) = Some ad ->
  exists w' : world,
    admin_update_ad_status ad_id now (as_user user (Some new_status)) w
    = (Return (mk_message_response new_status), w')
    /\ db_ads w' = update_one (by_ad_id ad_id) (Ad.set_status new_status now) (db_ads w)
    /\ (exists ad', find_one (by_ad_id ad_id) (db_ads w') = Some ad'
                    /\ Ad.status ad' = new_status
                    /\ Ad.updated_at ad' = now
                    /\ Ad.topup_rank ad' = Ad.topup_rank ad
                    /\ Ad.last_topup ad' = Ad.last_topup ad
                    /\ Ad.is_paid ad' = Ad.is_paid ad)
    /\ db_payments w' = db_payments w
    /\ db_users w' = db_users w
    /\ db_reviews w' = db_reviews w
    /\ tasks w'
       = if (String.eqb new_status "active" || String.eqb new_status "rejected")
            && negb (String.eqb (owner_email ad w) "")
         then (tasks w
               ++ [mk_email (owner_email ad w)
                     (if String.eqb new_status "active" then "ad_approved" else "ad_rejected")
                     [("user_name", JStr (owner_name ad w));
                      ("ad_title", json_of_opt_string (Ad.title ad));
                      ("ad_price", JStr (price_str (Ad.price ad)));
                      ("ad_id", JStr ad_id);
                      ("site_url", JStr "https://x67digital.com")]])%list
         else tasks w.
Proof.
  intros Hrole Hvalid Hfind.
  assert (Hmem : mem_string new_status VALID_STATUSES = true).
  { unfold mem_string, VALID_STATUSES. apply existsb_exists.
    exists new_status. split; [exact Hvalid | apply String.eqb_refl]. }
  assert (Hafter :
             find_one (by_ad_id ad_id)
               (update_one (by_ad_id ad_id) (Ad.set_status new_status now) (db_ads w))
             = Some (Ad.set_status new_status now ad)).
  { apply find_one_update_one; [intros x; reflexivity | exact Hfind]. }
  unfold admin_update_ad_status, require_admin, require_auth, as_user.
  cbn [current_user body]. run_handler. rewrite Hrole.
  change (negb (opt_str_is (Some "admin") "admin")) with false. cbv beta iota.
  rewrite Hmem. cbn [negb]. cbv beta iota. rewrite Hfind.
  unfold owner_email, owner_name.
  destruct (find_one (by_user_id (Ad.user_id ad)) (db_users w)) as [owner|].
  - destruct (negb (User.email owner =? "")%string);
      destruct (String.eqb new_status "active");
      try destruct (String.eqb new_status "rejected");
      cbn [orb andb]; eexists; (split; [reflexivity|]);
      cbn [db_ads db_payments db_users db_reviews tasks with_ads with_task];
      (split; [reflexivity|]);
      (split; [exists (Ad.set_status new_status now ad);
               split; [exact Hafter | repeat split]|]);
      repeat split.
  - change (negb ("" =? "")%string) with false. rewrite andb_false_r.
    eexists. split; [reflexivity|].
    cbn [db_ads db_payments db_users db_reviews tasks with_ads with_task].
    split; [reflexivity|].
    split; [exists (Ad.set_status new_status now ad);
            split; [exact Hafter | repeat split]|].
    repeat split.
Qed.


(** X22.  For an administrator, a valid status and an ad that exists, the
    status update writes the new status and [updated_at] on the first ad
    with the id and nothing else in the store; it queues one notification
    to the owner, [ad_approved] for [active] and [ad_rejected] for
    [rejected], when the owner's account exists with a non-empty email, and
    none for [pending] and [expired].  The notification carries the owner's
    name, the ad's stored title (null when the ad has none), its price as
    text, the ad id and the site's address. *)
Theorem admin_update_ad_status_effect
  (ad_id new_status : string) (now : instant) (w : world) (user : User.t) (ad : Ad.t) :
  User.role user = Some "admin" ->
  In new_status ["pending"; "active"; "rejected"; "expired"] ->
  find_one (by_ad_id ad_id) (db_ads w) = Some ad ->
  exists w' : world,
    admin_update_ad_status ad_id now (as_user user (Some new_status)) w
    = (Return (mk_message_response new_status), w')
    /\ db_ads w' = update_one (by_ad_id ad_id) (Ad.set_status new_status now) (db_ads w)
    /\ (exists ad', find_one (by_ad_id ad_id) (db_ads w') = Some ad'
                    /\ Ad.status ad' = new_status
                    /\ Ad.updated_at ad' = now
                    /\ Ad.topup_rank ad' = Ad.topup_rank ad
                    /\ Ad.last_topup ad' = Ad.last_topup ad
                    /\ Ad.is_paid ad' = Ad.is_paid ad)
    /\ db_payments w' = db_payments w
    /\ db_users w' = db_users w
    /\ db_reviews w' = db_reviews w
    /\ tasks w'
       = if (String.eqb new_status "active" || String.eqb new_status "rejected")
            && negb (String.eqb (owner_email ad w) "")
         then (tasks w
               ++ [mk_email (owner_email ad w)
                     (if String.eqb new_status "active" then "ad_approved" else "ad_rejected")
                     [("user_name", JStr (owner_name ad w));
                      ("ad_title", json_of_opt_string (Ad.title ad));
                      ("ad_price", JStr (price_str (Ad.price ad)));
                      ("ad_id", JStr ad_id);
                      ("site_url", JStr "https://x67digital.com")]])%list
         else tasks w.
Proof.
  intros Hrole Hvalid Hfind.
  exact (admin_update_ad_status_run ad_id new_status now w user ad Hrole Hvalid Hfind).
Qed.

Lemma admin_update_ad_status_effect_witness :
  exists w' : world,
    admin_update_ad_status "ad_a1a1a1a1a1a1" t0 (as_user admin_carmen (Some "active"))
      world_two_sellers
    = (Return (mk_message_response "active"), w')
    /\ map Ad.status (db_ads w') = ["active"; "active"]
    /\ tasks w'
       = [mk_email "ana@example.com" "ad_approved"
            [("user_name", JStr "Ana"); ("ad_title", JStr "Anunt");
             ("ad_price", JStr "Preț la cerere"); ("ad_id", JStr "ad_a1a1a1a1a1a1");
             ("site_url", JStr "https://x67digital.com")]].
Proof.
  destruct (admin_update_ad_status_effect "ad_a1a1a1a1a1a1" "active" t0 world_two_sellers
              admin_carmen ad_ana_pending eq_refl
              (or_intror (or_introl eq_refl)) eq_refl)
    as [w' [Hrun [Hads [_ [_ [_ [_ Htasks]]]]]]].
  exists w'. split; [exact Hrun|]. rewrite Hads, Htasks. split; reflexivity.
Defined.

(** X23.  An ad published in the moderated category and then approved is
    active with rank 0 and no last topup: the approval writes neither.  Its
    owner's first manual TopUp therefore succeeds whenever it is made, with
    no cooldown, and gives the ad the rank of that instant. *)
Theorem approved_ad_has_no_cooldown
  (uuid12 : string) (published approved now_check now : instant)
  (req_publish : request ad_body) (w : world) (publisher admin : User.t) :
  current_user req_publish = Some publisher ->
  is_escort_category (b_category_id (body req_publish)) = true ->
  find_one (by_ad_id ("ad_" ++ uuid12)) (db_ads w) = None ->
  User.role admin = Some "admin" ->
  let ad_id := "ad_" ++ uuid12 in
  let w1 := snd (create_ad uuid12 published req_publish w) in
  let w2 := snd (admin_update_ad_status ad_id approved (as_user admin (Some "active")) w1) in
  (exists ad, find_one (by_ad_id ad_id) (db_ads w2) = Some ad
              /\ Ad.status ad = "active"
              /\ Ad.topup_rank ad = 0
              /\ Ad.last_topup ad = None)
  /\ exists w3 ad3,
      topup_ad ad_id now_check now (as_user publisher tt) w2
      = (Return (mk_topup_response (cooldown_minutes publisher)), w3)
      /\ find_one (by_ad_id ad_id) (db_ads w3) = Some ad3
      /\ Ad.topup_rank ad3 = now
      /\ Ad.last_topup ad3 = Some now.
Proof.
  intros Hauth Hcat Hfresh Hrole ad_id w1 w2.
  assert (Hw1 : exists doc,
             find_one (by_ad_id ad_id) (db_ads w1) = Some doc
             /\ Ad.user_id doc = User.user_id publisher
             /\ Ad.topup_rank doc = 0 /\ Ad.last_topup doc = None).
  { subst w1. unfold create_ad, require_auth. rewrite Hauth, Hcat. run_handler.
    cbn [snd db_ads with_task with_ads].
    eexists. split; [apply find_one_insert_fresh; [exact Hfresh|]|].
    - unfold by_ad_id. cbn [Ad.ad_id]. apply String.eqb_refl.
    - repeat split. }
  destruct Hw1 as [doc [Hdoc [Howner [Hrank Hlast]]]].
  destruct (admin_update_ad_status_run ad_id "active" approved w1 admin doc Hrole
              (or_intror (or_introl eq_refl)) Hdoc)
    as [w2' [Hrun [Hads [[ad2 [Hfind2 [Hst [_ [Hr2 [Hl2 _]]]]]] _]]]].
  assert (Hw2 : w2 = w2') by (subst w2; rewrite Hrun; reflexivity).
  rewrite Hw2.
  assert (Howner2 : Ad.user_id ad2 = User.user_id publisher).
  { rewrite Hads in Hfind2.
    rewrite (find_one_update_one _ _ _ doc) in Hfind2;
      [|intros x; reflexivity | exact Hdoc].
    injection Hfind2 as <-. exact Howner. }
  split.
  - exists ad2. repeat split; congruence.
  - pose proof (topup_ad_run ad_id now_check now (as_user publisher tt) w2' publisher ad2
                  eq_refl Hfind2 Howner2 Hst) as Htop.
    rewrite Hl2, Hlast in Htop.
    eexists. exists (Ad.set_topup now ad2). split; [exact Htop|].
    cbn [db_ads with_ads].
    split; [apply find_one_update_one; [intros x; reflexivity | exact Hfind2]|].
    split; reflexivity.
Qed.

Lemma approved_ad_has_no_cooldown_witness :
  exists w3 ad3,
    topup_ad "ad_0123456789ab" (t0 + 2) (t0 + 2) (as_user seller_ana tt)
      (snd (admin_update_ad_status "ad_0123456789ab" (t0 + 1)
              (as_user admin_carmen (Some "active"))
              (snd (create_ad "0123456789ab" t0
                      (as_user seller_ana (ad_body_of "Anunt" "escorts")) world_users))))
    = (Return (mk_topup_response 60), w3)
    /\ find_one (by_ad_id "ad_0123456789ab") (db_ads w3) = Some ad3
    /\ Ad.topup_rank ad3 = t0 + 2
    /\ Ad.last_topup ad3 = Some (t0 + 2).
Proof.
  exact (proj2 (approved_ad_has_no_cooldown "0123456789ab" t0 (t0 + 1) (t0 + 2) (t0 + 2)
                  (as_user seller_ana (ad_body_of "Anunt" "escorts")) world_users
                  seller_ana admin_carmen eq_refl eq_refl eq_refl eq_refl)).
Defined.

(** X24.  Moderation decides the public listing.  After an administrator
    has set the status of an ad, the ad as now stored is returned by no
    listing when the status is anything but [active]; when it is [active],
    the unfiltered listing returns it on the first page, provided the
    active ads fit on that page. *)
Theorem moderation_decides_listing
  (ad_id new_status : string) (now : instant) (w : world) (admin : User.t) (ad : Ad.t) :
  User.role admin = Some "admin" ->
  In new_status ["pending"; "active"; "rejected"; "expired"] ->
  find_one (by_ad_id ad_id) (db_ads w) = Some ad ->
  let w' := snd (admin_update_ad_status ad_id now (as_user admin (Some new_status)) w) in
  let ad' := Ad.set_status new_status now ad in
  find_one (by_ad_id ad_id) (db_ads w') = Some ad'
  /\ (new_status <> "active" ->
      forall regex_search category_id subcategory_id city_id search
             min_price max_price sort page limit resp w'',
        get_ads regex_search category_id subcategory_id city_id search
          min_price max_price sort page limit w' = (Return resp, w'') ->
        ~ In ad' (page_ads resp))
  /\ (new_status = "active" ->
      forall regex_search sort limit,
        1 <= limit ->
        count_documents (ads_query regex_search None None None None None None) (db_ads w')
          <= limit ->
        exists resp,
          get_ads regex_search None None None None None None sort 1 limit w'
          = (Return resp, w')
          /\ In ad' (page_ads resp)).
Proof.
  intros Hrole Hvalid Hfind w' ad'.
  destruct (admin_update_ad_status_run ad_id new_status now w admin ad Hrole Hvalid Hfind)
    as [w2 [Hrun [Hads _]]].
  assert (Hw' : w' = w2) by (subst w'; rewrite Hrun; reflexivity).
  assert (Hafter : find_one (by_ad_id ad_id) (db_ads w') = Some ad').
  { rewrite Hw', Hads. apply find_one_update_one; [intros x; reflexivity | exact Hfind]. }
  split; [exact Hafter|]. split.
  - intros Hnot regex_search category_id subcategory_id city_id search
           min_price max_price sort page limit resp w'' Hlist Hin.
    destruct (get_ads_only_active _ _ _ _ _ _ _ _ _ _ _ _ _ _ Hlist Hin) as [_ Hactive].
    apply Hnot. exact Hactive.
  - intros Hactive regex_search sort limit Hlimit Hfit.
    eexists. split; [apply get_ads_returns; lia|]. cbn [page_ads].
    apply page_slice_full; [exact Hfit | now apply find_one_some in Hafter|].
    unfold ads_query, ad'. cbn [Ad.status]. rewrite Hactive. reflexivity.
Qed.

Lemma moderation_decides_listing_witness :
  find_one (by_ad_id "ad_b0b0b0b0b0b0")
    (db_ads (snd (admin_update_ad_status "ad_b0b0b0b0b0b0" (t0 + 1)
                    (as_user admin_carmen (Some "rejected")) world_bogdan)))
  = Some (Ad.set_status "rejected" (t0 + 1) ad_bogdan).
Proof.
  exact (proj1 (moderation_decides_listing "ad_b0b0b0b0b0b0" "rejected" (t0 + 1)
                  world_bogdan admin_carmen ad_bogdan eq_refl
                  (or_intror (or_intror (or_introl eq_refl))) eq_refl)).
Defined.

(** ** Rank and last topup *)

Lemma delete_one_Forall {A} (P : A -> Prop) (q : A -> bool) (coll : list A) :
  Forall P coll -> Forall P (delete_one q coll).
Proof.
  induction 1 as [|x rest Hx Hrest IH]; simpl; [constructor|].
  destruct (q x); [exact Hrest | now constructor].
Qed.

Ltac keep_rank Hinv :=
  repeat first
    [ progress cbn [snd fst with_ads with_payments with_task
                    db_ads db_payments db_users db_reviews tasks]
    | match goal with
      | |- context [if ?b then _ else _] => destruct b
      | |- context [match find_one ?q ?l with _ => _ end] => destruct (find_one q l)
      | |- context [match ?o with Some _ => _ | None => _ end] => destruct o
      end ];
  first [ exact Hinv
        | apply update_one_Forall; [intros ? Hx; exact Hx | exact Hinv]
        | apply delete_one_Forall; exact Hinv ].

(** X25.  The rank of every stored ad is the instant of its last topup,
    and 0 while it has none: if this holds of the ad collection it holds
    again after any call of [create_ad], [topup_ad], [get_ad], [update_ad],
    [delete_ad], [toggle_auto_topup], [admin_update_ad_status] and
    [payment_webhook], whatever the request. *)
Theorem rank_follows_last_topup (w : world) :
  Forall rank_consistent (db_ads w) ->
  (forall uuid12 now req,
      Forall rank_consistent (db_ads (snd (create_ad uuid12 now req w))))
  /\ (forall ad_id now_check now req,
         Forall rank_consistent (db_ads (snd (topup_ad ad_id now_check now req w))))
  /\ (forall ad_id, Forall rank_consistent (db_ads (snd (get_ad ad_id w))))
  /\ (forall ad_id now req,
         Forall rank_consistent (db_ads (snd (update_ad ad_id now req w))))
  /\ (forall ad_id req, Forall rank_consistent (db_ads (snd (delete_ad ad_id req w))))
  /\ (forall ad_id req,
         Forall rank_consistent (db_ads (snd (toggle_auto_topup ad_id req w))))
  /\ (forall ad_id now req,
         Forall rank_consistent (db_ads (snd (admin_update_ad_status ad_id now req w))))
  /\ (forall json_loads field_condition now_completed now_effect ev,
         Forall rank_consistent
           (db_ads (snd (payment_webhook json_loads field_condition now_completed
                           now_effect ev w)))).
Proof.
  intros Hinv.
  split; [intros; now apply create_ad_rank_consistent|].
  split; [intros; now apply topup_ad_rank_consistent|].
  split.
  { intros ad_id. unfold get_ad. run_handler.
    destruct (find_one (by_ad_id ad_id) (db_ads w)) as [ad|]; [|exact Hinv].
    rewrite notify_milestone_run.
    match goal with
    | |- context [if ?b then _ else _] => destruct b
    end;
      cbn [snd db_ads with_ads with_task];
      (apply update_one_Forall; [intros x Hx; exact Hx | exact Hinv]). }
  split.
  { intros ad_id now req. unfold update_ad, require_auth.
    destruct (current_user req) as [user|]; run_handler; keep_rank Hinv. }
  split.
  { intros ad_id req. unfold delete_ad, require_auth.
    destruct (current_user req) as [user|]; run_handler; keep_rank Hinv. }
  split.
  { intros ad_id req. unfold toggle_auto_topup, require_auth.
    destruct (current_user req) as [user|]; run_handler; keep_rank Hinv. }
  split.
  { intros ad_id now req. unfold admin_update_ad_status, require_admin, require_auth.
    destruct (current_user req) as [user|]; run_handler; keep_rank Hinv. }
  intros json_loads field_condition now_completed now_effect ev.
  destruct (payment_webhook_db json_loads field_condition now_completed now_effect ev w)
    as [_ [_ Hdb]].
  destruct (correlation_fields json_loads ev) as [fields|]; [|now rewrite Hdb].
  destruct (opt_str_is (StatusId ev) "F"); [|now rewrite Hdb].
  destruct Hdb as [-> _]. unfold webhook_ad_write.
  keep_rank Hinv.
Qed.

Lemma rank_follows_last_topup_witness :
  Forall rank_consistent
    (db_ads (snd (payment_webhook sample_loads sample_condition t0 t0 boost_event
                    world_boost_pending)))
  /\ Forall rank_consistent
       (db_ads (snd (topup_ad "ad_b0b0b0b0b0b0" (t0 + 90 * MICROS_PER_MINUTE)
                       (t0 + 90 * MICROS_PER_MINUTE) (as_user seller_bogdan tt)
                       world_boost_pending))).
Proof.
  assert (Hinv : Forall rank_consistent (db_ads world_boost_pending))
    by (repeat constructor).
  destruct (rank_follows_last_topup world_boost_pending Hinv)
    as [_ [Htopup [_ [_ [_ [_ [_ Hhook]]]]]]].
  split; [apply Hhook | apply Htopup].
Defined.

(** X26.  A manual TopUp is refused, and nothing is written, for every
    caller who does not own the ad, administrators included (403 "Not your
    ad"), and for the owner of an ad that is not [active] (400). *)
Theorem topup_ad_refusals
  (ad_id : string) (now_check now : instant) (w : world) (user : User.t) (ad : Ad.t) :
  find_one (by_ad_id ad_id) (db_ads w) = Some ad ->
  (Ad.user_id ad <> User.user_id user ->
   topup_ad ad_id now_check now (as_user user tt) w
   = (Raised (HTTPException 403 NotYourAd), w))
  /\ (Ad.user_id ad = User.user_id user ->
      Ad.status ad <> "active" ->
      topup_ad ad_id now_check now (as_user user tt) w
      = (Raised (HTTPException 400 AdMustBeActive), w)).
Proof.
  intros Hfind. unfold topup_ad, require_auth, as_user. cbn [current_user].
  run_handler. rewrite Hfind. split.
  - intros Hother. apply String.eqb_neq in Hother. rewrite Hother. reflexivity.
  - intros Howner Hstatus. rewrite Howner, String.eqb_refl.
    apply String.eqb_neq in Hstatus. rewrite Hstatus. reflexivity.
Qed.

Lemma topup_ad_refusals_witness :
  topup_ad "ad_b0b0b0b0b0b0" (t0 + 90 * MICROS_PER_MINUTE) (t0 + 90 * MICROS_PER_MINUTE)
    (as_user admin_carmen tt) world_two_sellers
  = (Raised (HTTPException 403 NotYourAd), world_two_sellers)
  /\ topup_ad "ad_a1a1a1a1a1a1" (t0 + 90 * MICROS_PER_MINUTE) (t0 + 90 * MICROS_PER_MINUTE)
       (as_user seller_ana tt) world_two_sellers
     = (Raised (HTTPException 400 AdMustBeActive), world_two_sellers).
Proof.
  split.
  - apply (proj1 (topup_ad_refusals "ad_b0b0b0b0b0b0" (t0 + 90 * MICROS_PER_MINUTE)
                    (t0 + 90 * MICROS_PER_MINUTE) world_two_sellers admin_carmen
                    ad_bogdan eq_refl)).
    discriminate.
  - apply (proj2 (topup_ad_refusals "ad_a1a1a1a1a1a1" (t0 + 90 * MICROS_PER_MINUTE)
                    (t0 + 90 * MICROS_PER_MINUTE) world_two_sellers seller_ana
                    ad_ana_pending eq_refl));
      [reflexivity | discriminate].
Defined.

(** ** Reviews *)

Lemma create_review_refused
  (uuid12 : string) (now : instant) (data : review_create) (w : world) (user : User.t) :
  let in_range := 1 <= rc_rating data <= 5 in
  let other := rc_seller_id data <> User.user_id user in
  let run := create_review uuid12 now (as_user user data) w in
  (~ in_range -> run = (Raised (HTTPException 400 RatingOutOfRange), w))
  /\ (in_range -> ~ other -> run = (Raised (HTTPException 400 CannotReviewYourself), w))
  /\ (in_range -> other ->
      find_one (by_user_id (rc_seller_id data)) (db_users w) = None ->
      run = (Raised (HTTPException 404 SellerNotFound), w))
  /\ (in_range -> other ->
      find_one (by_user_id (rc_seller_id data)) (db_users w) <> None ->
      find_one (same_review (User.user_id user) (rc_seller_id data) (rc_ad_id data))
        (db_reviews w) <> None ->
      run = (Raised (HTTPException 400 AlreadyReviewed), w)).
Proof.
  intros in_range other run. subst in_range other run.
  unfold create_review, require_auth, as_user. cbn [current_user body]. run_handler.
  destruct (Z.ltb_spec (rc_rating data) 1) as [Hlow|Hlow];
    [cbn [orb]; repeat split; intros; (reflexivity || lia)|].
  destruct (Z.ltb_spec 5 (rc_rating data)) as [Hhigh|Hhigh];
    [cbn [orb]; repeat split; intros; (reflexivity || lia)|].
  cbn [orb].
  destruct (String.eqb_spec (rc_seller_id data) (User.user_id user)) as [Hself|Hself].
  { split; [intros Hout; exfalso; apply Hout; lia|].
    split; [reflexivity|]. split; intros _ Hother; contradiction. }
  split; [intros Hout; exfalso; apply Hout; lia|].
  split; [intros _ Hnot; exfalso; apply Hnot; exact Hself|].
  split.
  - intros _ _ Hnone. rewrite Hnone. reflexivity.
  - intros _ _ Hseller Hdup.
    destruct (find_one (by_user_id (rc_seller_id data)) (db_users w)); [|congruence].
    unfold same_review in Hdup.
    destruct (find_one _ (db_reviews w)); [reflexivity | congruence].
Qed.

(** X27.  A review is refused, and nothing is written, in this order: with
    400 for a rating below 1 or above 5; with 400 for a review of oneself;
    with 404 when the seller has no account; with 400 when the reviewer
    already has a review of the same seller for the same ad (or for no
    ad). *)
Theorem create_review_refusals
  (uuid12 : string) (now : instant) (data : review_create) (w : world) (user : User.t) :
  let in_range := 1 <= rc_rating data <= 5 in
  let other := rc_seller_id data <> User.user_id user in
  let run := create_review uuid12 now (as_user user data) w in
  (~ in_range -> run = (Raised (HTTPException 400 RatingOutOfRange), w))
  /\ (in_range -> ~ other -> run = (Raised (HTTPException 400 CannotReviewYourself), w))
  /\ (in_range -> other ->
      find_one (by_user_id (rc_seller_id data)) (db_users w) = None ->
      run = (Raised (HTTPException 404 SellerNotFound), w))
  /\ (in_range -> other ->
      find_one (by_user_id (rc_seller_id data)) (db_users w) <> None ->
      find_one (same_review (User.user_id user) (rc_seller_id data) (rc_ad_id data))
        (db_reviews w) <> None ->
      run = (Raised (HTTPException 400 AlreadyReviewed), w)).
Proof.
  exact (create_review_refused uuid12 now data w user).
Qed.



Lemma update_seller_rating_keeps_reviews (seller_id : string) (w : world) :
  db_reviews (snd (update_seller_rating seller_id w)) = db_reviews w
  /\ db_ads (snd (update_seller_rating seller_id w)) = db_ads w.
Proof.
  unfold update_seller_rating. run_handler.
  destruct (aggregate_ratings seller_id (db_reviews w)) as [|[total count] rest];
    split; reflexivity.
Qed.



Lemma sum_ratings_bounds (l : list Review.t) :
  Forall rating_in_range l ->
  Z.of_nat (List.length l) <= sum_ratings l <= 5 * Z.of_nat (List.length l).
Proof.
  induction 1 as [|r rest Hr Hrest IH]; simpl; [lia|].
  unfold rating_in_range in Hr. lia.
Qed.

Lemma round_tenths_bounds (total count : Z) :
  1 <= count -> count <= total <= 5 * count ->
  10 <= round_tenths total count <= 50.
Proof.
  intros Hcount Htotal. unfold round_tenths.
  pose proof (Z.div_mod (10 * total) count ltac:(lia)) as Hdm.
  pose proof (Z.mod_pos_bound (10 * total) count ltac:(lia)) as Hmod.
  set (q := 10 * total / count) in *. set (r := (10 * total) mod count) in *.
  assert (Hq : 10 <= q <= 50) by nia.
  destruct (Z.ltb_spec (2 * r) count) as [H1|H1]; [exact Hq|].
  assert (q <= 49) by nia.
  destruct (Z.ltb_spec count (2 * r)) as [H2|H2]; [lia|].
  destruct (Z.even q); lia.
Qed.

(** X30.  Stored ratings stay on the scale.  If every stored review has a
    rating from 1 to 5, this is still so after any call of [create_review]
    and [delete_review], and whenever a seller with at least one review is
    recomputed the stored average lies between 1.0 and 5.0 and the stored
    count is at least 1. *)
Theorem stored_rating_stays_on_scale (w : world) :
  Forall rating_in_range (db_reviews w) ->
  (forall uuid12 now req,
      Forall rating_in_range (db_reviews (snd (create_review uuid12 now req w))))
  /\ (forall review_id req,
         Forall rating_in_range (db_reviews (snd (delete_review review_id req w))))
  /\ (forall seller_id seller,
         find_one (by_user_id seller_id) (db_users w) = Some seller ->
         filter (by_seller_id seller_id) (db_reviews w) <> [] ->
         exists avg count,
           rating_of seller_id (snd (update_seller_rating seller_id w))
           = Some (Some avg, Some count)
           /\ 10 <= avg <= 50 /\ 1 <= count).
Proof.
  intros Hinv. split; [|split].
  - intros uuid12 now req. unfold create_review, require_auth.
    destruct (current_user req) as [user|]; run_handler; [|exact Hinv].
    destruct ((rc_rating (body req) <? 1) || (5 <? rc_rating (body req))) eqn:Hguard;
      [exact Hinv|].
    destruct (rc_seller_id (body req) =? User.user_id user)%string; [exact Hinv|].
    destruct (find_one (by_user_id (rc_seller_id (body req))) (db_users w));
      [|exact Hinv].
    destruct (find_one _ (db_reviews w)); [exact Hinv|].
    match goal with
    | |- context [update_seller_rating ?s ?w1] =>
      pose proof (update_seller_rating_keeps_reviews s w1) as [Hkeep _];
        destruct (update_seller_rating s w1) as [[[]|e] w2]
    end;
      cbn [snd] in *; rewrite Hkeep; cbn [db_reviews with_reviews];
      unfold insert_one; apply Forall_app; (split; [exact Hinv|]);
      constructor; try constructor;
      unfold rating_in_range; cbn [Review.rating];
      apply orb_false_iff in Hguard; destruct Hguard as [H1 H2];
      apply Z.ltb_ge in H1; apply Z.ltb_ge in H2; lia.
  - intros review_id req. unfold delete_review, require_auth.
    destruct (current_user req) as [user|]; run_handler; [|exact Hinv].
    destruct (find_one (by_review_id review_id) (db_reviews w)) as [review|];
      [|exact Hinv].
    destruct (negb (Review.reviewer_id review =? User.user_id user)%string
              && negb (opt_str_is (User.role user) "admin")); [exact Hinv|].
    match goal with
    | |- context [update_seller_rating ?s ?w1] =>
      pose proof (update_seller_rating_keeps_reviews s w1) as [Hkeep _];
        destruct (update_seller_rating s w1) as [[[]|e] w2]
    end;
      cbn [snd] in *; rewrite Hkeep; cbn [db_reviews with_reviews];
      apply delete_one_Forall; exact Hinv.
  - intros seller_id seller Hseller Hsome.
    destruct (update_seller_rating_some_reviews seller_id w seller Hseller Hsome)
      as [w' [Hupd [_ Hrating]]].
    rewrite Hupd. cbn [snd]. eexists. eexists. split; [exact Hrating|].
    set (matching := filter (by_seller_id seller_id) (db_reviews w)) in *.
    assert (Hlen : 1 <= Z.of_nat (List.length matching))
      by (destruct matching; [contradiction | simpl; lia]).
    assert (Hrange : Forall rating_in_range matching).
    { unfold matching. rewrite Forall_forall in *. intros r Hr.
      apply filter_In in Hr. apply Hinv. tauto. }
    split; [|exact Hlen].
    apply round_tenths_bounds; [exact Hlen | now apply sum_ratings_bounds].
Qed.

Lemma stored_rating_stays_on_scale_witness :
  exists avg count,
    rating_of "user_bogdan" (snd (update_seller_rating "user_bogdan" world_three_reviews))
    = Some (Some avg, Some count)
    /\ 10 <= avg <= 50 /\ 1 <= count.
Proof.
  assert (Hinv : Forall rating_in_range (db_reviews world_three_reviews)).
  { repeat constructor; discriminate. }
  destruct (stored_rating_stays_on_scale world_three_reviews Hinv) as [_ [_ Hrecount]].
  apply (Hrecount "user_bogdan"
           (User.mk "user_bogdan" "bogdan@example.com" "Bogdan" None (Some 2)
              (Some 40) (Some 3))).
  - reflexivity.
  - vm_compute. discriminate.
Defined.
